(** * Synthetic liver-cirrhosis dataset generator: embedding and properties

    A shallow embedding of the Python sources under [scripts/]
    ([config.py], [utils.py], [labels_generator.py], [image_generators.py],
    [dataset_splitter.py]) and the properties of the split assignment,
    the label table and the image synthesis that the specification
    states, followed by further properties of the same code.

    Conventions.
    - Python [int] is [Z]; [str] is [string]; a [dict] whose iteration
      order matters is an association list in insertion order.
    - Python [float] is a type [F] with the operations of the class
      [PyFloat].  Two instances are given: IEEE-754 binary64 (Rocq's
      primitive floats, the arithmetic CPython runs on) and exact
      rationals.  Concrete runs are evaluated on binary64.  Statements
      that quantify over all inputs are proved for every arithmetic
      that satisfies the laws they name: the laws of the quotient and
      of the order hold on binary64 and on the rationals, the law of
      totality on the rationals only (binary64 has NaN).
    - [raise] is the [Raise] branch of [PyResult].
    - NumPy's [RandomState] and [hashlib.sha256] are libraries outside
      the repository: they are interfaces ([NumpyRandom], [Hashlib]).
    - The interpreter-wide state that [set_global_seed] writes is the
      record [Process]; code that runs inside the interpreter lives in
      the monad [Py]. *)

From Stdlib Require Import ZArith QArith Qabs Qround List String Ascii Bool Lia Floats.
From Stdlib Require Import DecimalString DecimalN DecimalPos Permutation FinFun.
Import ListNotations.

Set Warnings "-inexact-float".
Local Open Scope string_scope.
Local Open Scope Z_scope.

(** ** Exceptions *)

Inductive PyError : Type :=
| ValueError
| ZeroDivisionError
| IndexError
| KeyError
| OverflowError.

Inductive PyResult (A : Type) : Type :=
| Ok (a : A)
| Raise (e : PyError).

Arguments Ok {A} a.
Arguments Raise {A} e.

(** ** Monads

    [PyResult] carries exceptions.  A computation that draws from a
    generator object of type [G] is a [Rand G]: it receives the state of
    the generator and returns the state after its draws.  A computation
    that runs in an interpreter whose global state has type [P] is a
    [Py P]. *)

Class Monad (M : Type -> Type) : Type := {
  ret : forall {A : Type}, A -> M A;
  bind : forall {A B : Type}, M A -> (A -> M B) -> M B
}.

Declare Scope py_scope.
Delimit Scope py_scope with py.
Notation "x <- c ;; k" := (bind c (fun x => k))
  (at level 61, c at next level, right associativity) : py_scope.
Notation "' p <- c ;; k" := (bind c (fun p => k))
  (at level 61, p pattern, c at next level, right associativity) : py_scope.
Local Open Scope py_scope.

#[export] Instance PyResult_monad : Monad PyResult := {
  ret := fun A a => Ok a;
  bind := fun A B c k =>
    match c with
    | Ok a => k a
    | Raise e => Raise e
    end
}.

Definition Rand (G A : Type) : Type := G -> PyResult (A * G).

#[export] Instance Rand_monad (G : Type) : Monad (Rand G) := {
  ret := fun A a s => Ok (a, s);
  bind := fun A B c k s =>
    match c s with
    | Ok (a, s') => k a s'
    | Raise e => Raise e
    end
}.

(** An exception raised while the generator is in use. *)
Definition rand_lift {G A : Type} (c : PyResult A) : Rand G A :=
  fun s =>
    match c with
    | Ok a => Ok (a, s)
    | Raise e => Raise e
    end.

Definition Py (P A : Type) : Type := P -> PyResult A * P.

#[export] Instance Py_monad (P : Type) : Monad (Py P) := {
  ret := fun A a p => (Ok a, p);
  bind := fun A B c k p =>
    match c p with
    | (Ok a, p') => k a p'
    | (Raise e, p') => (Raise e, p')
    end
}.

(** Code that neither reads nor writes the interpreter's global state. *)
Definition py_lift {P A : Type} (c : PyResult A) : Py P A := fun p => (c, p).

(** ** Python floats *)

(** The operations on [float] that the sources use.  [fquot a b] is
    the correctly rounded quotient of two ints with [b <> 0], which
    Python's true division [a / b] returns unless it is too large for
    a float ([fis_inf]); a decimal literal such as [0.15] is
    [fquot 15 100].  [ftrunc] is [int(x)], [fround] is [round(x)],
    [f32] is [astype(np.float32)].  Python raises on [int] and [round]
    of a NaN or an infinity; the samplers never return one, and the
    instances give 0 there. *)
Class PyFloat (F : Type) : Type := {
  fadd : F -> F -> F;
  fsub : F -> F -> F;
  fmul : F -> F -> F;
  fdiv : F -> F -> F;
  fabs : F -> F;
  fleb : F -> F -> bool;
  fis_inf : F -> bool;
  fquot : Z -> Z -> F;
  ftrunc : F -> Z;
  fround : F -> Z;
  f32 : F -> F
}.

(** [float(n)] for an int [n]. *)
Definition of_Z {F : Type} `{PyFloat F} (n : Z) : F := fquot n 1.

(** [n / n] is [1.0], and a quotient of at most one is not too large
    for a float.  Proved below for binary64 and for exact arithmetic. *)
Class FloatQuotientLaws (F : Type) `{PyFloat F} : Prop := {
  fquot_same : forall n : Z, 0 < n -> fquot n n = of_Z 1;
  fquot_unit_finite : forall a n : Z,
      0 < n -> 0 <= a <= n -> fis_inf (fquot a n) = false
}.

(** The laws of the order that the proofs of monotonicity use: [<=] is
    transitive, also in the presence of NaN, and the quotient of
    non-negative ints grows with its numerator.  Proved below for
    binary64 and for exact arithmetic. *)
Class FloatOrderLaws (F : Type) `{PyFloat F} : Prop := {
  fleb_trans : forall a b c : F,
      fleb a b = true -> fleb b c = true -> fleb a c = true;
  fquot_mono : forall a b n : Z,
      0 < n -> 0 <= a -> a <= b -> fleb (fquot a n) (fquot b n) = true
}.

(** The order is total and narrowing to single precision is monotone
    and keeps 0 and 1: true of exact arithmetic, and of binary64 on
    values that are not NaN. *)
Class FloatTotalLaws (F : Type) `{PyFloat F} : Prop := {
  fleb_total : forall a b : F, fleb a b = false -> fleb b a = true;
  fleb_zero_one : fleb (of_Z 0) (of_Z 1) = true;
  f32_mono : forall a b : F, fleb a b = true -> fleb (f32 a) (f32 b) = true;
  f32_zero : f32 (of_Z 0) = of_Z 0;
  f32_one : f32 (of_Z 1) = of_Z 1
}.

(** *** IEEE-754 binary64 *)

(** Round half to even of [num / den], for [0 < den]. *)
Definition round_half_even (num den : Z) : Z :=
  let q := num / den in
  let r := num mod den in
  match 2 * r ?= den with
  | Lt => q
  | Gt => q + 1
  | Eq => if Z.even q then q else q + 1
  end.

(** [2^e] is [scale_up e / scale_up (- e)] for an exponent of either
    sign. *)
Definition scale_up (e : Z) : Z := 2 ^ Z.max 0 e.

(** [n * 2^e <= x] and [x < n * 2^e]. *)
Definition ge_pow (x n e : Z) : Prop := n * scale_up e <= x * scale_up (- e).
Definition lt_pow (x n e : Z) : Prop := x * scale_up (- e) < n * scale_up e.

(** For [0 < x] and [0 < n], the exponent [k] with
    [2^(k-1) <= x / n < 2^k]. *)
Definition quotient_magnitude (x n : Z) : Z :=
  let d := Z.log2 x - Z.log2 n in
  if n * scale_up d <=? x * scale_up (- d) then d + 1 else d.

(** The exponent of the unit in the last place of [x / n]: 53
    significant bits, and no exponent below that of the subnormal
    numbers. *)
Definition quotient_exponent (x n : Z) : Z :=
  Z.max (quotient_magnitude x n - 53) (-1074).

(** [x / n] in units of the last place, rounded. *)
Definition quotient_mantissa (x n : Z) : Z :=
  let c := quotient_exponent x n in
  round_half_even (x * scale_up (- c)) (n * scale_up c).

(** A significand that rounding has carried to [2^53]. *)
Definition carry (mc : Z * Z) : Z * Z :=
  if fst mc =? 2 ^ 53 then (2 ^ 52, snd mc + 1) else mc.

Definition pack (s : bool) (mc : Z * Z) : spec_float :=
  match fst mc with
  | Zpos p => if snd mc <=? 971 then S754_finite s p (snd mc) else S754_infinity s
  | _ => S754_zero s
  end.

(** The quotient [x / n] of two non-negative ints rounded to the
    nearest binary64 number, ties to even, with sign [s]. *)
Definition b64_round_quotient (s : bool) (x n : Z) : spec_float :=
  pack s (carry (quotient_mantissa x n, quotient_exponent x n)).

(** The correctly rounded quotient of two ints, which is what
    CPython's [long_true_divide] computes. *)
Definition b64_quot (a b : Z) : float :=
  SF2Prim (b64_round_quotient (xorb (a <? 0) (b <? 0)) (Z.abs a) (Z.abs b)).

Definition b64_is_inf (x : float) : bool :=
  match Prim2SF x with
  | S754_infinity _ => true
  | _ => false
  end.

Definition b64_trunc (x : float) : Z :=
  match Prim2SF x with
  | S754_finite s m e => cond_Zopp s ((Zpos m * scale_up e) / scale_up (- e))
  | _ => 0
  end.

Definition b64_round (x : float) : Z :=
  match Prim2SF x with
  | S754_finite s m e =>
      cond_Zopp s (round_half_even (Zpos m * scale_up e) (scale_up (- e)))
  | _ => 0
  end.

(** Rounding to binary32 (24-bit significand, exponents up to 128). *)
Definition b64_f32 (x : float) : float :=
  match Prim2SF x with
  | S754_finite s m e => SF2Prim (binary_round 24 128 s m e)
  | _ => x
  end.

#[export] Instance b64_float : PyFloat float := {
  fadd := PrimFloat.add;
  fsub := PrimFloat.sub;
  fmul := PrimFloat.mul;
  fdiv := PrimFloat.div;
  fabs := PrimFloat.abs;
  fleb := PrimFloat.leb;
  fis_inf := b64_is_inf;
  fquot := b64_quot;
  ftrunc := b64_trunc;
  fround := b64_round;
  f32 := b64_f32
}.

(** *** Exact rationals *)

Definition Q_quot (a b : Z) : Q := Qred (inject_Z a / inject_Z b).

Definition Q_trunc (x : Q) : Z := Z.quot (Qnum x) (Zpos (Qden x)).

Definition Q_round (x : Q) : Z := round_half_even (Qnum x) (Zpos (Qden x)).

#[export] Instance Q_float : PyFloat Q := {
  fadd := Qplus;
  fsub := Qminus;
  fmul := Qmult;
  fdiv := Qdiv;
  fabs := Qabs;
  fleb := Qle_bool;
  fis_inf := fun _ => false;
  fquot := Q_quot;
  ftrunc := Q_trunc;
  fround := Q_round;
  f32 := fun x => x
}.

(** ** config.py *)

Section config.
Context {F : Type} `{PyFloat F}.

Definition RANDOM_SEED : Z := 42.

Definition IMAGE_RESOLUTIONS : list (string * (Z * Z)) :=
  [("MRI", (256, 256)); ("CT", (512, 512)); ("Ultrasound", (224, 224))].

Definition NUM_PATIENTS : Z := 1000.

Definition SPLIT_RATIOS : list (string * F) :=
  [("train", fquot 7 10); ("val", fquot 15 100); ("test", fquot 15 100)].

Definition FIBROSIS_STAGES : list string := ["F0"; "F1"; "F2"; "F3"; "F4"].

Definition BINARY_LABEL_MAPPING : list (string * list string) :=
  [("negative", ["F0"; "F1"; "F2"]); ("positive", ["F3"; "F4"])].
End config.

(** ** utils.py *)

Section utils.
Context {F : Type} `{PyFloat F}.

(** [sum(xs)]: left to right, starting from 0.  (CPython 3.12 and
    later compensate the rounding errors of a sum of floats; the two
    sums differ by a rounding error, far below the tolerance of
    [np.isclose].) *)
Definition py_sum (xs : list F) : F := fold_left fadd xs (of_Z 0).

(** [np.isclose(a, b)] with NumPy's default [rtol = 1e-05] and
    [atol = 1e-08], for a finite [b]:
    [abs(a - b) <= atol + rtol * abs(b)]. *)
Definition rtol : F := fquot 1 100000.
Definition atol : F := fquot 1 100000000.

Definition np_isclose (a b : F) : bool :=
  fleb (fabs (fsub a b)) (fadd atol (fmul rtol (fabs b))).

(** [a / b] on ints. *)
Definition py_truediv (a b : Z) : PyResult F :=
  if b =? 0 then Raise ZeroDivisionError
  else
    let q := fquot a b in
    if fis_inf q then Raise OverflowError else Ok q.

(** [l[-1]]. *)
Definition py_last {A : Type} (l : list A) : PyResult A :=
  match rev l with
  | [] => Raise IndexError
  | x :: _ => Ok x
  end.

(** The first loop of [assign_split]: the running sum after each
    item, in the order of the mapping. *)
Fixpoint split_boundaries (cumulative : F) (items : list (string * F))
  : list (string * F) :=
  match items with
  | [] => []
  | (split, ratio) :: rest =>
      let cumulative := fadd cumulative ratio in
      (split, cumulative) :: split_boundaries cumulative rest
  end.

(** The second loop: the first boundary that [position] does not
    exceed; [None] when the loop falls through. *)
Fixpoint first_boundary (position : F) (boundaries : list (string * F))
  : option string :=
  match boundaries with
  | [] => None
  | (split, threshold) :: rest =>
      if fleb position threshold then Some split
      else first_boundary position rest
  end.

Definition assign_split (patient_index num_patients : Z)
           (split_ratios : list (string * F)) : PyResult string :=
  if negb (np_isclose (py_sum (map snd split_ratios)) (of_Z 1))
  then Raise ValueError
  else
    let boundaries := split_boundaries (of_Z 0) split_ratios in
    position <- py_truediv (patient_index + 1) num_patients ;;
    match first_boundary position boundaries with
    | Some split => Ok split
    | None => py_last (map fst split_ratios)
    end.

(** [str(n)] and the format specification [04d] for an int. *)
Definition py_str_int (n : Z) : string :=
  NilZero.string_of_int (Z.to_int n).

Fixpoint zeros (n : nat) : string :=
  match n with
  | O => ""
  | S k => String "0" (zeros k)
  end.

Definition format_04d (n : Z) : string :=
  let digits := NilZero.string_of_uint (N.to_uint (Z.abs_N n)) in
  if n <? 0
  then "-" ++ zeros (3 - String.length digits) ++ digits
  else zeros (4 - String.length digits) ++ digits.

Definition get_patient_id (patient_index : Z) (prefix : string) : string :=
  prefix ++ "_" ++ format_04d patient_index.

Definition get_image_filename (patient_id modality extension : string) : string :=
  patient_id ++ "_" ++ modality ++ extension.
End utils.

(** ** The libraries the sources call *)

(** [numpy.random.RandomState], the legacy Mersenne-Twister generator.
    [G] is the state of a generator object.  Every method draws from
    the state and leaves the state after the draw. *)
Class NumpyRandom (F G : Type) : Type := {
  rs_seeded : Z -> G;
  rs_random_sample : G -> F * G;
  rs_randint : Z -> Z -> G -> Z * G;
  rs_normal : F -> F -> G -> F * G;
  rs_gamma : F -> F -> G -> F * G;
  rs_poisson : F -> G -> Z * G;
  rs_choice : list string -> list F -> G -> string * G
}.

(** [randint(low, high)] returns an int of the half-open interval. *)
Class NumpyRandomLaws (F G : Type) `{NumpyRandom F G} : Prop := {
  rs_randint_range : forall (low high : Z) (s : G),
      low < high -> low <= fst (rs_randint low high s) < high
}.

(** [choice(a, p=p)] returns an element of a non-empty [a]. *)
Class NumpyChoiceLaws (F G : Type) `{NumpyRandom F G} : Prop := {
  rs_choice_in : forall (a : list string) (p : list F) (s : G),
      a <> [] -> In (fst (rs_choice a p s)) a
}.

(** [numpy]'s elementary functions on floats. *)
Class NumpyMath (F : Type) : Type := {
  np_cos : F -> F;
  np_sin : F -> F;
  np_sqrt : F -> F;
  np_radians : F -> F
}.

(** [int(hashlib.sha256(s.encode()).hexdigest(), 16)]: the digest of
    the UTF-8 bytes of [s], read as a big-endian number. *)
Class Hashlib : Type := {
  sha256_int : string -> Z
}.

Section numpy_random.
Context {F G : Type} `{PyFloat F} `{NumpyRandom F G}.

(** [np.random.RandomState(seed)]: the seed must fit 32 bits. *)
Definition RandomState (seed : Z) : PyResult G :=
  if (0 <=? seed) && (seed <? 2 ^ 32) then Ok (rs_seeded seed)
  else Raise ValueError.

(** The generator object itself, in the state it has reached. *)
Definition rng_object : Rand G G := fun s => Ok (s, s).

Definition rng_rand : Rand G F :=
  fun s => Ok (rs_random_sample s).

Definition rng_randint (low high : Z) : Rand G Z :=
  fun s => if low <? high then Ok (rs_randint low high s) else Raise ValueError.

(** [uniform(low, high)] is [low + (high - low) * random_sample()]. *)
Definition rng_uniform (low high : F) : Rand G F :=
  fun s =>
    let '(u, s') := rs_random_sample s in
    Ok (fadd low (fmul (fsub high low) u), s').

Definition rng_normal (loc scale : F) : Rand G F :=
  fun s => Ok (rs_normal loc scale s).

Definition rng_gamma (shape scale : F) : Rand G F :=
  fun s => Ok (rs_gamma shape scale s).

Definition rng_poisson (lam : F) : Rand G Z :=
  fun s => Ok (rs_poisson lam s).

Definition rng_choice (a : list string) (p : list F) : Rand G string :=
  fun s => Ok (rs_choice a p s).

(** The interpreter-wide state that [set_global_seed] writes: the
    seed of the [random] module, NumPy's global generator and the
    process environment. *)
Record Process : Type := {
  py_random_seed : option Z;
  np_global : option G;
  environ : list (string * string)
}.

Fixpoint environ_set (k v : string) (env : list (string * string))
  : list (string * string) :=
  match env with
  | [] => [(k, v)]
  | (k', v') :: rest =>
      if String.eqb k k' then (k, v) :: rest
      else (k', v') :: environ_set k v rest
  end.

Definition set_global_seed (seed : Z) : Py Process unit :=
  fun p =>
    let p1 := {| py_random_seed := Some seed;
                 np_global := np_global p;
                 environ := environ p |} in
    match RandomState seed with
    | Raise e => (Raise e, p1)
    | Ok g =>
        (Ok tt,
         {| py_random_seed := Some seed;
            np_global := Some g;
            environ := environ_set "PYTHONHASHSEED" (py_str_int seed) (environ p) |})
    end.
End numpy_random.

Arguments Process G : clear implicits.

(** ** labels_generator.py *)

Record PatientRecord : Type := {
  patient_id : string;
  fibrosis_stage : string;
  binary_label : string;
  split : string;
  age : Z;
  sex : string
}.

(** A [pandas.DataFrame] built from a list of records: the columns
    are the keys of the records in their insertion order. *)
Record DataFrame : Type := {
  columns : list string;
  rows : list PatientRecord
}.

Definition pd_DataFrame (records : list PatientRecord) : DataFrame :=
  {| columns :=
       match records with
       | [] => []
       | _ :: _ =>
           ["patient_id"; "fibrosis_stage"; "binary_label"; "split"; "age"; "sex"]
       end;
     rows := records |}.

(** [d[k]]. *)
Fixpoint dict_get {V : Type} (d : list (string * V)) (k : string) : PyResult V :=
  match d with
  | [] => Raise KeyError
  | (k', v) :: rest => if String.eqb k k' then Ok v else dict_get rest k
  end.

(** [x in l]. *)
Definition py_in (x : string) (l : list string) : bool :=
  existsb (String.eqb x) l.

(** [np.clip] on ints. *)
Definition np_clip_int (x lo hi : Z) : Z := Z.min (Z.max x lo) hi.

Section labels_generator.
Context {F G : Type} `{PyFloat F} `{NumpyRandom F G}.

Definition AGE_MEAN : F := of_Z 60.
Definition AGE_STD : F := of_Z 10.
Definition AGE_MIN : Z := 30.
Definition AGE_MAX : Z := 85.

Definition SEX_OPTIONS : list string := ["M"; "F"].
Definition SEX_PROBS : list F := [fquot 5 10; fquot 5 10].

Definition FIBROSIS_PROBS : list F :=
  [fquot 30 100; fquot 25 100; fquot 20 100; fquot 15 100; fquot 10 100].

Definition generate_patient_labels (patient_index : Z) : Rand G PatientRecord :=
  let patient_id := get_patient_id patient_index "PAT" in
  fibrosis_stage <- rng_choice FIBROSIS_STAGES FIBROSIS_PROBS ;;
  positive <- rand_lift (dict_get BINARY_LABEL_MAPPING "positive") ;;
  let binary_label :=
    if py_in fibrosis_stage positive then "positive" else "negative" in
  split <- rand_lift (assign_split patient_index NUM_PATIENTS SPLIT_RATIOS) ;;
  x <- rng_normal AGE_MEAN AGE_STD ;;
  let age := np_clip_int (fround x) AGE_MIN AGE_MAX in
  sex <- rng_choice SEX_OPTIONS SEX_PROBS ;;
  ret {| patient_id := patient_id;
         fibrosis_stage := fibrosis_stage;
         binary_label := binary_label;
         split := split;
         age := age;
         sex := sex |}.

(** The body of the loop of [generate_all_labels], for the indices
    [idx], [idx + 1], ... ([n] of them); [rng] is the state of the
    generator of the whole run. *)
Fixpoint label_loop (n : nat) (idx : Z) (records : list PatientRecord)
  : Rand G (list PatientRecord) :=
  match n with
  | O => ret records
  | S n' =>
      patient_seed <- rng_randint 0 (2 ^ 31 - 1) ;;
      patient_rng <- rand_lift (RandomState patient_seed) ;;
      '(record, _) <- rand_lift (generate_patient_labels idx patient_rng) ;;
      label_loop n' (idx + 1) (records ++ [record])
  end.

Definition generate_all_labels (num_patients seed : Z) : Py (Process G) DataFrame :=
  py_lift (rng <- RandomState seed ;;
           '(records, _) <- label_loop (Z.to_nat num_patients) 0 [] rng ;;
           ret (pd_DataFrame records)).
End labels_generator.

(** ** dataset_splitter.py *)

(** [df[name]]: the column of that name, [KeyError] when the table
    has none.  [field] reads the column off a record. *)
Definition df_getitem {A : Type} (df : DataFrame) (name : string)
           (field : PatientRecord -> A) : PyResult (list A) :=
  if py_in name (columns df) then Ok (map field (rows df)) else Raise KeyError.

(** [df[mask]] for a boolean mask over the rows of [df]: the rows
    where the mask holds, in their order, under the same columns. *)
Definition df_mask (df : DataFrame) (mask : list bool) : DataFrame :=
  {| columns := columns df;
     rows := map fst (filter snd (combine (rows df) mask)) |}.

Section dataset_splitter.
Context {F : Type} `{PyFloat F}.

Definition get_split_indices (labels_df : DataFrame) (split_name : string)
  : PyResult (list string) :=
  if negb (py_in split_name (map fst SPLIT_RATIOS)) then Raise ValueError
  else
    column <- df_getitem labels_df "split" split ;;
    let selected := df_mask labels_df (map (fun v => String.eqb v split_name) column) in
    df_getitem selected "patient_id" patient_id.

(** The copy that [.copy()] makes is the value itself. *)
Definition get_split_dataframe (labels_df : DataFrame) (split_name : string)
  : PyResult DataFrame :=
  column <- df_getitem labels_df "split" split ;;
  ret (df_mask labels_df (map (fun v => String.eqb v split_name) column)).
End dataset_splitter.

(** ** image_generators.py *)

(** *** NumPy arrays

    A two-dimensional array is the list of its rows. *)

Definition zrange (n : Z) : list Z := map Z.of_nat (seq 0 (Z.to_nat n)).

(** An array of shape [(h, w)] computed from the open grids
    [np.ogrid[:h, :w]] by broadcasting. *)
Definition ogrid_map {A : Type} (h w : Z) (f : Z -> Z -> A) : list (list A) :=
  map (fun y => map (fun x => f y x) (zrange w)) (zrange h).

Definition array_map {A B : Type} (f : A -> B) (a : list (list A)) : list (list B) :=
  map (map f) a.

Definition array_zip {A B C : Type} (f : A -> B -> C)
           (a : list (list A)) (b : list (list B)) : list (list C) :=
  map (fun rows => map (fun vs => f (fst vs) (snd vs)) (combine (fst rows) (snd rows)))
      (combine a b).

(** [np.where(mask, a, b)]. *)
Definition np_where {A : Type} (mask : list (list bool)) (a b : list (list A))
  : list (list A) :=
  array_zip (fun (m : bool) vs => if m then fst vs else snd vs) mask
            (array_zip pair a b).

(** An index into an axis of length [len]: negative indices count from
    the end. *)
Definition np_index (len : nat) (i : Z) : PyResult nat :=
  let n := Z.of_nat len in
  if (0 <=? i) && (i <? n) then Ok (Z.to_nat i)
  else if (- n <=? i) && (i <? 0) then Ok (Z.to_nat (n + i))
  else Raise IndexError.

(** [a[y, x]]. *)
Definition array_get {A : Type} (a : list (list A)) (y x : Z) : PyResult A :=
  i <- np_index (List.length a) y ;;
  match nth_error a i with
  | None => Raise IndexError
  | Some row =>
      j <- np_index (List.length row) x ;;
      match nth_error row j with
      | None => Raise IndexError
      | Some v => Ok v
      end
  end.

(** [l.index(x)]. *)
Fixpoint list_index (l : list string) (x : string) : PyResult Z :=
  match l with
  | [] => Raise ValueError
  | y :: rest =>
      if String.eqb y x then Ok 0
      else i <- list_index rest x ;; ret (i + 1)
  end.

Section numpy_arrays.
Context {F G : Type} `{PyFloat F}.

(** [np.maximum], [np.minimum] and [np.clip]: a NaN first argument
    is returned as it is. *)
Definition np_maximum (a b : F) : F := if fleb a b then b else a.
Definition np_minimum (a b : F) : F := if fleb b a then b else a.
Definition np_clip (x lo hi : F) : F := np_minimum (np_maximum x lo) hi.

(** A sampler called with [size=n] fills the output in order, one
    draw per element. *)
Fixpoint sample_list (n : nat) (draw : Rand G F) : Rand G (list F) :=
  match n with
  | O => ret []
  | S n' =>
      v <- draw ;;
      vs <- sample_list n' draw ;;
      ret (v :: vs)
  end.

Fixpoint sample_rows (n : nat) (w : nat) (draw : Rand G F) : Rand G (list (list F)) :=
  match n with
  | O => ret []
  | S n' =>
      row <- sample_list w draw ;;
      rest <- sample_rows n' w draw ;;
      ret (row :: rest)
  end.

(** A sampler called with [size=(h, w)]. *)
Definition sample_array (h w : Z) (draw : Rand G F) : Rand G (list (list F)) :=
  if (h <? 0) || (w <? 0) then rand_lift (Raise ValueError)
  else sample_rows (Z.to_nat h) (Z.to_nat w) draw.
End numpy_arrays.

(** The dictionary that [_get_patient_anatomy_params] returns. *)
Record AnatomyParams (F G : Type) : Type := {
  center : Z * Z;
  axes : Z * Z;
  angle : F;
  intensity_base : F;
  rng : G
}.

Arguments center {F G} _.
Arguments axes {F G} _.
Arguments angle {F G} _.
Arguments intensity_base {F G} _.
Arguments rng {F G} _.

Section image_generators.
Context {F G : Type} `{PyFloat F} `{NumpyRandom F G} `{NumpyMath F} `{Hashlib}.

Definition _get_patient_anatomy_params (patient_id modality : string)
  : Py (Process G) (AnatomyParams F G) :=
  py_lift (
    let seed_str := patient_id ++ "_anatomy" in
    let seed := sha256_int seed_str mod 2 ^ 32 in
    rng <- RandomState seed ;;
    '(h, w) <- dict_get IMAGE_RESOLUTIONS "MRI" ;;
    '(params, _) <-
    (u <- rng_rand ;;
     let center_x := ftrunc (fmul (of_Z w) (fadd (fquot 4 10) (fmul (fquot 2 10) u))) in
     u <- rng_rand ;;
     let center_y := ftrunc (fmul (of_Z h) (fadd (fquot 4 10) (fmul (fquot 2 10) u))) in
     let liver_center := (center_y, center_x) in
     u <- rng_rand ;;
     let axis_major :=
       ftrunc (fmul (of_Z (Z.min h w)) (fadd (fquot 2 10) (fmul (fquot 1 10) u))) in
     u <- rng_rand ;;
     let axis_minor :=
       ftrunc (fmul (of_Z axis_major) (fadd (fquot 6 10) (fmul (fquot 3 10) u))) in
     let liver_axes := (axis_major, axis_minor) in
     rotation_angle <- rng_uniform (of_Z (-30)) (of_Z 30) ;;
     liver_intensity_base <- rng_uniform (fquot 5 10) (fquot 8 10) ;;
     rng <- rng_object ;;
     ret {| center := liver_center;
            axes := liver_axes;
            angle := rotation_angle;
            intensity_base := liver_intensity_base;
            rng := rng |}) rng ;;
    ret params).

Definition _create_elliptical_mask (shape center axes : Z * Z) (angle : F)
  : list (list bool) :=
  let '(h, w) := shape in
  let theta := np_radians angle in
  let cos_t := np_cos theta in
  let sin_t := np_sin theta in
  ogrid_map h w (fun y x =>
    let y_centered := y - fst center in
    let x_centered := x - snd center in
    let x_rot := fsub (fmul (of_Z x_centered) cos_t) (fmul (of_Z y_centered) sin_t) in
    let y_rot := fadd (fmul (of_Z x_centered) sin_t) (fmul (of_Z y_centered) cos_t) in
    fleb (fadd (fdiv (fmul x_rot x_rot) (of_Z (snd axes ^ 2)))
               (fdiv (fmul y_rot y_rot) (of_Z (fst axes ^ 2))))
         (of_Z 1)).

(** [liver_intensity[spot_mask] += boost] for the disk of the given
    radius around [(spot_y, spot_x)]. *)
Definition add_spot (h w spot_y spot_x radius : Z) (boost : F)
           (liver_intensity : list (list F)) : list (list F) :=
  let spot_mask :=
    ogrid_map h w (fun rr cc =>
      let dist := np_sqrt (of_Z ((rr - spot_y) ^ 2 + (cc - spot_x) ^ 2)) in
      fleb dist (of_Z radius)) in
  array_zip (fun v (m : bool) => if m then fadd v boost else v)
            liver_intensity spot_mask.

(** The loop [for _ in range(num_spots)] of the three generators;
    they differ in the bounds of the radius ([randint(rlo, rhi)]) and
    of the added intensity ([uniform(blo, bhi)]). *)
Fixpoint spot_loop (n : nat) (h w : Z) (mask : list (list bool))
         (rlo rhi : Z) (blo bhi : F) (liver_intensity : list (list F))
  : Rand G (list (list F)) :=
  match n with
  | O => ret liver_intensity
  | S n' =>
      spot_y <- rng_randint 0 h ;;
      spot_x <- rng_randint 0 w ;;
      inside <- rand_lift (array_get mask spot_y spot_x) ;;
      liver_intensity <-
        (if inside : bool then
           radius <- rng_randint rlo rhi ;;
           boost <- rng_uniform blo bhi ;;
           ret (add_spot h w spot_y spot_x radius boost liver_intensity)
         else ret liver_intensity) ;;
      spot_loop n' h w mask rlo rhi blo bhi liver_intensity
  end.

(** [np.clip(image, 0, 1).astype(np.float32)]. *)
Definition clip_float32 (image : list (list F)) : list (list F) :=
  array_map (fun v => f32 (np_clip v (of_Z 0) (of_Z 1))) image.

Definition generate_mri_image (patient_id fibrosis_stage : string)
           (resolution : Z * Z) : Py (Process G) (list (list F)) :=
  let '(h, w) := resolution in
  params <- _get_patient_anatomy_params patient_id "MRI" ;;
  py_lift (
    let mask :=
      _create_elliptical_mask (h, w) (center params) (axes params) (angle params) in
    '(image, _) <-
      (background <- sample_array h w (rng_normal (fquot 1 10) (fquot 2 100)) ;;
       let background := array_map (fun v => np_clip v (of_Z 0) (of_Z 1)) background in
       stage_index <- rand_lift (list_index FIBROSIS_STAGES fibrosis_stage) ;;
       let liver_base := fadd (fquot 5 10) (fmul (fquot 1 10) (of_Z stage_index)) in
       liver_intensity <- sample_array h w (rng_normal liver_base (fquot 5 100)) ;;
       liver_intensity <-
         (if 2 <=? stage_index then
            num_spots <- rng_poisson (of_Z (5 + 3 * (stage_index - 2))) ;;
            spot_loop (Z.to_nat num_spots) h w mask 3 8 (fquot 2 10) (fquot 4 10)
                      liver_intensity
          else ret liver_intensity) ;;
       let image := np_where mask liver_intensity background in
       ret (clip_float32 image)) (rng params) ;;
    ret image).

Definition generate_ct_image (patient_id fibrosis_stage : string)
           (resolution : Z * Z) : Py (Process G) (list (list F)) :=
  let '(h, w) := resolution in
  params <- _get_patient_anatomy_params patient_id "CT" ;;
  py_lift (
    let mask :=
      _create_elliptical_mask (h, w) (center params) (axes params) (angle params) in
    '(image, _) <-
      (background <- sample_array h w (rng_normal (fquot 5 100) (fquot 1 100)) ;;
       let background := array_map (fun v => np_clip v (of_Z 0) (of_Z 1)) background in
       stage_index <- rand_lift (list_index FIBROSIS_STAGES fibrosis_stage) ;;
       let liver_mean := fadd (fquot 5 10) (fmul (fquot 5 100) (of_Z stage_index)) in
       liver_intensity <- sample_array h w (rng_normal liver_mean (fquot 2 100)) ;;
       liver_intensity <-
         (if 3 <=? stage_index then
            num_spots <- rng_poisson (of_Z 3) ;;
            spot_loop (Z.to_nat num_spots) h w mask 2 5 (fquot 3 10) (fquot 6 10)
                      liver_intensity
          else ret liver_intensity) ;;
       let image := np_where mask liver_intensity background in
       ret (clip_float32 image)) (rng params) ;;
    ret image).

Definition generate_ultrasound_image (patient_id fibrosis_stage : string)
           (resolution : Z * Z) : Py (Process G) (list (list F)) :=
  let '(h, w) := resolution in
  params <- _get_patient_anatomy_params patient_id "Ultrasound" ;;
  py_lift (
    let mask :=
      _create_elliptical_mask (h, w) (center params) (axes params) (angle params) in
    '(image, _) <-
      (background <- sample_array h w (rng_gamma (of_Z 1) (fquot 1 100)) ;;
       let background := array_map (fun v => np_clip v (of_Z 0) (of_Z 1)) background in
       stage_index <- rand_lift (list_index FIBROSIS_STAGES fibrosis_stage) ;;
       let shape := fadd (of_Z 2) (fmul (of_Z 1) (of_Z stage_index)) in
       let scale := fadd (fquot 1 10) (fmul (fquot 2 100) (of_Z stage_index)) in
       liver_intensity <- sample_array h w (rng_gamma shape scale) ;;
       liver_intensity <-
         (if 2 <=? stage_index then
            num_spots <- rng_poisson (of_Z 8) ;;
            spot_loop (Z.to_nat num_spots) h w mask 2 4 (fquot 5 10) (of_Z 1)
                      liver_intensity
          else ret liver_intensity) ;;
       let image := np_where mask liver_intensity background in
       ret (clip_float32 image)) (rng params) ;;
    ret image).
End image_generators.

(** ** The statements of the specification *)

Section specification.
Context {F G : Type} `{PyFloat F} `{NumpyRandom F G}.

(** The rank of a split: its position in the declaration order of
    the mapping. *)
Fixpoint split_rank (split_ratios : list (string * F)) (split : string) : option nat :=
  match split_ratios with
  | [] => None
  | (k, _) :: rest =>
      if String.eqb split k then Some O
      else option_map S (split_rank rest split)
  end.

(** The tolerance that the specification names for the sum of the
    ratios: [abs(s - 1.0) <= 1e-9]. *)
Definition within_1e9 (s : F) : bool :=
  fleb (fabs (fsub s (of_Z 1))) (fquot 1 1000000000).

(** The mapping passes the check that [assign_split] makes. *)
Definition valid_ratios (split_ratios : list (string * F)) : Prop :=
  np_isclose (py_sum (map snd split_ratios)) (of_Z 1) = true.

(** The binary label as a function of the stage. *)
Definition binary_label_of (stage : string) : string :=
  if py_in stage ["F3"; "F4"] then "positive" else "negative".

(** [n] successive draws of [random_sample]. *)
Fixpoint rs_draws (n : nat) (s : G) : list F * G :=
  match n with
  | O => ([], s)
  | S n' =>
      let '(u, s') := rs_random_sample s in
      let '(us, s'') := rs_draws n' s' in
      (u :: us, s'')
  end.

(** The anatomy read off six uniform draws the way the code does:
    the first draw gives the column of the centre and the second its
    row; the centre and the axes are truncated to ints. *)
Definition anatomy_from_draws (h w : Z) (us : list F)
  : option ((Z * Z) * (Z * Z) * F * F) :=
  match us with
  | [u1; u2; u3; u4; u5; u6] =>
      let col := ftrunc (fmul (of_Z w) (fadd (fquot 4 10) (fmul (fquot 2 10) u1))) in
      let row := ftrunc (fmul (of_Z h) (fadd (fquot 4 10) (fmul (fquot 2 10) u2))) in
      let major :=
        ftrunc (fmul (of_Z (Z.min h w)) (fadd (fquot 2 10) (fmul (fquot 1 10) u3))) in
      let minor :=
        ftrunc (fmul (of_Z major) (fadd (fquot 6 10) (fmul (fquot 3 10) u4))) in
      let angle := fadd (of_Z (-30)) (fmul (fsub (of_Z 30) (of_Z (-30))) u5) in
      let base := fadd (fquot 5 10) (fmul (fsub (fquot 8 10) (fquot 5 10)) u6) in
      Some ((row, col), (major, minor), angle, base)
  | _ => None
  end.

(** The anatomy as section 4.4 of the specification lists it: the
    row of the centre, then its column, the major axis, the factor of
    the minor axis, the angle and the base intensity, each the stated
    affine image of one uniform draw. *)
Definition anatomy_as_specified (h w : Z) (us : list F)
  : option ((F * F) * (F * F) * F * F) :=
  match us with
  | [u1; u2; u3; u4; u5; u6] =>
      let row := fmul (of_Z h) (fadd (fquot 4 10) (fmul (fquot 2 10) u1)) in
      let col := fmul (of_Z w) (fadd (fquot 4 10) (fmul (fquot 2 10) u2)) in
      let major := fmul (of_Z (Z.min h w)) (fadd (fquot 2 10) (fmul (fquot 1 10) u3)) in
      let minor := fmul major (fadd (fquot 6 10) (fmul (fquot 3 10) u4)) in
      let angle := fadd (of_Z (-30)) (fmul (fsub (of_Z 30) (of_Z (-30))) u5) in
      let base := fadd (fquot 5 10) (fmul (fsub (fquot 8 10) (fquot 5 10)) u6) in
      Some ((row, col), (major, minor), angle, base)
  | _ => None
  end.

(** The shape of an array and the range of its elements. *)
Definition has_shape {A : Type} (h w : Z) (a : list (list A)) : Prop :=
  List.length a = Z.to_nat h /\ Forall (fun row => List.length row = Z.to_nat w) a.

Definition in_unit_interval (v : F) : Prop :=
  fleb (of_Z 0) v = true /\ fleb v (of_Z 1) = true.

(** A generator returned an image of the requested shape with every
    element in [0, 1]. *)
Definition image_ok (h w : Z) (r : PyResult (list (list F))) : Prop :=
  exists image,
    r = Ok image /\ has_shape h w image /\ Forall (Forall in_unit_interval) image.

(** [c] returns from every state of the generator, with a value that
    satisfies [P]. *)
Definition rand_ok {A : Type} (c : Rand G A) (P : A -> Prop) : Prop :=
  forall s, exists a s', c s = Ok (a, s') /\ P a.

(** An interpreter in which nothing has been seeded yet. *)
Definition fresh_process : Process G :=
  {| py_random_seed := None; np_global := None; environ := [] |}.
End specification.

Arguments fresh_process G : clear implicits.

(** ** Further statements *)

(** The split of the patient with index [i] under the configured
    ratios and the configured count of 1000 patients: the first 700
    indices, the next 150, and the rest. *)
Definition configured_split (i : Z) : string :=
  if i <? 700 then "train" else if i <? 850 then "val" else "test".

(** Every character of a string satisfies [P]. *)
Fixpoint string_forall (P : ascii -> Prop) (s : string) : Prop :=
  match s with
  | EmptyString => True
  | String c s' => P c /\ string_forall P s'
  end.

(** ** Stand-ins for the libraries, to run the embedding *)

(** A linear congruential generator in place of the Mersenne Twister. *)
Definition lcg_next (s : Z) : Z := (1103515245 * s + 12345) mod 2 ^ 31.

Definition lcg_random {F : Type} `{PyFloat F} : NumpyRandom F Z := {|
  rs_seeded := fun seed => seed;
  rs_random_sample := fun s =>
    let s' := lcg_next s in (fquot s' (2 ^ 31), s');
  rs_randint := fun low high s =>
    let s' := lcg_next s in (low + s' mod (high - low), s');
  rs_normal := fun loc scale s =>
    let s' := lcg_next s in
    (fadd loc (fmul scale (fquot (s' - 2 ^ 30) (2 ^ 29))), s');
  rs_gamma := fun shape scale s =>
    let s' := lcg_next s in
    (fmul (fmul shape scale) (fquot s' (2 ^ 30)), s');
  rs_poisson := fun lam s =>
    let s' := lcg_next s in (s' mod 16, s');
  rs_choice := fun a p s =>
    let s' := lcg_next s in
    (nth (Z.to_nat (s' mod Z.of_nat (List.length a))) a "", s')
|}.

(** A generator that replays a fixed script of uniform draws, whatever
    its seed. *)
Definition replay_random {F : Type} `{PyFloat F} (script : list F) : NumpyRandom F nat := {|
  rs_seeded := fun _ => O;
  rs_random_sample := fun i => (nth i script (of_Z 0), S i);
  rs_randint := fun low high i => (low, S i);
  rs_normal := fun loc scale i => (loc, S i);
  rs_gamma := fun shape scale i => (fmul shape scale, S i);
  rs_poisson := fun lam i => (0, S i);
  rs_choice := fun a p i => (nth 0 a "", S i)
|}.

(** Truncated series in place of the elementary functions. *)
Definition series_math {F : Type} `{PyFloat F} : NumpyMath F := {|
  np_cos := fun x => fsub (of_Z 1) (fdiv (fmul x x) (of_Z 2));
  np_sin := fun x => fsub x (fdiv (fmul x (fmul x x)) (of_Z 6));
  np_sqrt := fun x =>
    let step := fun s => fdiv (fadd s (fdiv x s)) (of_Z 2) in
    step (step (step (step (step (step (fadd x (of_Z 1)))))));
  np_radians := fun x => fmul x (fquot 355 (113 * 180))
|}.

(** A polynomial hash in place of SHA-256. *)
Definition polynomial_hash : Hashlib := {|
  sha256_int := fun s =>
    fold_left (fun h c => (31 * h + Z.of_N (N_of_ascii c)) mod 2 ^ 256)
              (list_ascii_of_string s) 7
|}.

(** A table whose rows are not in the order of their indices, as one
    read from a file may be. *)
Definition shuffled_table : DataFrame :=
  {| columns := ["patient_id"; "fibrosis_stage"; "binary_label"; "split"; "age"; "sex"];
     rows :=
       [ {| patient_id := "PAT_0002"; fibrosis_stage := "F4"; binary_label := "positive";
            split := "test"; age := 71; sex := "M" |};
         {| patient_id := "PAT_0000"; fibrosis_stage := "F0"; binary_label := "negative";
            split := "train"; age := 55; sex := "F" |};
         {| patient_id := "PAT_0001"; fibrosis_stage := "F2"; binary_label := "negative";
            split := "val"; age := 63; sex := "F" |};
         {| patient_id := "PAT_0003"; fibrosis_stage := "F3"; binary_label := "positive";
            split := "train"; age := 48; sex := "M" |} ] |}.

(** * Properties *)

(** ** The arithmetic *)

Example b64_literals :
  (b64_quot 7 10 = 0.7)%float /\ (b64_quot 15 100 = 0.15)%float /\
  (b64_quot 1 100000 = 1e-5)%float /\ (b64_quot 1 100000000 = 1e-8)%float /\
  (b64_quot 1 3 = 1 / 3)%float /\ (b64_quot 10 1000 = 0.01)%float /\
  (b64_quot (-7) 2 = -3.5)%float.
Proof. vm_compute. repeat split; reflexivity. Qed.

(** The rounded quotient is the quotient that the hardware division
    returns for the two operands converted to floats, on every pair
    with a divisor up to 150 and a quotient up to 2. *)
Example b64_quot_is_hardware_division :
  forallb (fun n =>
             forallb (fun a =>
                        PrimFloat.eqb (b64_quot a n)
                          (PrimFloat.div (PrimFloat.of_uint63 (Uint63.of_Z a))
                                         (PrimFloat.of_uint63 (Uint63.of_Z n))))
                     (zrange (2 * n + 2)))
          (map (fun k => k + 1) (zrange 150))
  = true.
Proof. vm_compute. reflexivity. Qed.

Example b64_quot_extremes :
  (b64_quot 1 (2 ^ 1074) = 0x1p-1074)%float /\
  (b64_quot 1 (2 ^ 1075) = 0)%float /\
  (b64_quot 3 (2 ^ 1075) = 0x1p-1073)%float /\
  (b64_quot (2 ^ 1024 - 2 ^ 970 - 1) 1 = 0x1.fffffffffffffp+1023)%float /\
  (b64_quot (2 ^ 1024 - 2 ^ 970) 1 = infinity)%float /\
  (b64_quot (2 ^ 53 + 1) 1 = 0x1p+53)%float /\
  (b64_quot (2 ^ 53 + 3) 1 = 0x1.0000000000002p+53)%float.
Proof. vm_compute. repeat split; reflexivity. Qed.

Example b64_conversions :
  b64_round 2.5 = 2 /\ b64_round 3.5 = 4 /\ b64_round (-2.5) = -2 /\
  b64_round 62.7 = 63 /\ b64_trunc (-3.7) = -3 /\ b64_trunc 102.912 = 102 /\
  (b64_f32 0.1 = 0.100000001490116119384765625)%float /\
  (b64_f32 1 = 1)%float /\ (b64_f32 0 = 0)%float.
Proof. vm_compute. repeat split; reflexivity. Qed.

Example get_patient_id_examples :
  get_patient_id 0 "PAT" = "PAT_0000" /\ get_patient_id 42 "PAT" = "PAT_0042" /\
  get_patient_id 12345 "PAT" = "PAT_12345".
Proof. vm_compute. repeat split; reflexivity. Qed.

Example assign_split_b64_examples :
  assign_split (F := float) 0 10 SPLIT_RATIOS = Ok "train" /\
  assign_split (F := float) 6 10 SPLIT_RATIOS = Ok "train" /\
  assign_split (F := float) 7 10 SPLIT_RATIOS = Ok "val" /\
  assign_split (F := float) 8 10 SPLIT_RATIOS = Ok "test" /\
  assign_split (F := float) 9 10 SPLIT_RATIOS = Ok "test" /\
  assign_split (F := float) 9 1000 SPLIT_RATIOS = Ok "train" /\
  assign_split (F := float) 3 0 SPLIT_RATIOS = Raise ZeroDivisionError.
Proof. vm_compute. repeat split; reflexivity. Qed.

(** *** Powers of two *)

Lemma scale_up_pos (e : Z) : 0 < scale_up e.
Proof. unfold scale_up. apply Z.pow_pos_nonneg; lia. Qed.

Lemma scale_up_shift (e k : Z) :
  0 <= k ->
  scale_up (e + k) * scale_up (- e) = 2 ^ k * scale_up e * scale_up (- (e + k)).
Proof.
  intros Hk. unfold scale_up.
  destruct (Z_le_gt_dec 0 e) as [He | He].
  - rewrite (Z.max_r 0 (e + k)), (Z.max_l 0 (- e)), (Z.max_r 0 e),
      (Z.max_l 0 (- (e + k))) by lia.
    rewrite !Z.pow_0_r, !Z.mul_1_r, Z.pow_add_r by lia. ring.
  - destruct (Z_le_gt_dec 0 (e + k)) as [Hek | Hek].
    + rewrite (Z.max_r 0 (e + k)), (Z.max_r 0 (- e)), (Z.max_l 0 e),
        (Z.max_l 0 (- (e + k))) by lia.
      rewrite !Z.pow_0_r, !Z.mul_1_r, <- Z.pow_add_r by lia. f_equal. lia.
    + rewrite (Z.max_l 0 (e + k)), (Z.max_r 0 (- e)), (Z.max_l 0 e),
        (Z.max_r 0 (- (e + k))) by lia.
      rewrite !Z.pow_0_r, Z.mul_1_l, Z.mul_1_r, <- Z.pow_add_r by lia. f_equal. lia.
Qed.

Lemma ge_pow_shift (x n c j : Z) :
  0 <= j -> ge_pow x n (c + j) -> n * scale_up c * 2 ^ j <= x * scale_up (- c).
Proof.
  unfold ge_pow. intros Hj Hge.
  pose proof (scale_up_shift c j Hj) as E.
  pose proof (scale_up_pos (- (c + j))) as Hp.
  apply (Z.mul_le_mono_pos_r _ _ (scale_up (- (c + j))) Hp).
  apply (Z.mul_le_mono_nonneg_r _ _ (scale_up (- c))) in Hge;
    [| pose proof (scale_up_pos (- c)); lia].
  replace (n * scale_up c * 2 ^ j * scale_up (- (c + j)))
    with (n * (scale_up (c + j) * scale_up (- c))) by (rewrite E; ring).
  replace (x * scale_up (- c) * scale_up (- (c + j)))
    with (x * scale_up (- (c + j)) * scale_up (- c)) by ring.
  rewrite Z.mul_assoc. exact Hge.
Qed.

Lemma lt_pow_shift (x n c j : Z) :
  0 <= j -> lt_pow x n (c + j) -> x * scale_up (- c) < n * scale_up c * 2 ^ j.
Proof.
  unfold lt_pow. intros Hj Hlt.
  pose proof (scale_up_shift c j Hj) as E.
  pose proof (scale_up_pos (- (c + j))) as Hp.
  apply (Z.mul_lt_mono_pos_r (scale_up (- (c + j))) _ _ Hp).
  apply (Z.mul_lt_mono_pos_r (scale_up (- c))) in Hlt; [| apply scale_up_pos].
  replace (n * scale_up c * 2 ^ j * scale_up (- (c + j)))
    with (n * (scale_up (c + j) * scale_up (- c))) by (rewrite E; ring).
  replace (x * scale_up (- c) * scale_up (- (c + j)))
    with (x * scale_up (- (c + j)) * scale_up (- c)) by ring.
  rewrite Z.mul_assoc. exact Hlt.
Qed.

Lemma ge_pow_mono (x n e e' : Z) :
  0 <= n -> e <= e' -> ge_pow x n e' -> ge_pow x n e.
Proof.
  intros Hn He Hge. replace e' with (e + (e' - e)) in Hge by lia.
  apply ge_pow_shift in Hge; [| lia]. unfold ge_pow.
  pose proof (Z.pow_pos_nonneg 2 (e' - e) ltac:(lia) ltac:(lia)).
  pose proof (scale_up_pos e). nia.
Qed.

Lemma lt_pow_mono (x n e e' : Z) :
  0 <= n -> e <= e' -> lt_pow x n e -> lt_pow x n e'.
Proof.
  intros Hn He Hlt. unfold lt_pow in *.
  pose proof (scale_up_shift e (e' - e) ltac:(lia)) as E.
  replace (e + (e' - e)) with e' in E by lia.
  pose proof (scale_up_pos (- e')) as Hp'. pose proof (scale_up_pos (- e)) as Hp.
  pose proof (scale_up_pos e'). pose proof (scale_up_pos e).
  pose proof (Z.pow_pos_nonneg 2 (e' - e) ltac:(lia) ltac:(lia)) as Hk.
  apply (Z.mul_lt_mono_pos_r (scale_up (- e)) _ _ Hp).
  apply (Z.mul_lt_mono_pos_r (scale_up (- e'))) in Hlt; [| exact Hp'].
  replace (n * scale_up e' * scale_up (- e))
    with (n * (2 ^ (e' - e) * scale_up e * scale_up (- e'))) by (rewrite <- E; ring).
  apply Z.lt_le_trans with (n * scale_up e * scale_up (- e')).
  - replace (x * scale_up (- e') * scale_up (- e))
      with (x * scale_up (- e) * scale_up (- e')) by ring.
    exact Hlt.
  - replace (n * (2 ^ (e' - e) * scale_up e * scale_up (- e')))
      with (2 ^ (e' - e) * (n * scale_up e * scale_up (- e'))) by ring.
    assert (0 <= n * scale_up e * scale_up (- e')).
    { apply Z.mul_nonneg_nonneg; [apply Z.mul_nonneg_nonneg |]; lia. }
    nia.
Qed.

Lemma quotient_magnitude_spec (x n : Z) :
  0 < x -> 0 < n ->
  ge_pow x n (quotient_magnitude x n - 1) /\ lt_pow x n (quotient_magnitude x n).
Proof.
  intros Hx Hn.
  pose proof (Z.log2_spec x Hx) as [Hx1 Hx2].
  pose proof (Z.log2_spec n Hn) as [Hn1 Hn2].
  pose proof (Z.log2_nonneg x). pose proof (Z.log2_nonneg n).
  set (lx := Z.log2 x) in *. set (ln := Z.log2 n) in *.
  assert (Hlow : ge_pow x n (lx - ln - 1)).
  { unfold ge_pow, scale_up.
    destruct (Z_le_gt_dec 0 (lx - ln - 1)).
    - rewrite Z.max_r, Z.max_l by lia. rewrite Z.pow_0_r, Z.mul_1_r.
      apply Z.le_trans with (2 ^ Z.succ ln * 2 ^ (lx - ln - 1)).
      + apply Z.mul_le_mono_nonneg_r; [apply Z.pow_nonneg; lia | lia].
      + rewrite <- Z.pow_add_r by lia. replace (Z.succ ln + (lx - ln - 1)) with lx by lia. lia.
    - rewrite Z.max_l, Z.max_r by lia. rewrite Z.pow_0_r, Z.mul_1_r.
      apply Z.le_trans with (2 ^ lx * 2 ^ (- (lx - ln - 1))).
      + rewrite <- Z.pow_add_r by lia. replace (lx + - (lx - ln - 1)) with (Z.succ ln) by lia. lia.
      + apply Z.mul_le_mono_nonneg_r; [apply Z.pow_nonneg; lia | lia]. }
  assert (Hup : lt_pow x n (lx - ln + 1)).
  { unfold lt_pow, scale_up.
    destruct (Z_le_gt_dec 0 (lx - ln + 1)).
    - rewrite Z.max_l, Z.max_r by lia. rewrite Z.pow_0_r, Z.mul_1_r.
      apply Z.lt_le_trans with (2 ^ ln * 2 ^ (lx - ln + 1)).
      + rewrite <- Z.pow_add_r by lia. replace (ln + (lx - ln + 1)) with (Z.succ lx) by lia. lia.
      + apply Z.mul_le_mono_nonneg_r; [apply Z.pow_nonneg; lia | lia].
    - rewrite Z.max_r, Z.max_l by lia. rewrite Z.pow_0_r, Z.mul_1_r.
      apply Z.lt_le_trans with (2 ^ Z.succ lx * 2 ^ (- (lx - ln + 1))).
      + apply Z.mul_lt_mono_pos_r; [apply Z.pow_pos_nonneg; lia | lia].
      + rewrite <- Z.pow_add_r by lia. replace (Z.succ lx + - (lx - ln + 1)) with ln by lia. lia. }
  unfold quotient_magnitude. fold lx ln.
  destruct (Z.leb_spec (n * scale_up (lx - ln)) (x * scale_up (- (lx - ln)))) as [Hc | Hc].
  - split.
    + replace (lx - ln + 1 - 1) with (lx - ln) by lia. exact Hc.
    + exact Hup.
  - split; [exact Hlow | exact Hc].
Qed.

(** *** Rounding half to even *)

Lemma round_half_even_floor (num den : Z) :
  0 < den ->
  num / den <= round_half_even num den <= num / den + 1.
Proof.
  intros Hd. unfold round_half_even.
  destruct (2 * (num mod den) ?= den); [destruct (Z.even (num / den)) | |]; lia.
Qed.

Lemma round_half_even_exact (k den : Z) :
  0 < den -> round_half_even (k * den) den = k.
Proof.
  intros Hd. unfold round_half_even.
  rewrite Z.div_mul, Z.mod_mul by lia.
  destruct (Z.compare_spec (2 * 0) den); lia.
Qed.

Lemma round_half_even_lower (num den L : Z) :
  0 < den -> den * L <= num -> L <= round_half_even num den.
Proof.
  intros Hd HL.
  pose proof (round_half_even_floor num den Hd).
  pose proof (Z.div_le_lower_bound num den L Hd HL). lia.
Qed.

Lemma round_half_even_upper (num den U : Z) :
  0 < den -> num <= den * U -> round_half_even num den <= U.
Proof.
  intros Hd HU.
  destruct (Z.eq_dec num (den * U)) as [-> | Hne].
  - rewrite Z.mul_comm, round_half_even_exact by lia. lia.
  - pose proof (round_half_even_floor num den Hd).
    assert (num / den < U) by (apply Z.div_lt_upper_bound; lia). lia.
Qed.

Lemma round_half_even_mono (a b den : Z) :
  0 < den -> a <= b -> round_half_even a den <= round_half_even b den.
Proof.
  intros Hd Hab.
  pose proof (Z.div_le_mono a b den Hd Hab) as Hq.
  pose proof (round_half_even_floor a den Hd).
  pose proof (round_half_even_floor b den Hd).
  destruct (Z.eq_dec (a / den) (b / den)) as [E | Hne]; [| lia].
  pose proof (Z.div_mod a den ltac:(lia)) as Ea.
  pose proof (Z.div_mod b den ltac:(lia)) as Eb.
  assert (Hr : a mod den <= b mod den) by nia.
  unfold round_half_even. rewrite E.
  destruct (Z.compare_spec (2 * (a mod den)) den);
    destruct (Z.compare_spec (2 * (b mod den)) den);
    destruct (Z.even (b / den)); lia.
Qed.

(** *** The rounded quotient is a valid binary64 number *)

Lemma b64_round_quotient_pack (s : bool) (x n : Z) :
  b64_round_quotient s x n
  = pack s (carry (quotient_mantissa x n, quotient_exponent x n)).
Proof. reflexivity. Qed.

Lemma quotient_exponent_min (x n : Z) : -1074 <= quotient_exponent x n.
Proof. unfold quotient_exponent. lia. Qed.

Lemma quotient_mantissa_bounds (x n : Z) :
  0 < x -> 0 < n ->
  0 <= quotient_mantissa x n <= 2 ^ 53 /\
  (-1074 < quotient_exponent x n -> 2 ^ 52 <= quotient_mantissa x n).
Proof.
  intros Hx Hn.
  destruct (quotient_magnitude_spec x n Hx Hn) as [Hge Hlt].
  unfold quotient_mantissa.
  pose proof (quotient_exponent_min x n) as Hmin.
  set (c := quotient_exponent x n) in *.
  assert (Hc : quotient_magnitude x n <= c + 53) by (unfold c, quotient_exponent; lia).
  pose proof (scale_up_pos c) as Hp. pose proof (scale_up_pos (- c)) as Hp'.
  assert (Hden : 0 < n * scale_up c) by (apply Z.mul_pos_pos; assumption).
  split; [split |].
  - apply round_half_even_lower; [exact Hden |].
    rewrite Z.mul_0_r. apply Z.mul_nonneg_nonneg; lia.
  - apply round_half_even_upper; [exact Hden |].
    apply Z.lt_le_incl, lt_pow_shift; [lia |].
    apply (lt_pow_mono x n (quotient_magnitude x n)); [lia | lia | exact Hlt].
  - intros Hnormal.
    assert (Ec : quotient_magnitude x n - 1 = c + 52) by (unfold c, quotient_exponent in *; lia).
    rewrite Ec in Hge.
    apply round_half_even_lower; [exact Hden |].
    apply ge_pow_shift; [lia | exact Hge].
Qed.

Lemma quotient_mantissa_zero (n : Z) : 0 < n -> quotient_mantissa 0 n = 0.
Proof.
  intros Hn. unfold quotient_mantissa. rewrite Z.mul_0_l.
  apply (round_half_even_exact 0).
  apply Z.mul_pos_pos; [exact Hn | apply scale_up_pos].
Qed.

Lemma digits2_pos_log2 (p : positive) :
  Zpos (digits2_pos p) = Z.log2 (Zpos p) + 1.
Proof.
  assert (Hs : forall q, digits2_pos q = Pos.size q).
  { induction q as [q IH | q IH |]; simpl; [rewrite IH | rewrite IH |]; reflexivity. }
  rewrite Hs. destruct p; simpl; lia.
Qed.

Lemma canonical_normal (p : positive) (c : Z) :
  2 ^ 52 <= Zpos p < 2 ^ 53 -> -1074 <= c ->
  canonical_mantissa prec emax p c = true.
Proof.
  intros Hp Hc. unfold canonical_mantissa, fexp, emin, prec, emax.
  rewrite digits2_pos_log2.
  rewrite (Z.log2_unique (Zpos p) 52) by (simpl; lia).
  apply Z.eqb_eq. lia.
Qed.

Lemma canonical_subnormal (p : positive) :
  Zpos p < 2 ^ 52 -> canonical_mantissa prec emax p (-1074) = true.
Proof.
  intros Hp. unfold canonical_mantissa, fexp, emin, prec, emax.
  rewrite digits2_pos_log2.
  assert (Z.log2 (Zpos p) < 52) by (apply Z.log2_lt_pow2; lia).
  apply Z.eqb_eq. lia.
Qed.

Lemma pack_valid (s : bool) (m c : Z) :
  0 <= m <= 2 ^ 53 -> -1074 <= c -> (-1074 < c -> 2 ^ 52 <= m) ->
  valid_binary (pack s (carry (m, c))) = true.
Proof.
  intros Hm Hc Hn. unfold carry, pack. cbn [fst snd].
  destruct (Z.eqb_spec m (2 ^ 53)) as [-> | Hne]; cbn [fst snd].
  - change (2 ^ 52) with (Zpos (2 ^ 52)).
    destruct (Z.leb_spec (c + 1) 971) as [Hle | Hgt]; [| reflexivity].
    unfold SpecFloat.valid_binary, bounded. apply andb_true_iff. split.
    + apply canonical_normal; [simpl; lia | lia].
    + apply Z.leb_le. unfold emax, prec. lia.
  - destruct m as [| p | p]; [reflexivity | | reflexivity].
    destruct (Z.leb_spec c 971) as [Hle | Hgt]; [| reflexivity].
    unfold SpecFloat.valid_binary, bounded. apply andb_true_iff. split.
    + destruct (Z_lt_le_dec (Zpos p) (2 ^ 52)) as [Hsub | Hnorm].
      * assert (c = -1074) by lia. subst c. apply canonical_subnormal, Hsub.
      * apply canonical_normal; lia.
    + apply Z.leb_le. unfold emax, prec. lia.
Qed.

Lemma b64_round_quotient_valid (s : bool) (x n : Z) :
  0 <= x -> 0 < n -> valid_binary (b64_round_quotient s x n) = true.
Proof.
  intros Hx Hn. rewrite b64_round_quotient_pack.
  destruct (Z.eq_dec x 0) as [-> | Hx0].
  - rewrite quotient_mantissa_zero by exact Hn.
    unfold carry, pack. reflexivity.
  - destruct (quotient_mantissa_bounds x n ltac:(lia) Hn) as [Hb Hnorm].
    apply pack_valid; [exact Hb | apply quotient_exponent_min | exact Hnorm].
Qed.

(** *** The order on the rounded quotients *)

Lemma quotient_magnitude_mono (x y n : Z) :
  0 < x -> x <= y -> 0 < n -> quotient_magnitude x n <= quotient_magnitude y n.
Proof.
  intros Hx Hxy Hn.
  destruct (quotient_magnitude_spec x n Hx Hn) as [Hge _].
  destruct (quotient_magnitude_spec y n ltac:(lia) Hn) as [_ Hlt].
  destruct (Z_le_gt_dec (quotient_magnitude x n) (quotient_magnitude y n)) as [H | H];
    [exact H | exfalso].
  apply (lt_pow_mono y n _ (quotient_magnitude x n - 1)) in Hlt; [| lia | lia].
  unfold ge_pow, lt_pow in *.
  pose proof (scale_up_pos (- (quotient_magnitude x n - 1))). nia.
Qed.

Lemma pack_le (m1 c1 m2 c2 : Z) :
  m1 <= 0 \/ (0 < m2 /\ (c1 < c2 \/ (c1 = c2 /\ m1 <= m2))) ->
  SFleb (pack false (m1, c1)) (pack false (m2, c2)) = true.
Proof.
  unfold pack, SFleb, SFcompare. cbn [fst snd].
  intros [H1 | [H2 Hc]].
  - destruct m1 as [| p1 | p1]; try lia;
      destruct m2 as [| p2 | p2]; try reflexivity;
      destruct (c2 <=? 971); reflexivity.
  - destruct m2 as [| p2 | p2]; try lia.
    destruct m1 as [| p1 | p1];
      try (destruct (c2 <=? 971); reflexivity).
    destruct (Z.leb_spec c1 971), (Z.leb_spec c2 971); try reflexivity; try lia.
    destruct (Z.compare_spec c1 c2); try reflexivity; try lia.
    rewrite Pos.compare_cont_spec. simpl.
    destruct (Pos.compare_spec p1 p2); try reflexivity; lia.
Qed.

Lemma b64_round_quotient_mono (x y n : Z) :
  0 <= x -> x <= y -> 0 < n ->
  SFleb (b64_round_quotient false x n) (b64_round_quotient false y n) = true.
Proof.
  intros Hx Hxy Hn. rewrite !b64_round_quotient_pack.
  destruct (Z.eq_dec x 0) as [-> | Hx0].
  - rewrite quotient_mantissa_zero by exact Hn.
    unfold carry at 1. cbn [fst snd]. change (0 =? 2 ^ 53) with false. cbv iota.
    destruct (carry _) as [m2 c2]. apply pack_le. left. lia.
  - destruct (quotient_mantissa_bounds x n ltac:(lia) Hn) as [Hbx Hnx].
    destruct (quotient_mantissa_bounds y n ltac:(lia) Hn) as [Hby Hny].
    pose proof (quotient_exponent_min x n) as Hminx.
    assert (Hc : quotient_exponent x n <= quotient_exponent y n).
    { unfold quotient_exponent.
      pose proof (quotient_magnitude_mono x y n ltac:(lia) Hxy Hn). lia. }
    assert (Hm : quotient_exponent x n = quotient_exponent y n ->
                 quotient_mantissa x n <= quotient_mantissa y n).
    { intros E. unfold quotient_mantissa. rewrite E.
      apply round_half_even_mono.
      - apply Z.mul_pos_pos; [exact Hn | apply scale_up_pos].
      - apply Z.mul_le_mono_nonneg_r; [pose proof (scale_up_pos (- quotient_exponent y n)); lia | exact Hxy]. }
    set (m1 := quotient_mantissa x n) in *. set (c1 := quotient_exponent x n) in *.
    set (m2 := quotient_mantissa y n) in *. set (c2 := quotient_exponent y n) in *.
    change (2 ^ 53) with 9007199254740992 in *.
    change (2 ^ 52) with 4503599627370496 in *.
    unfold carry. cbn [fst snd]. change (2 ^ 53) with 9007199254740992.
    change (2 ^ 52) with 4503599627370496.
    destruct (Z.eqb_spec m1 9007199254740992), (Z.eqb_spec m2 9007199254740992);
      apply pack_le; lia.
Qed.

Lemma SFleb_trans (f1 f2 f3 : spec_float) :
  SFleb f1 f2 = true -> SFleb f2 f3 = true -> SFleb f1 f3 = true.
Proof.
  unfold SFleb, SFcompare.
  destruct f1 as [s1 | s1 | | s1 m1 e1], f2 as [s2 | s2 | | s2 m2 e2],
           f3 as [s3 | s3 | | s3 m3 e3];
    try discriminate; try reflexivity;
    try destruct s1; try destruct s2; try destruct s3;
    try discriminate; try reflexivity;
    rewrite ?Pos.compare_cont_spec; simpl;
    repeat match goal with
           | |- context [Z.compare ?a ?b] => destruct (Z.compare_spec a b)
           | |- context [Pos.compare ?a ?b] => destruct (Pos.compare_spec a b)
           end;
    simpl; try discriminate; try reflexivity; intros; exfalso; lia.
Qed.

(** *** On the primitive floats *)

Lemma b64_leb_trans (a b c : float) :
  PrimFloat.leb a b = true -> PrimFloat.leb b c = true -> PrimFloat.leb a c = true.
Proof. rewrite !FloatAxioms.leb_spec. apply SFleb_trans. Qed.

Lemma b64_quot_nonneg (a n : Z) :
  0 <= a -> 0 < n -> b64_quot a n = SF2Prim (b64_round_quotient false a n).
Proof.
  intros Ha Hn. unfold b64_quot.
  replace (a <? 0) with false by (symmetry; apply Z.ltb_ge; lia).
  replace (n <? 0) with false by (symmetry; apply Z.ltb_ge; lia).
  rewrite !Z.abs_eq by lia. reflexivity.
Qed.

Lemma b64_quot_mono (a b n : Z) :
  0 < n -> 0 <= a -> a <= b -> PrimFloat.leb (b64_quot a n) (b64_quot b n) = true.
Proof.
  intros Hn Ha Hab.
  rewrite !b64_quot_nonneg by lia.
  rewrite FloatAxioms.leb_spec, !Prim2SF_SF2Prim by (apply b64_round_quotient_valid; lia).
  apply b64_round_quotient_mono; lia.
Qed.

Lemma b64_quot_same (n : Z) : 0 < n -> b64_quot n n = b64_quot 1 1.
Proof.
  intros Hn. rewrite !b64_quot_nonneg by lia. f_equal.
  assert (E : forall k, 0 < k ->
            b64_round_quotient false k k = S754_finite false (2 ^ 52) (-52)).
  { intros k Hk. unfold b64_round_quotient, quotient_mantissa, quotient_exponent.
    assert (Hmg : quotient_magnitude k k = 1).
    { unfold quotient_magnitude. rewrite Z.sub_diag. simpl.
      unfold scale_up. simpl. rewrite Z.leb_refl. reflexivity. }
    rewrite Hmg. change (Z.max (1 - 53) (-1074)) with (-52).
    change (scale_up (- -52)) with (2 ^ 52). change (scale_up (-52)) with 1.
    rewrite Z.mul_1_r, (Z.mul_comm k), round_half_even_exact by exact Hk.
    reflexivity. }
  rewrite (E n Hn), (E 1 ltac:(lia)). reflexivity.
Qed.

Lemma b64_quot_unit_finite (a n : Z) :
  0 < n -> 0 <= a <= n -> b64_is_inf (b64_quot a n) = false.
Proof.
  intros Hn Ha. rewrite b64_quot_nonneg by lia. unfold b64_is_inf.
  rewrite Prim2SF_SF2Prim by (apply b64_round_quotient_valid; lia).
  rewrite b64_round_quotient_pack.
  destruct (Z.eq_dec a 0) as [-> | Ha0].
  - rewrite quotient_mantissa_zero by exact Hn. reflexivity.
  - assert (Hmg : quotient_magnitude a n <= 1).
    { destruct (quotient_magnitude_spec a n ltac:(lia) Hn) as [Hge _].
      destruct (Z_le_gt_dec (quotient_magnitude a n) 1) as [H | H]; [exact H | exfalso].
      apply (ge_pow_mono a n 1) in Hge; [| lia | lia].
      unfold ge_pow, scale_up in Hge. simpl in Hge. lia. }
    assert (Hc : quotient_exponent a n <= -52) by (unfold quotient_exponent; lia).
    unfold carry, pack. cbn [fst snd].
    destruct (_ =? 2 ^ 53); cbn [fst snd].
    + change (2 ^ 52) with (Zpos (2 ^ 52)).
      replace (quotient_exponent a n + 1 <=? 971) with true
        by (symmetry; apply Z.leb_le; lia).
      reflexivity.
    + destruct (quotient_mantissa a n); try reflexivity.
      replace (quotient_exponent a n <=? 971) with true
        by (symmetry; apply Z.leb_le; lia).
      reflexivity.
Qed.

#[export] Instance b64_quotient_laws : FloatQuotientLaws float.
Proof.
  constructor.
  - intros n Hn. apply b64_quot_same, Hn.
  - intros a n Hn Ha. apply b64_quot_unit_finite; assumption.
Qed.

#[export] Instance b64_order_laws : FloatOrderLaws float.
Proof.
  constructor.
  - apply b64_leb_trans.
  - intros a b n Hn Ha Hab. apply b64_quot_mono; assumption.
Qed.

(** *** Exact rationals *)

Lemma Q_quot_le (a b n : Z) : 0 < n -> a <= b -> (Q_quot a n <= Q_quot b n)%Q.
Proof.
  intros Hn Hab. unfold Q_quot. rewrite !Qred_correct.
  destruct n as [|p|p]; try lia.
  unfold Qle, Qdiv, Qmult, Qinv, inject_Z; simpl.
  nia.
Qed.

#[export] Instance Q_quotient_laws : FloatQuotientLaws Q.
Proof.
  constructor.
  - intros n Hn. unfold of_Z; simpl. unfold Q_quot.
    apply Qred_complete.
    destruct n as [|p|p]; try lia.
    unfold Qeq, Qdiv, Qmult, Qinv, inject_Z; simpl. lia.
  - reflexivity.
Qed.

#[export] Instance Q_order_laws : FloatOrderLaws Q.
Proof.
  constructor.
  - intros a b c Hab Hbc; simpl in *.
    apply Qle_bool_iff in Hab, Hbc. apply Qle_bool_iff.
    eapply Qle_trans; eassumption.
  - intros a b n Hn _ Hab; simpl. apply Qle_bool_iff, Q_quot_le; assumption.
Qed.

#[export] Instance Q_total_laws : FloatTotalLaws Q.
Proof.
  constructor; simpl.
  - intros a b Hab. apply Qle_bool_iff.
    destruct (Qlt_le_dec b a) as [Hlt | Hle].
    + apply Qlt_le_weak, Hlt.
    + apply Qle_bool_iff in Hle. congruence.
  - reflexivity.
  - intros a b Hab; exact Hab.
  - reflexivity.
  - reflexivity.
Qed.

(** ** Properties of [assign_split] *)

Section split_properties.
Context {F : Type} `{PyFloat F}.

Lemma assign_split_unfold (i n : Z) (r : list (string * F)) :
  valid_ratios r -> n <> 0 -> fis_inf (fquot (i + 1) n) = false ->
  assign_split i n r =
  match first_boundary (fquot (i + 1) n) (split_boundaries (of_Z 0) r) with
  | Some split => Ok split
  | None => py_last (map fst r)
  end.
Proof.
  intros Hv Hn Hf. unfold assign_split, valid_ratios in *. rewrite Hv; simpl.
  unfold py_truediv. destruct (Z.eqb_spec n 0) as [E | _]; [contradiction |].
  rewrite Hf. reflexivity.
Qed.

Lemma split_boundaries_keys (c : F) (r : list (string * F)) :
  map fst (split_boundaries c r) = map fst r.
Proof.
  revert c; induction r as [| [k v] r IH]; intros c; simpl; [reflexivity |].
  f_equal. apply IH.
Qed.

Lemma py_last_cons {A : Type} (x : A) (l : list A) :
  l <> [] -> py_last (x :: l) = py_last l.
Proof.
  intros Hl. unfold py_last. simpl.
  destruct (rev l) as [| y t] eqn:E.
  - apply (f_equal (@rev A)) in E. rewrite rev_involutive in E. contradiction.
  - reflexivity.
Qed.

Lemma py_last_some {A : Type} (l : list A) :
  l <> [] -> exists x, py_last l = Ok x /\ In x l.
Proof.
  intros Hl. unfold py_last.
  destruct (rev l) as [| y t] eqn:E.
  - apply (f_equal (@rev A)) in E. rewrite rev_involutive in E. contradiction.
  - exists y. split; [reflexivity |]. apply in_rev. rewrite E. left; reflexivity.
Qed.

Lemma first_boundary_in (p : F) (bs : list (string * F)) (s : string) :
  first_boundary p bs = Some s -> In s (map fst bs).
Proof.
  induction bs as [| [k t] bs IH]; simpl; [discriminate |].
  destruct (fleb p t).
  - intros [= ->]. left; reflexivity.
  - intros Hs. right. apply IH, Hs.
Qed.

Lemma split_rank_keys (r1 r2 : list (string * F)) (s : string) :
  map fst r1 = map fst r2 -> split_rank r1 s = split_rank r2 s.
Proof.
  revert r2; induction r1 as [| [k v] r1 IH]; intros [| [k' v'] r2]; simpl;
    try discriminate; [reflexivity |].
  intros [= -> Hr]. rewrite (IH r2 Hr). reflexivity.
Qed.

Lemma split_rank_in (r : list (string * F)) (s : string) :
  In s (map fst r) -> exists k, split_rank r s = Some k /\ (k < List.length r)%nat.
Proof.
  induction r as [| [k v] r IH]; simpl; [contradiction |].
  intros Hin. destruct (String.eqb_spec s k) as [-> | Hne].
  - exists O. split; [reflexivity | lia].
  - destruct Hin as [-> | Hin]; [contradiction |].
    destruct (IH Hin) as [j [Hj Hlt]]. exists (S j). rewrite Hj. split; [reflexivity | lia].
Qed.

(** With distinct keys, the last key has the greatest rank. *)
Lemma split_rank_last (r : list (string * F)) (s : string) :
  NoDup (map fst r) -> py_last (map fst r) = Ok s ->
  split_rank r s = Some (List.length r - 1)%nat.
Proof.
  induction r as [| [k v] r IH]; simpl; intros Hnd Hl; [discriminate |].
  inversion Hnd as [| ? ? Hnotin Hnd']; subst.
  destruct r as [| [k' v'] r'].
  - simpl in *. injection Hl as <-. rewrite String.eqb_refl. reflexivity.
  - rewrite py_last_cons in Hl by discriminate.
    destruct (String.eqb_spec s k) as [-> | Hne].
    + exfalso. apply Hnotin.
      destruct (py_last_some (map fst ((k', v') :: r')) ltac:(discriminate))
        as [x [Hx Hin]].
      rewrite Hl in Hx. injection Hx as <-. exact Hin.
    + rewrite (IH Hnd' Hl). simpl. f_equal. lia.
Qed.
End split_properties.

Section split_theorems.
Context {F : Type} `{PyFloat F}.

(** C2, as amended.  [assign_split] raises [ValueError] exactly when
    [np.isclose(sum(ratios), 1.0)] fails, that is when
    [abs(sum - 1.0) > 1e-08 + 1e-05 * 1.0]; the check comes first, so
    the index and the count play no part. *)
Theorem assign_split_rejects_invalid_ratios (i n : Z) (r : list (string * F)) :
  assign_split i n r = Raise ValueError <->
  np_isclose (py_sum (map snd r)) (of_Z 1) = false.
Proof.
  unfold assign_split.
  destruct (np_isclose (py_sum (map snd r)) (of_Z 1)) eqn:Hc; simpl.
  - split; [| discriminate].
    unfold py_truediv. destruct (n =? 0); simpl; [discriminate |].
    destruct (fis_inf (fquot (i + 1) n)); simpl; [discriminate |].
    destruct (first_boundary _ _); [discriminate |].
    unfold py_last. destruct (rev (map fst r)); discriminate.
  - split; reflexivity.
Qed.

(** C10.  When the ratios pass the check and the count is zero, the
    division of [patient_index + 1] by [num_patients] raises
    [ZeroDivisionError]: no split is returned. *)
Theorem assign_split_zero_count (i : Z) (r : list (string * F)) :
  valid_ratios r -> assign_split i 0 r = Raise ZeroDivisionError.
Proof.
  intros Hv. unfold assign_split, valid_ratios in *. rewrite Hv. reflexivity.
Qed.

Lemma first_boundary_all_but_last (p : F) (bs : list (string * F)) :
  (forall split t, In (split, t) (removelast bs) -> fleb p t = false) ->
  first_boundary p bs = None \/
  exists s, first_boundary p bs = Some s /\ py_last (map fst bs) = Ok s.
Proof.
  induction bs as [| [k t] bs IH]; intros Hall; [left; reflexivity |].
  destruct bs as [| b bs'].
  - simpl. destruct (fleb p t); [right | left; reflexivity].
    exists k. split; reflexivity.
  - assert (Ht : fleb p t = false).
    { apply (Hall k). simpl. left; reflexivity. }
    change (first_boundary p ((k, t) :: b :: bs'))
      with (if fleb p t then Some k else first_boundary p (b :: bs')).
    rewrite Ht.
    destruct IH as [Hn | [s [Hs Hl]]].
    + intros split t' Hin. apply (Hall split). simpl. right. exact Hin.
    + left; exact Hn.
    + right. exists s. split; [exact Hs |].
      change (map fst ((k, t) :: b :: bs')) with (k :: map fst (b :: bs')).
      rewrite py_last_cons by (simpl; discriminate). exact Hl.
Qed.

(** C3, as amended.  For a count of at least one and a non-empty
    mapping that passes the check, when every cumulative threshold
    before the last one is below 1.0 the last patient gets the last
    split of the mapping. *)
Theorem assign_split_last_patient `{!FloatQuotientLaws F}
        (n : Z) (r : list (string * F)) :
  1 <= n -> valid_ratios r -> r <> [] ->
  (forall split t, In (split, t) (removelast (split_boundaries (of_Z 0) r)) ->
                   fleb (of_Z 1) t = false) ->
  exists s, py_last (map fst r) = Ok s /\ assign_split (n - 1) n r = Ok s.
Proof.
  intros Hn Hv Hne Hall.
  rewrite assign_split_unfold;
    [| assumption | lia
     | replace (n - 1 + 1) with n by lia; apply fquot_unit_finite; lia].
  replace (n - 1 + 1) with n by lia. rewrite fquot_same by lia.
  destruct (py_last_some (map fst r)) as [x [Hx _]].
  { destruct r; [contradiction | discriminate]. }
  exists x. split; [exact Hx |].
  destruct (first_boundary_all_but_last _ _ Hall) as [-> | [s [-> Hl]]].
  - exact Hx.
  - rewrite split_boundaries_keys in Hl. congruence.
Qed.

Lemma first_boundary_mono (p1 p2 : F) (bs : list (string * F)) (s2 : string) :
  (forall t, fleb p2 t = true -> fleb p1 t = true) ->
  NoDup (map fst bs) ->
  first_boundary p2 bs = Some s2 ->
  exists s1 k1 k2,
    first_boundary p1 bs = Some s1 /\
    split_rank bs s1 = Some k1 /\ split_rank bs s2 = Some k2 /\ (k1 <= k2)%nat.
Proof.
  intros Hle. induction bs as [| [k t] bs IH]; simpl; intros Hnd Hs2; [discriminate |].
  inversion Hnd as [| ? ? Hnotin Hnd']; subst.
  destruct (fleb p2 t) eqn:H2.
  - injection Hs2 as <-. rewrite (Hle t H2).
    exists k, O, O. rewrite String.eqb_refl. repeat split; lia.
  - destruct (IH Hnd' Hs2) as [s1 [k1 [k2 [H1 [Hk1 [Hk2 Hk]]]]]].
    assert (Hs2k : s2 <> k).
    { intros ->. apply Hnotin. eapply first_boundary_in; eassumption. }
    destruct (String.eqb_spec s2 k) as [E | _]; [contradiction |].
    rewrite Hk2.
    destruct (fleb p1 t).
    + exists k, O, (S k2). rewrite String.eqb_refl. repeat split; lia.
    + assert (Hs1k : s1 <> k).
      { intros ->. apply Hnotin. eapply first_boundary_in; eassumption. }
      exists s1, (S k1), (S k2).
      destruct (String.eqb_spec s1 k) as [E | _]; [contradiction |].
      rewrite Hk1. repeat split; [exact H1 | simpl; lia].
Qed.

(** C4.  For a non-empty mapping with distinct names that passes the
    check, a count [n] and indices [0 <= i1 < i2 < n], both calls
    return a split and the rank of the first is at most the rank of
    the second. *)
Theorem assign_split_monotonic `{!FloatQuotientLaws F} `{!FloatOrderLaws F}
        (n i1 i2 : Z) (r : list (string * F)) :
  NoDup (map fst r) -> valid_ratios r -> r <> [] ->
  0 <= i1 -> i1 < i2 -> i2 < n ->
  exists s1 s2 k1 k2,
    assign_split i1 n r = Ok s1 /\ assign_split i2 n r = Ok s2 /\
    split_rank r s1 = Some k1 /\ split_rank r s2 = Some k2 /\ (k1 <= k2)%nat.
Proof.
  intros Hnd Hv Hne H0 H12 H2n.
  rewrite !assign_split_unfold
    by (assumption || lia || (apply fquot_unit_finite; lia)).
  set (bs := split_boundaries (of_Z 0) r).
  assert (Hkeys : map fst bs = map fst r) by apply split_boundaries_keys.
  assert (Hle : forall t, fleb (fquot (i2 + 1) n) t = true ->
                          fleb (fquot (i1 + 1) n) t = true).
  { intros t Ht. eapply fleb_trans; [| exact Ht]. apply fquot_mono; lia. }
  destruct (py_last_some (map fst r)) as [l [Hl Hlin]].
  { destruct r; [contradiction | discriminate]. }
  pose proof (split_rank_last r l Hnd Hl) as Hrl.
  destruct (first_boundary (fquot (i2 + 1) n) bs) as [s2 |] eqn:E2.
  - destruct (first_boundary_mono _ _ bs s2 Hle) as [s1 [k1 [k2 [E1 [Hk1 [Hk2 Hk]]]]]];
      [rewrite Hkeys; exact Hnd | exact E2 |].
    rewrite E1. exists s1, s2, k1, k2.
    rewrite <- (split_rank_keys bs r s1 Hkeys), <- (split_rank_keys bs r s2 Hkeys).
    repeat split; assumption.
  - destruct (first_boundary (fquot (i1 + 1) n) bs) as [s1 |] eqn:E1.
    + apply first_boundary_in in E1. rewrite Hkeys in E1.
      destruct (split_rank_in r s1 E1) as [k1 [Hk1 Hlt]].
      exists s1, l, k1, (List.length r - 1)%nat.
      repeat split; try assumption. lia.
    + exists l, l, (List.length r - 1)%nat, (List.length r - 1)%nat.
      repeat split; try assumption. lia.
Qed.
End split_theorems.

(** ** Properties of the label table *)

Section label_properties.
Context {F G : Type} `{PyFloat F} `{NumpyRandom F G}.

Lemma generate_patient_labels_inv (idx : Z) (rng rng' : G) (r : PatientRecord) :
  generate_patient_labels idx rng = Ok (r, rng') ->
  patient_id r = get_patient_id idx "PAT" /\
  binary_label r = binary_label_of (fibrosis_stage r) /\
  assign_split idx NUM_PATIENTS SPLIT_RATIOS = Ok (split r) /\
  AGE_MIN <= age r <= AGE_MAX.
Proof.
  unfold generate_patient_labels, rng_choice, rng_normal, rand_lift; simpl.
  destruct (rs_choice FIBROSIS_STAGES FIBROSIS_PROBS rng) as [stage s1].
  destruct (assign_split idx NUM_PATIENTS SPLIT_RATIOS) as [sp | e]; [| discriminate].
  destruct (rs_normal AGE_MEAN AGE_STD s1) as [x s2].
  destruct (rs_choice SEX_OPTIONS SEX_PROBS s2) as [sx s3].
  intros [= <- _]; simpl. repeat split; try reflexivity.
  - unfold np_clip_int, AGE_MIN, AGE_MAX. lia.
  - unfold np_clip_int, AGE_MIN, AGE_MAX. lia.
Qed.

Lemma generate_patient_labels_returns (idx : Z) (rng : G) (s : string) :
  assign_split idx NUM_PATIENTS SPLIT_RATIOS = Ok s ->
  exists r rng', generate_patient_labels idx rng = Ok (r, rng').
Proof.
  intros Hs.
  unfold generate_patient_labels, rng_choice, rng_normal, rand_lift; simpl.
  destruct (rs_choice FIBROSIS_STAGES FIBROSIS_PROBS rng) as [stage s1].
  rewrite Hs.
  destruct (rs_normal AGE_MEAN AGE_STD s1) as [x s2].
  destruct (rs_choice SEX_OPTIONS SEX_PROBS s2) as [sx s3].
  eexists; eexists; reflexivity.
Qed.

Lemma binary_label_of_positive (stage : string) :
  binary_label_of stage = "positive" <-> (stage = "F3" \/ stage = "F4").
Proof.
  unfold binary_label_of, py_in; simpl.
  destruct (String.eqb_spec stage "F3") as [-> | H3]; simpl.
  - split; [left; reflexivity | reflexivity].
  - destruct (String.eqb_spec stage "F4") as [-> | H4]; simpl.
    + split; [right; reflexivity | reflexivity].
    + split; [discriminate | intros [E | E]; contradiction].
Qed.

Lemma binary_label_of_cases (stage : string) :
  binary_label_of stage = "positive" \/ binary_label_of stage = "negative".
Proof. unfold binary_label_of. destruct (py_in stage _); [left | right]; reflexivity. Qed.

(** C6.  In every record that [generate_patient_labels] returns, the
    binary label is the value at the stage of the fixed function
    [binary_label_of]: "positive" exactly for F3 and F4 and
    "negative" for every other stage. *)
Theorem binary_label_determined_by_stage (idx : Z) (rng rng' : G) (r : PatientRecord) :
  generate_patient_labels idx rng = Ok (r, rng') ->
  binary_label r = binary_label_of (fibrosis_stage r) /\
  (binary_label r = "positive" <->
   (fibrosis_stage r = "F3" \/ fibrosis_stage r = "F4")) /\
  (binary_label r = "negative" <->
   ~ (fibrosis_stage r = "F3" \/ fibrosis_stage r = "F4")).
Proof.
  intros Hr. destruct (generate_patient_labels_inv _ _ _ _ Hr) as [_ [Hb _]].
  rewrite Hb. split; [reflexivity |]. split; [apply binary_label_of_positive |].
  pose proof (binary_label_of_positive (fibrosis_stage r)) as Hp.
  destruct (binary_label_of_cases (fibrosis_stage r)) as [E | E]; rewrite E in *.
  - split; [discriminate |]. intros Hn. exfalso. apply Hn, Hp. reflexivity.
  - split; [| reflexivity]. intros _ Hs. apply Hp in Hs. discriminate.
Qed.

(** What the loop of [generate_all_labels] appends: one record per
    index, whose split is computed from the index and the configured
    count [NUM_PATIENTS]. *)
Lemma label_loop_spec (n : nat) :
  forall (idx : Z) (records out : list PatientRecord) (rng rng' : G),
    label_loop n idx records rng = Ok (out, rng') ->
    exists new,
      out = (records ++ new)%list /\ List.length new = n /\
      forall j r, nth_error new j = Some r ->
        assign_split (idx + Z.of_nat j) NUM_PATIENTS SPLIT_RATIOS = Ok (split r) /\
        binary_label r = binary_label_of (fibrosis_stage r).
Proof.
  induction n as [| n IH]; intros idx records out rng rng'.
  - simpl. intros [= <- _]. exists []. rewrite app_nil_r.
    repeat split; destruct j; discriminate.
  - cbn [label_loop]. unfold rng_randint, rand_lift; simpl.
    destruct (rs_randint 0 2147483647 rng) as [ps s1].
    destruct (RandomState ps) as [prng | e]; [| discriminate].
    destruct (generate_patient_labels idx prng) as [[rcd prng'] | e] eqn:Hg;
      [| discriminate].
    intros Hl. apply IH in Hl. destruct Hl as [new [-> [Hlen Hall]]].
    exists (rcd :: new). rewrite <- app_assoc. simpl.
    split; [reflexivity |]. split; [lia |].
    intros [| j] r; simpl.
    + intros [= <-]. rewrite Z.add_0_r.
      destruct (generate_patient_labels_inv _ _ _ _ Hg) as [_ [Hb [Hs _]]].
      split; assumption.
    + intros Hj. destruct (Hall j r Hj) as [Hs Hb].
      replace (idx + Z.pos (Pos.of_succ_nat j)) with (idx + 1 + Z.of_nat j) by lia.
      split; assumption.
Qed.

Lemma label_loop_returns `{!NumpyRandomLaws F G} (n : nat) :
  forall (idx : Z) (records : list PatientRecord) (rng : G),
    (forall i, idx <= i < idx + Z.of_nat n ->
               exists s, assign_split i NUM_PATIENTS SPLIT_RATIOS = Ok s) ->
    exists out rng', label_loop n idx records rng = Ok (out, rng').
Proof.
  induction n as [| n IH]; intros idx records rng Htot.
  - simpl. eexists; eexists; reflexivity.
  - cbn [label_loop]. unfold rng_randint, rand_lift; simpl.
    pose proof (rs_randint_range 0 2147483647 rng ltac:(lia)) as Hr.
    destruct (rs_randint 0 2147483647 rng) as [ps s1]. simpl in Hr.
    unfold RandomState.
    replace ((0 <=? ps) && (ps <? 2 ^ 32)) with true
      by (symmetry; apply andb_true_iff; split; [apply Z.leb_le | apply Z.ltb_lt]; lia).
    destruct (Htot idx ltac:(lia)) as [s Hs].
    destruct (generate_patient_labels_returns idx (rs_seeded ps) s Hs) as [r [g' Hg]].
    rewrite Hg. apply IH. intros i Hi. apply Htot. lia.
Qed.

Lemma generate_all_labels_rows (N seed : Z) (p p' : Process G) (table : DataFrame) :
  generate_all_labels N seed p = (Ok table, p') ->
  List.length (rows table) = Z.to_nat N /\
  forall j r, nth_error (rows table) j = Some r ->
    assign_split (Z.of_nat j) NUM_PATIENTS SPLIT_RATIOS = Ok (split r).
Proof.
  unfold generate_all_labels, py_lift. intros [= Hr _]. simpl in Hr.
  destruct (RandomState seed) as [rng | e]; [| discriminate].
  destruct (label_loop (Z.to_nat N) 0 [] rng) as [[records rng'] | e] eqn:Hl;
    [| discriminate].
  injection Hr as <-. simpl.
  destruct (label_loop_spec _ _ _ _ _ _ Hl) as [new [-> [Hlen Hall]]]. simpl.
  split; [exact Hlen |]. intros j r Hj. apply (Hall j r Hj).
Qed.

(** C5.  For a count and a seed there is one result, a table or an
    exception, that [generate_all_labels] returns from every state of
    the interpreter, and the call leaves that state as it was: two
    runs, one after the other or in different processes, return
    identical tables. *)
Theorem generate_all_labels_deterministic (N seed : Z) :
  exists result : PyResult DataFrame,
    (forall p : Process G, generate_all_labels N seed p = (result, p)) /\
    (forall p : Process G,
        fst (generate_all_labels N seed (snd (generate_all_labels N seed p)))
        = fst (generate_all_labels N seed p)) /\
    (forall table, result = Ok table -> List.length (rows table) = Z.to_nat N).
Proof.
  exists (fst (generate_all_labels N seed (fresh_process G))).
  split; [reflexivity |]. split; [reflexivity |].
  intros table Ht.
  apply (generate_all_labels_rows N seed (fresh_process G) (fresh_process G)).
  rewrite <- Ht. reflexivity.
Qed.

(** Seeding the global generators first does not change the table. *)
Lemma generate_all_labels_after_seeding (N seed s : Z) (p : Process G) :
  0 <= s < 2 ^ 32 ->
  fst ((_ <- set_global_seed s ;; generate_all_labels N seed) p)
  = fst (generate_all_labels N seed p).
Proof.
  intros Hs. cbn [bind Py_monad]. unfold set_global_seed, RandomState.
  replace ((0 <=? s) && (s <? 2 ^ 32)) with true; [reflexivity |].
  symmetry. apply andb_true_iff. split; [apply Z.leb_le | apply Z.ltb_lt]; lia.
Qed.
End label_properties.

Section anatomy_properties.
Context {F G : Type} `{PyFloat F} `{NumpyRandom F G} `{Hashlib}.

Lemma RandomState_mod (x : Z) :
  RandomState (x mod 2 ^ 32) = Ok (rs_seeded (x mod 2 ^ 32)).
Proof.
  unfold RandomState.
  pose proof (Z.mod_pos_bound x (2 ^ 32) ltac:(lia)) as Hb.
  replace ((0 <=? x mod 2 ^ 32) && (x mod 2 ^ 32 <? 2 ^ 32)) with true; [reflexivity |].
  symmetry. apply andb_true_iff. split; [apply Z.leb_le | apply Z.ltb_lt]; lia.
Qed.

(** The call in terms of the first six draws of the seeded
    generator. *)
Lemma anatomy_params_draws (pid m : string) (p : Process G) :
  exists us s6 params,
    rs_draws 6 (rs_seeded (sha256_int (pid ++ "_anatomy") mod 2 ^ 32)) = (us, s6) /\
    _get_patient_anatomy_params pid m p = (Ok params, p) /\
    anatomy_from_draws 256 256 us
    = Some (center params, axes params, angle params, intensity_base params) /\
    rng params = s6.
Proof.
  unfold _get_patient_anatomy_params, py_lift.
  rewrite RandomState_mod.
  unfold rng_rand, rng_uniform, rng_object; simpl.
  destruct (rs_random_sample (rs_seeded _)) as [u1 s1].
  destruct (rs_random_sample s1) as [u2 s2].
  destruct (rs_random_sample s2) as [u3 s3].
  destruct (rs_random_sample s3) as [u4 s4].
  destruct (rs_random_sample s4) as [u5 s5].
  destruct (rs_random_sample s5) as [u6 s6].
  eexists; eexists; eexists. repeat split.
Qed.

Lemma anatomy_params_returns (pid : string) :
  exists params,
    forall (m : string) (p : Process G),
      _get_patient_anatomy_params pid m p = (Ok params, p).
Proof.
  set (p0 := {| py_random_seed := None; np_global := @None G; environ := [] |}).
  destruct (anatomy_params_draws pid "MRI" p0) as [us [s6 [params [_ [Hp _]]]]].
  exists params. intros m p.
  change (_get_patient_anatomy_params pid m p)
    with (fst (_get_patient_anatomy_params pid "MRI" p0), p).
  rewrite Hp. reflexivity.
Qed.

(** C9, as amended.  The generator is seeded with the SHA-256 digest
    of "<patient_id>_anatomy" modulo 2**32, a valid seed, and the
    parameters are read off its first six uniform draws in the order
    column of the centre, row of the centre, major axis, factor of
    the minor axis, angle, base intensity, the centre and the axes
    truncated to ints, at the 256 x 256 reference resolution. *)
Theorem anatomy_draw_order (pid m : string) (p : Process G) :
  let seed := sha256_int (pid ++ "_anatomy") mod 2 ^ 32 in
  RandomState seed = Ok (rs_seeded seed) /\
  exists us s6 params,
    rs_draws 6 (rs_seeded seed) = (us, s6) /\
    _get_patient_anatomy_params pid m p = (Ok params, p) /\
    anatomy_from_draws 256 256 us
    = Some (center params, axes params, angle params, intensity_base params) /\
    rng params = s6.
Proof.
  intros seed. split; [apply RandomState_mod | apply anatomy_params_draws].
Qed.

(** C7.  For a patient identifier, the call returns the same
    parameters, generator included, for every modality name and from
    every state of the interpreter, and leaves that state as it
    was: the anatomy does not depend on the modality or on what was
    generated before. *)
Theorem anatomy_independent_of_modality (pid m1 m2 : string) (p1 p2 : Process G) :
  fst (_get_patient_anatomy_params pid m1 p1)
  = fst (_get_patient_anatomy_params pid m2 p2) /\
  (exists params, fst (_get_patient_anatomy_params pid m1 p1) = Ok params) /\
  snd (_get_patient_anatomy_params pid m1 p1) = p1.
Proof.
  destruct (anatomy_params_returns pid) as [params Hp].
  rewrite (Hp m1 p1), (Hp m2 p2). simpl.
  repeat split. exists params. reflexivity.
Qed.
End anatomy_properties.

(** ** Properties of the image generators *)

Section array_properties.
Context {A B C : Type}.

Lemma zrange_length (n : Z) : List.length (zrange n) = Z.to_nat n.
Proof. unfold zrange. rewrite length_map, length_seq. reflexivity. Qed.

Lemma ogrid_map_shape (h w : Z) (f : Z -> Z -> A) : has_shape h w (ogrid_map h w f).
Proof.
  unfold has_shape, ogrid_map. split.
  - rewrite length_map. apply zrange_length.
  - apply Forall_map, Forall_forall. intros y _.
    rewrite length_map. apply zrange_length.
Qed.

Lemma array_map_shape (h w : Z) (f : A -> B) (a : list (list A)) :
  has_shape h w a -> has_shape h w (array_map f a).
Proof.
  unfold has_shape, array_map. intros [Hl Hr]. split.
  - rewrite length_map. exact Hl.
  - apply Forall_map. eapply Forall_impl; [| exact Hr].
    intros row Hrow. simpl. rewrite length_map. exact Hrow.
Qed.

Lemma array_zip_shape (h w : Z) (f : A -> B -> C)
      (a : list (list A)) (b : list (list B)) :
  has_shape h w a -> has_shape h w b -> has_shape h w (array_zip f a b).
Proof.
  unfold has_shape, array_zip. intros [Hla Hra] [Hlb Hrb]. split.
  - rewrite length_map, length_combine. lia.
  - apply Forall_map, Forall_forall. intros [ra rb] Hin. simpl.
    rewrite length_map, length_combine.
    rewrite Forall_forall in Hra, Hrb.
    rewrite (Hra ra (in_combine_l _ _ _ _ Hin)), (Hrb rb (in_combine_r _ _ _ _ Hin)).
    lia.
Qed.

Lemma np_index_in_range (len : nat) (i : Z) :
  0 <= i < Z.of_nat len -> np_index len i = Ok (Z.to_nat i).
Proof.
  intros Hi. unfold np_index.
  replace ((0 <=? i) && (i <? Z.of_nat len)) with true; [reflexivity |].
  symmetry. apply andb_true_iff. split; [apply Z.leb_le | apply Z.ltb_lt]; lia.
Qed.

Lemma array_get_in_range (h w : Z) (a : list (list A)) (y x : Z) :
  has_shape h w a -> 0 <= y < h -> 0 <= x < w ->
  exists v, array_get a y x = Ok v.
Proof.
  intros [Hl Hr] Hy Hx. unfold array_get.
  rewrite np_index_in_range by lia. simpl.
  destruct (nth_error a (Z.to_nat y)) as [row |] eqn:E.
  - assert (Hrow : List.length row = Z.to_nat w).
    { rewrite Forall_forall in Hr. apply Hr. eapply nth_error_In; eassumption. }
    rewrite np_index_in_range by lia. simpl.
    destruct (nth_error row (Z.to_nat x)) as [v |] eqn:E'.
    + exists v; reflexivity.
    + apply nth_error_None in E'. lia.
  - apply nth_error_None in E. lia.
Qed.
End array_properties.

Lemma list_index_stage (stage : string) :
  In stage FIBROSIS_STAGES -> exists i, list_index FIBROSIS_STAGES stage = Ok i.
Proof.
  intros Hin. simpl in Hin.
  repeat (destruct Hin as [<- | Hin]; [eexists; reflexivity |]). contradiction.
Qed.

Section rand_logic.
Context {G : Type}.

Lemma rand_ok_ret {A : Type} (a : A) (P : A -> Prop) : P a -> rand_ok (G := G) (ret a) P.
Proof. intros Ha s. exists a, s. split; [reflexivity | exact Ha]. Qed.

Lemma rand_ok_bind {A B : Type} (c : Rand G A) (k : A -> Rand G B)
      (P : A -> Prop) (Q : B -> Prop) :
  rand_ok c P -> (forall a, P a -> rand_ok (k a) Q) -> rand_ok (bind c k) Q.
Proof.
  intros Hc Hk s. destruct (Hc s) as [a [s' [Ec Ha]]].
  destruct (Hk a Ha s') as [b [s'' [Ek Hb]]].
  exists b, s''. simpl. rewrite Ec. split; assumption.
Qed.

Lemma rand_ok_lift {A : Type} (a : A) (P : A -> Prop) :
  P a -> rand_ok (G := G) (rand_lift (Ok a)) P.
Proof. intros Ha s. exists a, s. split; [reflexivity | exact Ha]. Qed.

End rand_logic.

Section image_properties.
Context {F G : Type} `{PyFloat F} `{NumpyRandom F G} `{NumpyMath F} `{Hashlib}.
Context `{!FloatTotalLaws F} `{!NumpyRandomLaws F G}.

Lemma fleb_refl (a : F) : fleb a a = true.
Proof.
  destruct (fleb a a) eqn:E; [reflexivity |].
  pose proof (fleb_total a a E) as E'. congruence.
Qed.

Lemma np_clip_unit (v : F) : in_unit_interval (np_clip v (of_Z 0) (of_Z 1)).
Proof.
  unfold in_unit_interval, np_clip, np_minimum, np_maximum.
  destruct (fleb v (of_Z 0)) eqn:E0.
  - destruct (fleb (of_Z 1) (of_Z 0)) eqn:E1.
    + split; [apply fleb_zero_one | apply fleb_refl].
    + split; [apply fleb_refl | apply fleb_zero_one].
  - destruct (fleb (of_Z 1) v) eqn:E1.
    + split; [apply fleb_zero_one | apply fleb_refl].
    + split; apply fleb_total; assumption.
Qed.

Lemma f32_unit (v : F) : in_unit_interval v -> in_unit_interval (f32 v).
Proof.
  intros [Hlo Hhi]. split.
  - rewrite <- f32_zero. apply f32_mono, Hlo.
  - rewrite <- f32_one. apply f32_mono, Hhi.
Qed.

Lemma clip_float32_unit (image : list (list F)) :
  Forall (Forall in_unit_interval) (clip_float32 image).
Proof.
  unfold clip_float32, array_map.
  apply Forall_map, Forall_forall. intros row _.
  apply Forall_map, Forall_forall. intros v _.
  apply f32_unit, np_clip_unit.
Qed.

Lemma sample_list_ok (draw : Rand G F) (n : nat) :
  rand_ok draw (fun _ => True) ->
  rand_ok (sample_list n draw) (fun vs => List.length vs = n).
Proof.
  intros Hd. induction n as [| n IH]; cbn [sample_list].
  - apply rand_ok_ret. reflexivity.
  - eapply rand_ok_bind; [exact Hd |]. intros v _.
    eapply rand_ok_bind; [exact IH |]. intros vs Hvs.
    apply rand_ok_ret. simpl in *. lia.
Qed.

Lemma sample_rows_ok (draw : Rand G F) (n w : nat) :
  rand_ok draw (fun _ => True) ->
  rand_ok (sample_rows n w draw)
          (fun a => List.length a = n /\ Forall (fun row => List.length row = w) a).
Proof.
  intros Hd. induction n as [| n IH]; cbn [sample_rows].
  - apply rand_ok_ret. split; [reflexivity | constructor].
  - eapply rand_ok_bind; [apply sample_list_ok, Hd |]. intros row Hrow.
    eapply rand_ok_bind; [exact IH |]. intros rest [Hl Hr].
    apply rand_ok_ret. simpl in *. split; [lia | constructor; assumption].
Qed.

Lemma sample_array_ok (draw : Rand G F) (h w : Z) :
  0 < h -> 0 < w -> rand_ok draw (fun _ => True) ->
  rand_ok (sample_array h w draw) (has_shape h w).
Proof.
  intros Hh Hw Hd. unfold sample_array.
  replace ((h <? 0) || (w <? 0)) with false
    by (symmetry; apply orb_false_iff; split; apply Z.ltb_ge; lia).
  apply sample_rows_ok, Hd.
Qed.

Lemma rng_normal_ok (loc scale : F) : rand_ok (rng_normal loc scale) (fun _ => True).
Proof.
  intros s. unfold rng_normal. destruct (rs_normal loc scale s) as [v s'].
  exists v, s'. split; [reflexivity | exact I].
Qed.

Lemma rng_gamma_ok (shape scale : F) : rand_ok (rng_gamma shape scale) (fun _ => True).
Proof.
  intros s. unfold rng_gamma. destruct (rs_gamma shape scale s) as [v s'].
  exists v, s'. split; [reflexivity | exact I].
Qed.

Lemma rng_poisson_ok (lam : F) : rand_ok (rng_poisson lam) (fun _ => True).
Proof.
  intros s. unfold rng_poisson. destruct (rs_poisson lam s) as [v s'].
  exists v, s'. split; [reflexivity | exact I].
Qed.

Lemma rng_uniform_ok (low high : F) : rand_ok (rng_uniform low high) (fun _ => True).
Proof.
  intros s. unfold rng_uniform. destruct (rs_random_sample s) as [u s'].
  eexists; eexists. split; [reflexivity | exact I].
Qed.

Lemma rng_randint_ok (low high : Z) :
  low < high -> rand_ok (rng_randint low high) (fun r => low <= r < high).
Proof.
  intros Hlh s. unfold rng_randint.
  replace (low <? high) with true by (symmetry; apply Z.ltb_lt; exact Hlh).
  pose proof (rs_randint_range low high s Hlh) as Hr.
  destruct (rs_randint low high s) as [r s'].
  exists r, s'. split; [reflexivity | exact Hr].
Qed.

Lemma add_spot_shape (h w sy sx radius : Z) (boost : F) (liver : list (list F)) :
  has_shape h w liver -> has_shape h w (add_spot h w sy sx radius boost liver).
Proof.
  intros Hs. unfold add_spot. apply array_zip_shape; [exact Hs | apply ogrid_map_shape].
Qed.

Lemma spot_loop_ok (n : nat) (h w : Z) (mask : list (list bool))
      (rlo rhi : Z) (blo bhi : F) :
  0 < h -> 0 < w -> rlo < rhi -> has_shape h w mask ->
  forall liver, has_shape h w liver ->
    rand_ok (spot_loop n h w mask rlo rhi blo bhi liver) (has_shape h w).
Proof.
  intros Hh Hw Hr Hm. induction n as [| n IH]; intros liver Hl; cbn [spot_loop].
  - apply rand_ok_ret, Hl.
  - eapply rand_ok_bind; [apply rng_randint_ok, Hh |]. intros sy Hsy.
    eapply rand_ok_bind; [apply rng_randint_ok, Hw |]. intros sx Hsx.
    destruct (array_get_in_range h w mask sy sx Hm Hsy Hsx) as [inside Hi].
    rewrite Hi.
    eapply rand_ok_bind; [apply rand_ok_lift; exact I |]. intros b _.
    eapply rand_ok_bind with (P := has_shape h w); [| intros l' Hl'; apply IH, Hl'].
    destruct b.
    + eapply rand_ok_bind; [apply rng_randint_ok, Hr |]. intros radius _.
      eapply rand_ok_bind; [apply rng_uniform_ok |]. intros boost _.
      apply rand_ok_ret, add_spot_shape, Hl.
    + apply rand_ok_ret, Hl.
Qed.

Lemma mask_shape (h w : Z) (c a : Z * Z) (ang : F) :
  has_shape h w (_create_elliptical_mask (h, w) c a ang).
Proof. unfold _create_elliptical_mask. apply ogrid_map_shape. Qed.

Lemma np_where_shape {A : Type} (h w : Z) (mask : list (list bool)) (a b : list (list A)) :
  has_shape h w mask -> has_shape h w a -> has_shape h w b ->
  has_shape h w (np_where mask a b).
Proof.
  intros Hm Ha Hb. unfold np_where.
  apply array_zip_shape; [exact Hm |]. apply array_zip_shape; assumption.
Qed.

(** The part that the three generators share: from arrays of the
    requested shape, the composed, clipped and narrowed image. *)
Lemma compose_ok (h w : Z) (mask : list (list bool)) (liver background : list (list F)) :
  has_shape h w mask -> has_shape h w liver -> has_shape h w background ->
  has_shape h w (clip_float32 (np_where mask liver background)) /\
  Forall (Forall in_unit_interval) (clip_float32 (np_where mask liver background)).
Proof.
  intros Hm Hl Hb. split; [| apply clip_float32_unit].
  unfold clip_float32. apply array_map_shape, np_where_shape; assumption.
Qed.
End image_properties.

Section image_theorems.
Context {F G : Type} `{PyFloat F} `{NumpyRandom F G} `{NumpyMath F} `{Hashlib}.
Context `{!FloatTotalLaws F} `{!NumpyRandomLaws F G}.

Lemma image_ok_block (h w : Z) (block : Rand G (list (list F))) (s : G) :
  rand_ok block (fun image => has_shape h w image /\
                              Forall (Forall in_unit_interval) image) ->
  image_ok h w ('(image, _) <- block s ;; ret image).
Proof.
  intros Hb. destruct (Hb s) as [image [s' [E [Hs Hr]]]].
  exists image. simpl. rewrite E. split; [reflexivity | split; assumption].
Qed.

Ltac generator_steps h w Hh Hw Hstage :=
  eapply rand_ok_bind;
    [apply sample_array_ok;
     [exact Hh | exact Hw | first [apply rng_normal_ok | apply rng_gamma_ok]] |];
  intros background Hbg;
  destruct (list_index_stage _ Hstage) as [stage_index Hidx]; rewrite Hidx;
  eapply rand_ok_bind; [apply rand_ok_lift; exact I |];
  intros idx _;
  eapply rand_ok_bind;
    [apply sample_array_ok;
     [exact Hh | exact Hw | first [apply rng_normal_ok | apply rng_gamma_ok]] |];
  intros liver Hliver;
  eapply rand_ok_bind with (P := has_shape h w);
    [ match goal with
      | |- rand_ok (if ?c then _ else _) _ =>
          destruct c;
          [ eapply rand_ok_bind; [apply rng_poisson_ok |];
            intros num_spots _;
            apply spot_loop_ok;
            [exact Hh | exact Hw | lia | apply mask_shape | exact Hliver]
          | apply rand_ok_ret; exact Hliver ]
      end
    | intros liver' Hliver';
      apply rand_ok_ret, compose_ok;
      [apply mask_shape | exact Hliver' | apply array_map_shape; exact Hbg] ].

Lemma generate_mri_image_ok (pid stage : string) (h w : Z) (p : Process G) :
  In stage FIBROSIS_STAGES -> 0 < h -> 0 < w ->
  image_ok h w (fst (generate_mri_image pid stage (h, w) p)).
Proof.
  intros Hstage Hh Hw.
  destruct (anatomy_params_returns pid) as [params Hp].
  unfold generate_mri_image. cbn [bind Py_monad]. rewrite Hp.
  unfold py_lift. cbn [fst].
  apply image_ok_block.
  generator_steps h w Hh Hw Hstage.
Qed.

Lemma generate_ct_image_ok (pid stage : string) (h w : Z) (p : Process G) :
  In stage FIBROSIS_STAGES -> 0 < h -> 0 < w ->
  image_ok h w (fst (generate_ct_image pid stage (h, w) p)).
Proof.
  intros Hstage Hh Hw.
  destruct (anatomy_params_returns pid) as [params Hp].
  unfold generate_ct_image. cbn [bind Py_monad]. rewrite Hp.
  unfold py_lift. cbn [fst].
  apply image_ok_block.
  generator_steps h w Hh Hw Hstage.
Qed.

Lemma generate_ultrasound_image_ok (pid stage : string) (h w : Z) (p : Process G) :
  In stage FIBROSIS_STAGES -> 0 < h -> 0 < w ->
  image_ok h w (fst (generate_ultrasound_image pid stage (h, w) p)).
Proof.
  intros Hstage Hh Hw.
  destruct (anatomy_params_returns pid) as [params Hp].
  unfold generate_ultrasound_image. cbn [bind Py_monad]. rewrite Hp.
  unfold py_lift. cbn [fst].
  apply image_ok_block.
  generator_steps h w Hh Hw Hstage.
Qed.

End image_theorems.

(** ** The configuration on binary64 *)

Lemma lcg_random_laws {F : Type} `{PyFloat F} : @NumpyRandomLaws F Z lcg_random.
Proof.
  constructor. intros low high s Hlh. simpl.
  pose proof (Z.mod_pos_bound (lcg_next s) (high - low) ltac:(lia)). lia.
Qed.

Lemma b64_config_valid : valid_ratios (F := float) SPLIT_RATIOS.
Proof. vm_compute. reflexivity. Qed.

Lemma b64_config_split_returns (i : Z) :
  0 <= i < NUM_PATIENTS ->
  exists s, assign_split (F := float) i NUM_PATIENTS SPLIT_RATIOS = Ok s.
Proof.
  intros Hi. unfold NUM_PATIENTS in Hi.
  rewrite assign_split_unfold;
    [| apply b64_config_valid | discriminate
     | apply (fquot_unit_finite (F := float)); unfold NUM_PATIENTS; lia].
  destruct (first_boundary _ _) as [s |]; [exists s; reflexivity |].
  exists "test". reflexivity.
Qed.

Section label_bug.
Context {G : Type} `{NumpyRandom float G} `{!NumpyRandomLaws float G}.

(** C1, where the code departs from it.  In the table of
    [generate_all_labels(10, 42)] the record at index 9 has the split
    [assign_split(9, NUM_PATIENTS, SPLIT_RATIOS)] with the configured
    count 1000, which is "train", and not
    [assign_split(9, 10, SPLIT_RATIOS)], which is "test". *)
Theorem generate_all_labels_split_uses_configured_count (p : Process G) :
  exists table r,
    generate_all_labels 10 42 p = (Ok table, p) /\
    nth_error (rows table) 9 = Some r /\
    split r = "train" /\
    assign_split (F := float) 9 10 SPLIT_RATIOS = Ok "test".
Proof.
  destruct (label_loop_returns 10 0 [] (rs_seeded 42)) as [out [rng' Hl]].
  { intros i Hi. apply b64_config_split_returns. unfold NUM_PATIENTS. lia. }
  assert (Hg : generate_all_labels 10 42 p = (Ok (pd_DataFrame out), p)).
  { unfold generate_all_labels, py_lift. f_equal.
    change (RandomState 42) with (Ok (rs_seeded 42)).
    cbn [bind PyResult_monad]. change (Z.to_nat 10) with 10%nat.
    rewrite Hl. reflexivity. }
  destruct (generate_all_labels_rows _ _ _ _ _ Hg) as [Hlen Hall].
  destruct (nth_error (rows (pd_DataFrame out)) 9) as [r |] eqn:E.
  - exists (pd_DataFrame out), r.
    split; [exact Hg |]. split; [exact E |]. split.
    + specialize (Hall _ _ E).
      change (assign_split (Z.of_nat 9) NUM_PATIENTS SPLIT_RATIOS)
        with (@Ok string "train") in Hall.
      congruence.
    + vm_compute. reflexivity.
  - apply nth_error_None in E. rewrite Hlen in E. simpl in E. lia.
Qed.
End label_bug.

(** ** Concrete runs *)

Lemma generate_all_labels_split_uses_configured_count_witness :
  exists table r,
    @generate_all_labels float Z b64_float lcg_random 10 42 (fresh_process Z)
    = (Ok table, fresh_process Z) /\
    nth_error (rows table) 9 = Some r /\
    split r = "train" /\
    assign_split (F := float) 9 10 SPLIT_RATIOS = Ok "test".
Proof.
  exact (@generate_all_labels_split_uses_configured_count
           Z lcg_random lcg_random_laws (fresh_process Z)).
Defined.

(** C2 as stated fails: the ratios 0.7, 0.15 and 0.150001 sum to
    1.000001, which is not within 1e-9 of 1.0, and the call returns
    "train". *)
Lemma assign_split_tolerance_counterexample :
  ~ (forall (i n : Z) (r : list (string * float)),
        within_1e9 (py_sum (map snd r)) = false ->
        exists e, assign_split i n r = Raise e).
Proof.
  intros Hc.
  destruct (Hc 0 10 [("train", fquot 7 10); ("val", fquot 15 100);
                     ("test", fquot 150001 1000000)]) as [e He].
  - vm_compute. reflexivity.
  - vm_compute in He. discriminate.
Qed.

Example assign_split_rejects_ratios_summing_to_0_9 :
  assign_split (F := float) 0 10
    [("train", fquot 5 10); ("val", fquot 2 10); ("test", fquot 2 10)]
  = Raise ValueError.
Proof. vm_compute. reflexivity. Qed.

Lemma assign_split_zero_count_witness :
  assign_split (F := float) 3 0 SPLIT_RATIOS = Raise ZeroDivisionError.
Proof. apply (assign_split_zero_count (F := float) 3 SPLIT_RATIOS). vm_compute. reflexivity. Defined.

(** C3 as stated fails: the ratios 0.8, 0.2 and 0.0 sum to 1.0, and
    the last of ten patients gets "val", not the last split "test". *)
Lemma assign_split_last_counterexample :
  ~ (forall (n : Z) (r : list (string * float)),
        1 <= n -> NoDup (map fst r) -> py_sum (map snd r) = of_Z 1 ->
        assign_split (n - 1) n r = py_last (map fst r)).
Proof.
  intros Hc.
  specialize (Hc 10 [("train", fquot 8 10); ("val", fquot 2 10); ("test", fquot 0 1)]).
  assert (He : @Ok string "val" = Ok "test"); [| discriminate].
  apply Hc.
  - lia.
  - repeat constructor; simpl; intuition discriminate.
  - vm_compute. reflexivity.
Qed.

Lemma assign_split_last_patient_witness :
  exists s, py_last (map fst (SPLIT_RATIOS (F := float))) = Ok s /\
            assign_split (F := float) (10 - 1) 10 SPLIT_RATIOS = Ok s.
Proof.
  apply (assign_split_last_patient (F := float) 10 SPLIT_RATIOS).
  - lia.
  - vm_compute. reflexivity.
  - discriminate.
  - intros split t Hin. vm_compute in Hin.
    destruct Hin as [[= _ <-] | [[= _ <-] | []]]; vm_compute; reflexivity.
Defined.

Lemma assign_split_monotonic_witness :
  exists s1 s2 k1 k2,
    assign_split (F := float) 6 10 SPLIT_RATIOS = Ok s1 /\
    assign_split (F := float) 7 10 SPLIT_RATIOS = Ok s2 /\
    split_rank (F := float) SPLIT_RATIOS s1 = Some k1 /\
    split_rank (F := float) SPLIT_RATIOS s2 = Some k2 /\ (k1 <= k2)%nat.
Proof.
  apply (assign_split_monotonic (F := float) 10 6 7 SPLIT_RATIOS).
  - repeat constructor; simpl; intuition discriminate.
  - vm_compute. reflexivity.
  - discriminate.
  - lia.
  - lia.
  - lia.
Defined.

Lemma binary_label_determined_by_stage_witness :
  exists r rng',
    @generate_patient_labels float Z b64_float lcg_random 0 42 = Ok (r, rng') /\
    binary_label r = binary_label_of (fibrosis_stage r) /\
    (binary_label r = "positive" <->
     (fibrosis_stage r = "F3" \/ fibrosis_stage r = "F4")) /\
    (binary_label r = "negative" <->
     ~ (fibrosis_stage r = "F3" \/ fibrosis_stage r = "F4")).
Proof.
  destruct (@generate_patient_labels float Z b64_float lcg_random 0 42)
    as [[r rng'] | e] eqn:E.
  - exists r, rng'. split; [reflexivity |].
    exact (@binary_label_determined_by_stage float Z b64_float lcg_random 0 42 rng' r E).
  - vm_compute in E. discriminate.
Defined.


(** C9 as stated fails: when the first uniform draw is 0.01 the
    column of the centre is 102, below 0.4 of the reference width
    256. *)
Lemma anatomy_center_range_counterexample :
  ~ (forall (G : Type) (NR : NumpyRandom float G) (HL : Hashlib)
            (pid m : string) (p : Process G) (params : AnatomyParams float G),
        fst (_get_patient_anatomy_params pid m p) = Ok params ->
        fleb (F := float) (fmul (fquot 4 10) (of_Z 256))
             (of_Z (snd (center params))) = true /\
        fleb (F := float) (of_Z (snd (center params)))
             (fmul (fquot 6 10) (of_Z 256)) = true).
Proof.
  intros Hc.
  specialize (Hc nat
                 (replay_random [fquot 1 100; fquot 5 10; fquot 5 10;
                                 fquot 5 10; fquot 5 10; fquot 5 10])
                 polynomial_hash "PAT_0000" "MRI" (fresh_process nat) _ eq_refl).
  vm_compute in Hc. destruct Hc as [Hc _]. discriminate.
Qed.

(** With the draws 0.01 and 0.5 first, the code puts the centre at row
    128 and column 102; read in the order in which section 4.4 lists
    the parameters, the same draws put it at row 102 and column 128. *)
Example anatomy_order_example :
  let us : list float :=
    [fquot 1 100; fquot 5 10; fquot 5 10; fquot 5 10; fquot 5 10; fquot 5 10] in
  option_map (fun x => fst (fst (fst x))) (anatomy_from_draws 256 256 us)
  = Some (128, 102) /\
  option_map (fun x => (ftrunc (fst (fst (fst (fst x)))), ftrunc (snd (fst (fst (fst x))))))
             (anatomy_as_specified 256 256 us)
  = Some (102, 128).
Proof. vm_compute. split; reflexivity. Qed.

(** The ten-patient scenario of the specification on binary64: seven
    "train", one "val", two "test". *)
Example assign_split_ten_patients :
  map (fun i => assign_split (F := float) i 10 SPLIT_RATIOS) (zrange 10)
  = [Ok "train"; Ok "train"; Ok "train"; Ok "train"; Ok "train"; Ok "train";
     Ok "train"; Ok "val"; Ok "test"; Ok "test"].
Proof. vm_compute. reflexivity. Qed.

(** * Further properties

    Properties of the code beyond the statements of the
    specification: the rest of [utils.py], the whole table that
    [generate_all_labels] returns, [dataset_splitter.py], and the
    inputs that the image generators reject. *)

(** ** Identifiers and file names *)

Lemma append_assoc (a b c : string) : (a ++ b) ++ c = a ++ (b ++ c).
Proof. induction a as [| x a IH]; simpl; [reflexivity | rewrite IH; reflexivity]. Qed.

Lemma append_cancel_l (a x y : string) : a ++ x = a ++ y -> x = y.
Proof. induction a as [| c a IH]; simpl; [trivial | intros [= E]; apply IH, E]. Qed.

Lemma append_length (a b : string) :
  String.length (a ++ b) = (String.length a + String.length b)%nat.
Proof. induction a as [| c a IH]; simpl; [reflexivity | rewrite IH; reflexivity]. Qed.

Lemma append_cancel_r (x y e : string) : x ++ e = y ++ e -> x = y.
Proof.
  revert y. induction x as [| c x IH]; intros [| d y] E; simpl in *.
  - reflexivity.
  - apply (f_equal String.length) in E. simpl in E. rewrite append_length in E. lia.
  - apply (f_equal String.length) in E. simpl in E. rewrite append_length in E. lia.
  - injection E as -> E. f_equal. apply IH, E.
Qed.

Lemma string_forall_app (P : ascii -> Prop) (a b : string) :
  string_forall P a -> string_forall P b -> string_forall P (a ++ b).
Proof. induction a as [| c a IH]; simpl; [trivial | intros [Hc Ha] Hb; split; auto]. Qed.

(** Two strings without the separator, each followed by the
    separator, are the same when the whole strings are. *)
Lemma split_at_separator (sep : ascii) (x y r r' : string) :
  string_forall (fun c => c <> sep) x -> string_forall (fun c => c <> sep) y ->
  x ++ String sep r = y ++ String sep r' -> x = y /\ r = r'.
Proof.
  revert y. induction x as [| c x IH]; intros [| d y]; simpl; intros Hx Hy E.
  - injection E as ->. split; reflexivity.
  - injection E as <- _. destruct Hy as [Hd _]. contradiction.
  - injection E as -> _. destruct Hx as [Hc _]. contradiction.
  - injection E as -> E. destruct Hx as [_ Hx], Hy as [_ Hy].
    destruct (IH y Hx Hy E) as [-> ->]. split; reflexivity.
Qed.

Lemma uint_digits (d : Decimal.uint) :
  string_forall (fun c => c <> "_"%char) (NilEmpty.string_of_uint d).
Proof. induction d; simpl; repeat split; try discriminate; assumption. Qed.

Lemma zeros_digits (k : nat) : string_forall (fun c => c <> "_"%char) (zeros k).
Proof. induction k; simpl; repeat split; try discriminate; assumption. Qed.

Lemma N_to_uint_nonnil (n : N) : N.to_uint n <> Decimal.Nil.
Proof.
  destruct n as [| p]; simpl; [discriminate |].
  apply DecimalPos.Unsigned.to_uint_nonnil.
Qed.

Lemma string_of_uint_N (n : N) :
  NilZero.string_of_uint (N.to_uint n) = NilEmpty.string_of_uint (N.to_uint n).
Proof.
  pose proof (N_to_uint_nonnil n). destruct (N.to_uint n); [contradiction | reflexivity ..].
Qed.

Lemma uint_of_zeros (k : nat) (s : string) :
  option_map N.of_uint (NilEmpty.uint_of_string (zeros k ++ s))
  = option_map N.of_uint (NilEmpty.uint_of_string s).
Proof.
  induction k as [| k IH]; simpl; [reflexivity |].
  rewrite <- IH. destruct (NilEmpty.uint_of_string (zeros k ++ s)); reflexivity.
Qed.

(** The padded digits of [format_04d], read back as a number. *)
Lemma padded_digits_value (k : nat) (n : N) :
  option_map N.of_uint
    (NilEmpty.uint_of_string (zeros k ++ NilZero.string_of_uint (N.to_uint n)))
  = Some n.
Proof.
  rewrite uint_of_zeros, string_of_uint_N, NilEmpty.usu. simpl.
  rewrite DecimalN.Unsigned.of_to. reflexivity.
Qed.

Lemma format_04d_inj (a b : Z) : format_04d a = format_04d b -> a = b.
Proof.
  unfold format_04d.
  destruct (Z.ltb_spec a 0) as [Ha | Ha], (Z.ltb_spec b 0) as [Hb | Hb]; intros E.
  - simpl in E. injection E as E.
    apply (f_equal (fun s => option_map N.of_uint (NilEmpty.uint_of_string s))) in E.
    rewrite !padded_digits_value in E. injection E as E. lia.
  - apply (f_equal (fun s => option_map N.of_uint (NilEmpty.uint_of_string s))) in E.
    rewrite padded_digits_value in E. simpl in E.
    destruct (NilEmpty.uint_of_string _) in E; discriminate.
  - apply (f_equal (fun s => option_map N.of_uint (NilEmpty.uint_of_string s))) in E.
    rewrite padded_digits_value in E. simpl in E.
    destruct (NilEmpty.uint_of_string _) in E; discriminate.
  - apply (f_equal (fun s => option_map N.of_uint (NilEmpty.uint_of_string s))) in E.
    rewrite !padded_digits_value in E. injection E as E. lia.
Qed.

Lemma format_04d_no_separator (n : Z) :
  string_forall (fun c => c <> "_"%char) (format_04d n).
Proof.
  unfold format_04d. rewrite string_of_uint_N.
  destruct (n <? 0).
  - simpl. split; [discriminate |].
    apply string_forall_app; [apply zeros_digits | apply uint_digits].
  - apply string_forall_app; [apply zeros_digits | apply uint_digits].
Qed.

Lemma get_patient_id_inj (prefix : string) (i j : Z) :
  get_patient_id i prefix = get_patient_id j prefix -> i = j.
Proof.
  unfold get_patient_id. intros E.
  apply append_cancel_l in E. simpl in E. injection E as E.
  apply format_04d_inj, E.
Qed.

Lemma get_image_filename_inj (prefix ext m m' : string) (i j : Z) :
  get_image_filename (get_patient_id i prefix) m ext
  = get_image_filename (get_patient_id j prefix) m' ext ->
  i = j /\ m = m'.
Proof.
  unfold get_image_filename, get_patient_id. rewrite !append_assoc. intros E.
  apply append_cancel_l in E. simpl in E. injection E as E.
  apply split_at_separator in E; try apply format_04d_no_separator.
  destruct E as [Ef Em]. split.
  - apply format_04d_inj, Ef.
  - apply append_cancel_r in Em. exact Em.
Qed.

(** X4.  [get_patient_id] gives different indices different
    identifiers, for every prefix and every int, negative indices and
    indices of five digits and more included: two identifiers with the
    same prefix are equal exactly when the indices are. *)
Theorem get_patient_id_injective (prefix : string) (i j : Z) :
  get_patient_id i prefix = get_patient_id j prefix <-> i = j.
Proof.
  split; [apply get_patient_id_inj | intros ->; reflexivity].
Qed.

Lemma format_04d_width_checked :
  forallb (fun i => (String.length (format_04d i) =? 4)%nat) (zrange 10000) = true.
Proof. vm_compute. reflexivity. Qed.

(** X5.  For an index from 0 to 9999 the identifier is the prefix, an
    underscore and exactly four characters: the width that the format
    [04d] pads to. *)
Theorem get_patient_id_width (prefix : string) (i : Z) :
  0 <= i < 10000 ->
  String.length (get_patient_id i prefix) = (String.length prefix + 5)%nat.
Proof.
  intros Hi. unfold get_patient_id. rewrite append_length. simpl. f_equal. f_equal.
  pose proof format_04d_width_checked as Hall.
  rewrite forallb_forall in Hall.
  apply Nat.eqb_eq, Hall.
  unfold zrange. apply in_map_iff. exists (Z.to_nat i). split; [lia |].
  apply in_seq. lia.
Qed.

(** X6.  The file name of an image determines the patient and the
    modality: for identifiers made by [get_patient_id] with one prefix
    and one extension, two file names are equal exactly when the
    indices and the modalities are. *)
Theorem get_image_filename_injective (prefix ext m m' : string) (i j : Z) :
  get_image_filename (get_patient_id i prefix) m ext
  = get_image_filename (get_patient_id j prefix) m' ext
  <-> i = j /\ m = m'.
Proof.
  split; [apply get_image_filename_inj | intros [-> ->]; reflexivity].
Qed.

(** ** More on [assign_split] *)

Lemma b64_quot_finite (a n : Z) :
  0 <= a -> 0 < n -> a < n * 2 ^ 1023 -> b64_is_inf (b64_quot a n) = false.
Proof.
  intros Ha Hn Hb. rewrite b64_quot_nonneg by lia. unfold b64_is_inf.
  rewrite Prim2SF_SF2Prim by (apply b64_round_quotient_valid; lia).
  rewrite b64_round_quotient_pack.
  destruct (Z.eq_dec a 0) as [-> | Ha0].
  - rewrite quotient_mantissa_zero by exact Hn. reflexivity.
  - assert (Hmg : quotient_magnitude a n <= 1023).
    { destruct (quotient_magnitude_spec a n ltac:(lia) Hn) as [Hge _].
      destruct (Z_le_gt_dec (quotient_magnitude a n) 1023) as [Hle | Hgt];
        [exact Hle | exfalso].
      apply (ge_pow_mono a n 1023) in Hge; [| lia | lia].
      unfold ge_pow, scale_up in Hge.
      change (Z.max 0 1023) with 1023 in Hge. change (Z.max 0 (- 1023)) with 0 in Hge.
      rewrite Z.pow_0_r in Hge. lia. }
    assert (Hc : quotient_exponent a n <= 970) by (unfold quotient_exponent; lia).
    unfold carry, pack. cbn [fst snd].
    destruct (_ =? 2 ^ 53); cbn [fst snd].
    + change (2 ^ 52) with (Zpos (2 ^ 52)).
      replace (quotient_exponent a n + 1 <=? 971) with true
        by (symmetry; apply Z.leb_le; lia).
      reflexivity.
    + destruct (quotient_mantissa a n); try reflexivity.
      replace (quotient_exponent a n <=? 971) with true
        by (symmetry; apply Z.leb_le; lia).
      reflexivity.
Qed.

Section split_results.
Context {F : Type} `{PyFloat F}.

Lemma assign_split_key (i n : Z) (r : list (string * F)) (s : string) :
  assign_split i n r = Ok s -> In s (map fst r).
Proof.
  unfold assign_split.
  destruct (negb _); [discriminate |].
  destruct (py_truediv (i + 1) n) as [q | e]; simpl; [| discriminate].
  destruct (first_boundary q _) as [s' |] eqn:E.
  - intros [= <-]. apply first_boundary_in in E.
    rewrite split_boundaries_keys in E. exact E.
  - unfold py_last. destruct (rev (map fst r)) as [| x t] eqn:Er; [discriminate |].
    intros [= <-]. apply in_rev. rewrite Er. left; reflexivity.
Qed.

Lemma assign_split_returns (i n : Z) (r : list (string * F)) :
  r <> [] -> valid_ratios r -> n <> 0 -> fis_inf (fquot (i + 1) n) = false ->
  exists s, assign_split i n r = Ok s /\ In s (map fst r).
Proof.
  intros Hne Hv Hn Hf.
  assert (Hs : exists s, assign_split i n r = Ok s).
  { rewrite assign_split_unfold by assumption.
    destruct (first_boundary _ _) as [s |]; [exists s; reflexivity |].
    destruct (py_last_some (map fst r)) as [x [Hx _]].
    { destruct r; [contradiction | discriminate]. }
    exists x. exact Hx. }
  destruct Hs as [s Hs]. exists s. split; [exact Hs | eapply assign_split_key, Hs].
Qed.

(** X1.  For a non-empty mapping that passes the check, a count [n]
    and an index [0 <= i < n], [assign_split] returns, and what it
    returns is a key of the mapping: no exception and no name from
    outside the mapping, also when the loop over the thresholds falls
    through to the fallback. *)
Theorem assign_split_returns_key `{!FloatQuotientLaws F}
        (i n : Z) (r : list (string * F)) :
  r <> [] -> valid_ratios r -> 0 <= i < n ->
  exists s, assign_split i n r = Ok s /\ In s (map fst r).
Proof.
  intros Hne Hv Hi.
  apply assign_split_returns; [exact Hne | exact Hv | lia |].
  apply fquot_unit_finite; lia.
Qed.
End split_results.

Lemma b64_empty_invalid : np_isclose (F := float) (py_sum []) (of_Z 1) = false.
Proof. vm_compute. reflexivity. Qed.

(** X2.  On binary64 [assign_split] never raises [IndexError] (nor
    [KeyError]): the fallback [list(split_ratios.keys())[-1]] is never
    reached with an empty mapping, because an empty mapping sums to
    0.0 and fails the check first. *)
Theorem assign_split_never_index_error (i n : Z) (r : list (string * float)) :
  assign_split i n r <> Raise IndexError /\ assign_split i n r <> Raise KeyError.
Proof.
  unfold assign_split.
  destruct r as [| kv r].
  - change (map snd []) with (@nil float). rewrite b64_empty_invalid.
    split; discriminate.
  - destruct (negb _); [split; discriminate |].
    unfold py_truediv. destruct (n =? 0); [split; discriminate |].
    destruct (fis_inf (F := float) _); [split; discriminate |].
    cbn [bind PyResult_monad].
    destruct (first_boundary (F := float) _ _); [split; discriminate |].
    destruct (py_last_some (map fst (kv :: r))) as [x [Hx _]]; [discriminate |].
    rewrite Hx. split; discriminate.
Qed.

(** The cumulative thresholds of the configured ratios on binary64:
    0.7, then 0.7 + 0.15 which is the float 0.85, then 1.0. *)
Lemma b64_thresholds :
  split_boundaries (F := float) (of_Z 0) SPLIT_RATIOS
  = [("train", fquot 7 10); ("val", fquot 85 100); ("test", of_Z 1)].
Proof. vm_compute. reflexivity. Qed.

Lemma b64_first_boundary_configured (i : Z) :
  0 <= i ->
  first_boundary (F := float) (fquot (i + 1) NUM_PATIENTS)
                 (split_boundaries (of_Z 0) SPLIT_RATIOS)
  = (if i <? 1000 then Some (configured_split i) else None).
Proof.
  intros Hi. rewrite b64_thresholds. unfold NUM_PATIENTS, configured_split.
  assert (Hup : forall k t, i + 1 <= k ->
                  PrimFloat.leb (b64_quot k 1000) t = true ->
                  PrimFloat.leb (b64_quot (i + 1) 1000) t = true).
  { intros k t Hk Ht. eapply b64_leb_trans; [| exact Ht]. apply b64_quot_mono; lia. }
  assert (Hdown : forall k t, k <= i + 1 -> 0 <= k ->
                  PrimFloat.leb (b64_quot k 1000) t = false ->
                  PrimFloat.leb (b64_quot (i + 1) 1000) t = false).
  { intros k t Hk Hk0 Ht.
    destruct (PrimFloat.leb (b64_quot (i + 1) 1000) t) eqn:E; [| reflexivity].
    rewrite <- Ht. symmetry. eapply b64_leb_trans; [| exact E].
    apply b64_quot_mono; lia. }
  cbn [first_boundary fleb fquot b64_float of_Z].
  destruct (Z.ltb_spec i 700) as [H7 | H7].
  - replace (i <? 1000) with true by (symmetry; apply Z.ltb_lt; lia).
    rewrite (Hup 700 _ ltac:(lia)); [reflexivity | vm_compute; reflexivity].
  - rewrite (Hdown 701 _ ltac:(lia) ltac:(lia)) by (vm_compute; reflexivity).
    destruct (Z.ltb_spec i 850) as [H8 | H8].
    + replace (i <? 1000) with true by (symmetry; apply Z.ltb_lt; lia).
      rewrite (Hup 850 _ ltac:(lia)); [reflexivity | vm_compute; reflexivity].
    + rewrite (Hdown 851 _ ltac:(lia) ltac:(lia)) by (vm_compute; reflexivity).
      destruct (Z.ltb_spec i 1000) as [H1 | H1].
      * rewrite (Hup 1000 _ ltac:(lia)); [reflexivity | vm_compute; reflexivity].
      * rewrite (Hdown 1001 _ ltac:(lia) ltac:(lia)) by (vm_compute; reflexivity).
        reflexivity.
Qed.

Lemma configured_split_late (i : Z) : 1000 <= i -> configured_split i = "test".
Proof.
  intros Hi. unfold configured_split.
  replace (i <? 700) with false by (symmetry; apply Z.ltb_ge; lia).
  replace (i <? 850) with false by (symmetry; apply Z.ltb_ge; lia).
  reflexivity.
Qed.

Lemma b64_assign_split_configured (i : Z) :
  0 <= i < 2 ^ 1023 ->
  assign_split (F := float) i NUM_PATIENTS SPLIT_RATIOS = Ok (configured_split i).
Proof.
  intros Hi.
  rewrite assign_split_unfold;
    [| apply b64_config_valid | discriminate
     | apply b64_quot_finite; unfold NUM_PATIENTS; lia].
  rewrite b64_first_boundary_configured by lia.
  destruct (Z.ltb_spec i 1000) as [H1 | H1]; [reflexivity |].
  rewrite configured_split_late by exact H1. reflexivity.
Qed.

(** Whenever the call returns, also for an index too large for the
    bound above. *)
Lemma b64_assign_split_configured_inv (i : Z) (s : string) :
  0 <= i -> assign_split (F := float) i NUM_PATIENTS SPLIT_RATIOS = Ok s ->
  s = configured_split i.
Proof.
  intros Hi. unfold assign_split.
  replace (negb _) with false by (symmetry; vm_compute; reflexivity).
  unfold py_truediv. change (NUM_PATIENTS =? 0) with false. cbv iota.
  destruct (fis_inf (F := float) _); cbn [bind PyResult_monad]; [discriminate |].
  rewrite b64_first_boundary_configured by lia.
  destruct (Z.ltb_spec i 1000) as [H1 | H1]; [congruence |].
  rewrite configured_split_late by exact H1.
  intros E. vm_compute in E. congruence.
Qed.

(** X3.  On binary64, with the configured ratios 0.7, 0.15, 0.15 and
    the configured count 1000, [assign_split] returns "train" for the
    indices 0..699, "val" for 700..849 and "test" for every index from
    850 on, the indices from 1000 on included, which fall through to
    the fallback.  (The bound keeps the quotient within the range of
    a float.) *)
Theorem assign_split_configured_blocks (i : Z) :
  0 <= i < 2 ^ 1023 ->
  assign_split (F := float) i NUM_PATIENTS SPLIT_RATIOS
  = Ok (if i <? 700 then "train" else if i <? 850 then "val" else "test").
Proof. apply b64_assign_split_configured. Qed.

(** ** [set_global_seed] *)

Section seed_properties.
Context {F G : Type} `{PyFloat F} `{NumpyRandom F G}.

Lemma RandomState_valid (seed : Z) :
  0 <= seed < 2 ^ 32 -> RandomState seed = Ok (rs_seeded seed).
Proof.
  intros Hs. unfold RandomState.
  replace ((0 <=? seed) && (seed <? 2 ^ 32)) with true; [reflexivity |].
  symmetry. apply andb_true_iff. split; [apply Z.leb_le | apply Z.ltb_lt]; lia.
Qed.

Lemma RandomState_invalid (seed : Z) :
  ~ 0 <= seed < 2 ^ 32 -> RandomState seed = Raise ValueError.
Proof.
  intros Hs. unfold RandomState.
  destruct (Z.leb_spec 0 seed), (Z.ltb_spec seed (2 ^ 32)); simpl; try reflexivity.
  exfalso. apply Hs. lia.
Qed.

Lemma dict_get_environ_set_same (k v : string) (env : list (string * string)) :
  dict_get (environ_set k v env) k = Ok v.
Proof.
  induction env as [| [k' v'] env IH]; simpl.
  - rewrite String.eqb_refl. reflexivity.
  - destruct (String.eqb_spec k k') as [E | Hne]; simpl.
    + rewrite String.eqb_refl. reflexivity.
    + destruct (String.eqb_spec k k') as [E | _]; [contradiction | exact IH].
Qed.

Lemma dict_get_environ_set_other (k v k0 : string) (env : list (string * string)) :
  k0 <> k -> dict_get (environ_set k v env) k0 = dict_get env k0.
Proof.
  intros Hne. induction env as [| [k' v'] env IH]; simpl.
  - destruct (String.eqb_spec k0 k) as [E | _]; [contradiction | reflexivity].
  - destruct (String.eqb_spec k k') as [<- | Hk]; simpl.
    + destruct (String.eqb_spec k0 k) as [E | _]; [contradiction | reflexivity].
    + destruct (String.eqb k0 k'); [reflexivity | exact IH].
Qed.

Lemma environ_set_twice (k v1 v2 : string) (env : list (string * string)) :
  environ_set k v2 (environ_set k v1 env) = environ_set k v2 env.
Proof.
  induction env as [| [k' v'] env IH]; simpl.
  - rewrite String.eqb_refl. reflexivity.
  - destruct (String.eqb_spec k k') as [E | Hne]; simpl.
    + rewrite String.eqb_refl. reflexivity.
    + destruct (String.eqb_spec k k') as [E | _]; [contradiction |].
      rewrite IH. reflexivity.
Qed.

(** X7.  For a seed that fits 32 bits [set_global_seed] returns, and
    afterwards the [random] module and NumPy's global generator are
    seeded with it, the environment maps PYTHONHASHSEED to the
    decimal string of the seed, and every other variable of the
    environment reads as before. *)
Theorem set_global_seed_sets_all (seed : Z) (p : Process G) :
  0 <= seed < 2 ^ 32 ->
  exists p',
    set_global_seed seed p = (Ok tt, p') /\
    py_random_seed p' = Some seed /\
    np_global p' = Some (rs_seeded seed) /\
    dict_get (environ p') "PYTHONHASHSEED" = Ok (py_str_int seed) /\
    forall k, k <> "PYTHONHASHSEED" -> dict_get (environ p') k = dict_get (environ p) k.
Proof.
  intros Hs. unfold set_global_seed. rewrite (RandomState_valid seed Hs).
  eexists. split; [reflexivity |]. cbn [py_random_seed np_global environ].
  split; [reflexivity |]. split; [reflexivity |]. split.
  - apply dict_get_environ_set_same.
  - intros k Hk. apply dict_get_environ_set_other, Hk.
Qed.

(** X8.  For a seed that does not fit 32 bits (a negative one, or
    2**32 and more) [set_global_seed] raises [ValueError] half way:
    the [random] module has been seeded already, while NumPy's global
    generator and the environment are left as they were. *)
Theorem set_global_seed_rejects (seed : Z) (p : Process G) :
  ~ 0 <= seed < 2 ^ 32 ->
  exists p',
    set_global_seed seed p = (Raise ValueError, p') /\
    py_random_seed p' = Some seed /\
    np_global p' = np_global p /\
    environ p' = environ p.
Proof.
  intros Hs. unfold set_global_seed. rewrite (RandomState_invalid seed Hs).
  eexists. split; [reflexivity |]. repeat split.
Qed.

(** X9.  A call of [set_global_seed] with a seed that fits 32 bits
    overrides whatever an earlier call did, whether that call returned
    or raised: the result and the state of the interpreter are those
    of the later call alone. *)
Theorem set_global_seed_overrides (s1 s2 : Z) (p : Process G) :
  0 <= s2 < 2 ^ 32 ->
  set_global_seed s2 (snd (set_global_seed s1 p)) = set_global_seed s2 p.
Proof.
  intros Hs. unfold set_global_seed. rewrite (RandomState_valid s2 Hs).
  destruct (RandomState s1) as [g1 | e1];
    cbn [snd py_random_seed np_global environ]; [| reflexivity].
  rewrite environ_set_twice. reflexivity.
Qed.
End seed_properties.

(** ** Lists read by index *)

Section by_index.
Context {A B : Type}.

Lemma map_by_index (f : A -> B) (g : Z -> B) (l : list A) :
  forall k : nat,
    (forall j r, nth_error l j = Some r -> f r = g (Z.of_nat (k + j))) ->
    map f l = map g (map Z.of_nat (seq k (List.length l))).
Proof.
  induction l as [| a l IH]; intros k Hall; simpl; [reflexivity |].
  f_equal.
  - rewrite (Hall O a eq_refl). f_equal. lia.
  - apply IH. intros j r Hj. rewrite (Hall (S j) r Hj). f_equal. lia.
Qed.

Lemma filter_by_index (f : A -> B) (c : A -> bool) (g : Z -> B) (d : Z -> bool)
      (l : list A) :
  forall k : nat,
    (forall j r, nth_error l j = Some r ->
                 f r = g (Z.of_nat (k + j)) /\ c r = d (Z.of_nat (k + j))) ->
    map f (filter c l) = map g (filter d (map Z.of_nat (seq k (List.length l)))).
Proof.
  induction l as [| a l IH]; intros k Hall; simpl; [reflexivity |].
  destruct (Hall O a eq_refl) as [Hf Hc]. rewrite Nat.add_0_r in Hf, Hc.
  rewrite Hc.
  assert (Hrest : map f (filter c l)
                  = map g (filter d (map Z.of_nat (seq (S k) (List.length l))))).
  { apply IH. intros j r Hj. destruct (Hall (S j) r Hj) as [Hf' Hc'].
    replace (S k + j)%nat with (k + S j)%nat by lia. split; assumption. }
  destruct (d (Z.of_nat k)); simpl; rewrite Hrest; [rewrite Hf |]; reflexivity.
Qed.

Lemma filter_none (c : A -> bool) (l : list A) :
  (forall x, In x l -> c x = false) -> filter c l = [].
Proof.
  induction l as [| a l IH]; intros Hall; simpl; [reflexivity |].
  rewrite (Hall a (or_introl eq_refl)). apply IH. intros x Hx. apply Hall. right; exact Hx.
Qed.

Lemma flat_map_of_map {C : Type} (f : A -> B) (g : B -> list C) (l : list A) :
  flat_map (fun a => g (f a)) l = flat_map g (map f l).
Proof. induction l as [| a l IH]; simpl; [reflexivity | rewrite IH; reflexivity]. Qed.
End by_index.

Lemma zrange_NoDup (n : Z) : NoDup (zrange n).
Proof.
  unfold zrange. apply Injective_map_NoDup; [| apply seq_NoDup].
  intros a b E. lia.
Qed.

Lemma zrange_in (n i : Z) : In i (zrange n) <-> 0 <= i < n.
Proof.
  unfold zrange. rewrite in_map_iff. split.
  - intros [k [<- Hk]]. apply in_seq in Hk. lia.
  - intros Hi. exists (Z.to_nat i). split; [lia |]. apply in_seq. lia.
Qed.

(** The number of indices below [n] in the interval from [a] to [b]. *)
Lemma count_interval (a b : Z) (n : nat) :
  0 <= a ->
  List.length (filter (fun i => (a <=? i) && (i <? b)) (map Z.of_nat (seq 0 n)))
  = Z.to_nat (Z.min (Z.of_nat n) b - a).
Proof.
  intros Ha. induction n as [| n IH].
  - simpl. lia.
  - rewrite seq_S, map_app, filter_app, length_app, IH. simpl.
    destruct (Z.leb_spec a (Z.of_nat n)), (Z.ltb_spec (Z.of_nat n) b); simpl; lia.
Qed.

Lemma count_configured (a b : Z) (s : string) (N : Z) :
  0 <= a ->
  (forall i, 0 <= i < N -> String.eqb (configured_split i) s = (a <=? i) && (i <? b)) ->
  List.length (filter (fun i => String.eqb (configured_split i) s) (zrange N))
  = Z.to_nat (Z.min N b - a).
Proof.
  intros Ha Hs.
  rewrite (filter_ext_in _ (fun i => (a <=? i) && (i <? b))).
  - unfold zrange. rewrite count_interval by exact Ha. lia.
  - intros i Hi. apply Hs. apply zrange_in in Hi. lia.
Qed.

(** ** The whole label table *)

Section table_properties.
Context {F G : Type} `{PyFloat F} `{NumpyRandom F G}.

(** Every record of the loop is the record that
    [generate_patient_labels] returns for its index from some
    generator. *)
Lemma label_loop_records (n : nat) :
  forall (idx : Z) (records out : list PatientRecord) (rng rng' : G),
    label_loop n idx records rng = Ok (out, rng') ->
    exists new,
      out = (records ++ new)%list /\ List.length new = n /\
      forall j r, nth_error new j = Some r ->
        exists g g', generate_patient_labels (idx + Z.of_nat j) g = Ok (r, g').
Proof.
  induction n as [| n IH]; intros idx records out rng rng'.
  - simpl. intros [= <- _]. exists []. rewrite app_nil_r.
    repeat split. intros [| j] r; discriminate.
  - cbn [label_loop]. unfold rng_randint, rand_lift; simpl.
    destruct (rs_randint 0 2147483647 rng) as [ps s1].
    destruct (RandomState ps) as [prng | e]; [| discriminate].
    destruct (generate_patient_labels idx prng) as [[rcd prng'] | e] eqn:Hg;
      [| discriminate].
    intros Hl. apply IH in Hl. destruct Hl as [new [-> [Hlen Hall]]].
    exists (rcd :: new). rewrite <- app_assoc. simpl.
    split; [reflexivity |]. split; [lia |].
    intros [| j] r; simpl.
    + intros [= <-]. rewrite Z.add_0_r. exists prng, prng'. exact Hg.
    + intros Hj. destruct (Hall j r Hj) as [g [g' Hr]].
      replace (idx + Z.pos (Pos.of_succ_nat j)) with (idx + 1 + Z.of_nat j) by lia.
      exists g, g'. exact Hr.
Qed.

Lemma generate_all_labels_records (N seed : Z) (p p' : Process G) (table : DataFrame) :
  generate_all_labels N seed p = (Ok table, p') ->
  p' = p /\
  0 <= seed < 2 ^ 32 /\
  table = pd_DataFrame (rows table) /\
  List.length (rows table) = Z.to_nat N /\
  forall j r, nth_error (rows table) j = Some r ->
    exists g g', generate_patient_labels (Z.of_nat j) g = Ok (r, g').
Proof.
  unfold generate_all_labels, py_lift. intros [= Hr Hp]. simpl in Hr.
  split; [symmetry; exact Hp |].
  destruct (RandomState seed) as [rng | e] eqn:Es; [| discriminate].
  split.
  { unfold RandomState in Es.
    destruct (Z.leb_spec 0 seed), (Z.ltb_spec seed (2 ^ 32)); simpl in Es;
      try discriminate. lia. }
  destruct (label_loop (Z.to_nat N) 0 [] rng) as [[records rng'] | e] eqn:Hl;
    [| discriminate].
  injection Hr as <-. simpl.
  destruct (label_loop_records _ _ _ _ _ _ Hl) as [new [-> [Hlen Hall]]]. simpl.
  split; [reflexivity |]. split; [exact Hlen |]. intros j r Hj. apply (Hall j r Hj).
Qed.

Lemma label_loop_app (n m : nat) :
  forall (idx : Z) (records : list PatientRecord) (rng : G),
    label_loop (n + m) idx records rng
    = match label_loop n idx records rng with
      | Ok (out, rng') => label_loop m (idx + Z.of_nat n) out rng'
      | Raise e => Raise e
      end.
Proof.
  induction n as [| n IH]; intros idx records rng.
  - simpl. rewrite Z.add_0_r. reflexivity.
  - cbn [label_loop Nat.add]. unfold rng_randint, rand_lift; simpl.
    destruct (rs_randint 0 2147483647 rng) as [ps s1].
    destruct (RandomState ps) as [prng | e]; [| reflexivity].
    destruct (generate_patient_labels idx prng) as [[rcd prng'] | e]; [| reflexivity].
    rewrite IH. replace (idx + 1 + Z.of_nat n) with (idx + Z.pos (Pos.of_succ_nat n)) by lia.
    reflexivity.
Qed.

Lemma generate_patient_labels_choices `{!NumpyChoiceLaws F G}
      (idx : Z) (rng rng' : G) (r : PatientRecord) :
  generate_patient_labels idx rng = Ok (r, rng') ->
  In (fibrosis_stage r) FIBROSIS_STAGES /\ In (sex r) SEX_OPTIONS.
Proof.
  unfold generate_patient_labels, rng_choice, rng_normal, rand_lift; simpl.
  pose proof (rs_choice_in FIBROSIS_STAGES FIBROSIS_PROBS rng ltac:(discriminate)) as Hst.
  destruct (rs_choice FIBROSIS_STAGES FIBROSIS_PROBS rng) as [stage s1].
  destruct (assign_split idx NUM_PATIENTS SPLIT_RATIOS) as [sp | e]; [| discriminate].
  destruct (rs_normal AGE_MEAN AGE_STD s1) as [x s2].
  pose proof (rs_choice_in SEX_OPTIONS SEX_PROBS s2 ltac:(discriminate)) as Hsx.
  destruct (rs_choice SEX_OPTIONS SEX_PROBS s2) as [sx s3].
  intros [= <- _]. split; assumption.
Qed.

Lemma generate_all_labels_ids (N seed : Z) (p p' : Process G) (table : DataFrame) :
  generate_all_labels N seed p = (Ok table, p') ->
  map patient_id (rows table) = map (fun i => get_patient_id i "PAT") (zrange N).
Proof.
  intros Hg. destruct (generate_all_labels_records _ _ _ _ _ Hg) as [_ [_ [_ [Hlen Hall]]]].
  unfold zrange. rewrite <- Hlen. apply map_by_index.
  intros j r Hj. destruct (Hall j r Hj) as [g [g' Hr]].
  apply generate_patient_labels_inv in Hr. simpl. apply Hr.
Qed.

Lemma generate_all_labels_columns (N seed : Z) (p p' : Process G) (table : DataFrame) :
  generate_all_labels N seed p = (Ok table, p') ->
  columns table
  = if 0 <? N
    then ["patient_id"; "fibrosis_stage"; "binary_label"; "split"; "age"; "sex"]
    else [].
Proof.
  intros Hg. destruct (generate_all_labels_records _ _ _ _ _ Hg) as [_ [_ [Ht [Hlen _]]]].
  rewrite Ht. unfold pd_DataFrame. cbn [columns].
  destruct (rows table) as [| r l]; simpl in Hlen.
  - destruct (Z.ltb_spec 0 N); [lia | reflexivity].
  - destruct (Z.ltb_spec 0 N); [reflexivity | lia].
Qed.

Lemma get_patient_id_NoDup (prefix : string) (N : Z) :
  NoDup (map (fun i => get_patient_id i prefix) (zrange N)).
Proof.
  apply Injective_map_NoDup; [| apply zrange_NoDup].
  intros a b E. eapply get_patient_id_inj, E.
Qed.

Lemma filenames_NoDup (prefix extension : string) (modalities : list string) (l : list Z) :
  NoDup l -> NoDup modalities ->
  NoDup (flat_map (fun i => map (fun m => get_image_filename (get_patient_id i prefix)
                                                             m extension) modalities) l).
Proof.
  intros Hl Hm. induction Hl as [| i l Hi Hl IH]; simpl; [constructor |].
  apply NoDup_app.
  - apply Injective_map_NoDup; [| exact Hm].
    intros a b E. apply get_image_filename_inj in E. apply E.
  - exact IH.
  - intros a Ha Hin. apply in_map_iff in Ha. destruct Ha as [m [<- _]].
    apply in_flat_map in Hin. destruct Hin as [j [Hj Hin]].
    apply in_map_iff in Hin. destruct Hin as [m' [E _]].
    apply get_image_filename_inj in E. destruct E as [-> _]. contradiction.
Qed.

(** X11.  Every row of a table that [generate_all_labels] returns has
    a stage of F0..F4, the label "negative" or "positive", a split of
    "train", "val" or "test", an age from 30 to 85 and the sex "M" or
    "F"; a table for a positive count has the six columns in the order
    patient_id, fibrosis_stage, binary_label, split, age, sex. *)
Theorem generate_all_labels_schema `{!NumpyChoiceLaws F G}
        (N seed : Z) (p p' : Process G) (table : DataFrame) :
  generate_all_labels N seed p = (Ok table, p') ->
  (0 < N ->
   columns table
   = ["patient_id"; "fibrosis_stage"; "binary_label"; "split"; "age"; "sex"]) /\
  Forall (fun r =>
            In (fibrosis_stage r) FIBROSIS_STAGES /\
            In (binary_label r) ["negative"; "positive"] /\
            In (split r) ["train"; "val"; "test"] /\
            AGE_MIN <= age r <= AGE_MAX /\
            In (sex r) SEX_OPTIONS) (rows table).
Proof.
  intros Hg. split.
  - intros HN. rewrite (generate_all_labels_columns _ _ _ _ _ Hg).
    destruct (Z.ltb_spec 0 N); [reflexivity | lia].
  - destruct (generate_all_labels_records _ _ _ _ _ Hg) as [_ [_ [_ [_ Hall]]]].
    apply Forall_forall. intros r Hr.
    apply In_nth_error in Hr. destruct Hr as [j Hj].
    destruct (Hall j r Hj) as [g [g' Hr]].
    destruct (generate_patient_labels_choices _ _ _ _ Hr) as [Hst Hsx].
    destruct (generate_patient_labels_inv _ _ _ _ Hr) as [_ [Hb [Hs Ha]]].
    split; [exact Hst |]. split.
    { rewrite Hb. destruct (binary_label_of_cases (fibrosis_stage r)) as [-> | ->];
        simpl; tauto. }
    split; [apply (assign_split_key _ _ _ _ Hs) |]. split; assumption.
Qed.

(** X12.  The identifiers of a table of [generate_all_labels] are
    PAT_0000, PAT_0001, ... in the order of the rows, one per index
    below the count, and no two rows share an identifier. *)
Theorem generate_all_labels_patient_ids
        (N seed : Z) (p p' : Process G) (table : DataFrame) :
  generate_all_labels N seed p = (Ok table, p') ->
  map patient_id (rows table) = map (fun i => get_patient_id i "PAT") (zrange N) /\
  NoDup (map patient_id (rows table)).
Proof.
  intros Hg. pose proof (generate_all_labels_ids _ _ _ _ _ Hg) as E.
  split; [exact E |]. rewrite E. apply get_patient_id_NoDup.
Qed.

(** X13.  The table for a smaller count is a prefix of the table for
    a larger count with the same seed: when [generate_all_labels]
    returns for [N] it returns for every [M <= N], with the first [M]
    rows of the larger table. *)
Theorem generate_all_labels_prefix
        (M N seed : Z) (p p' : Process G) (table : DataFrame) :
  M <= N ->
  generate_all_labels N seed p = (Ok table, p') ->
  exists shorter,
    generate_all_labels M seed p = (Ok shorter, p) /\
    rows shorter = firstn (Z.to_nat M) (rows table).
Proof.
  intros HMN. unfold generate_all_labels, py_lift. intros [= Hr _]. simpl in Hr.
  cbn [bind PyResult_monad].
  destruct (RandomState seed) as [rng | e]; [| discriminate].
  replace (Z.to_nat N) with (Z.to_nat M + (Z.to_nat N - Z.to_nat M))%nat in Hr by lia.
  rewrite label_loop_app in Hr.
  destruct (label_loop (Z.to_nat M) 0 [] rng) as [[out g] | e] eqn:EM; [| discriminate].
  destruct (label_loop _ _ out g) as [[outN g'] | e] eqn:EN; [| discriminate].
  injection Hr as <-.
  exists (pd_DataFrame out). split; [reflexivity |]. simpl.
  destruct (label_loop_records _ _ _ _ _ _ EM) as [new [-> [Hlen _]]].
  destruct (label_loop_records _ _ _ _ _ _ EN) as [more [-> _]].
  simpl. rewrite <- Hlen. rewrite firstn_app, firstn_all, Nat.sub_diag. simpl.
  rewrite app_nil_r. reflexivity.
Qed.

(** X14.  The identifiers and the splits of a table do not depend on
    the seed: two tables of [generate_all_labels] for the same count,
    from any two seeds and any two states of the interpreter, have the
    same columns, the same identifiers and the same splits row by
    row. *)
Theorem generate_all_labels_seed_independent
        (N seed1 seed2 : Z) (p1 p1' p2 p2' : Process G) (table1 table2 : DataFrame) :
  generate_all_labels N seed1 p1 = (Ok table1, p1') ->
  generate_all_labels N seed2 p2 = (Ok table2, p2') ->
  columns table1 = columns table2 /\
  map patient_id (rows table1) = map patient_id (rows table2) /\
  map split (rows table1) = map split (rows table2).
Proof.
  intros H1 H2. split; [| split].
  - rewrite (generate_all_labels_columns _ _ _ _ _ H1),
      (generate_all_labels_columns _ _ _ _ _ H2). reflexivity.
  - rewrite (generate_all_labels_ids _ _ _ _ _ H1), (generate_all_labels_ids _ _ _ _ _ H2).
    reflexivity.
  - set (g := fun i => match assign_split i NUM_PATIENTS SPLIT_RATIOS with
                       | Ok s => s
                       | Raise _ => ""
                       end).
    assert (Hsplit : forall seed p p' table,
               generate_all_labels N seed p = (Ok table, p') ->
               map split (rows table) = map g (zrange N)).
    { intros seed p p' table Hg.
      destruct (generate_all_labels_records _ _ _ _ _ Hg) as [_ [_ [_ [Hlen Hall]]]].
      unfold zrange. rewrite <- Hlen. apply map_by_index.
      intros j r Hj. destruct (Hall j r Hj) as [s [s' Hr]].
      destruct (generate_patient_labels_inv _ _ _ _ Hr) as [_ [_ [Hs _]]].
      unfold g. simpl. rewrite Hs. reflexivity. }
    rewrite (Hsplit _ _ _ _ H1), (Hsplit _ _ _ _ H2). reflexivity.
Qed.

(** X22.  No two images of a generated dataset share a file name: over
    the rows of a table of [generate_all_labels] and a list of distinct
    modalities, the names [get_image_filename(patient_id, modality,
    extension)] are pairwise different, so that no image file is
    written twice. *)
Theorem generated_image_filenames_distinct
        (N seed : Z) (p p' : Process G) (table : DataFrame) (modalities : list string)
        (extension : string) :
  generate_all_labels N seed p = (Ok table, p') ->
  NoDup modalities ->
  NoDup (flat_map (fun r => map (fun m => get_image_filename (patient_id r) m extension)
                                modalities)
                  (rows table)).
Proof.
  intros Hg Hm.
  rewrite (flat_map_of_map patient_id
             (fun pid => map (fun m => get_image_filename pid m extension) modalities)).
  rewrite (generate_all_labels_ids _ _ _ _ _ Hg).
  rewrite <- flat_map_of_map. apply filenames_NoDup; [apply zrange_NoDup | exact Hm].
Qed.
End table_properties.

(** ** The split tables *)

Lemma mask_filter (records : list PatientRecord) (s : string) :
  map fst (filter snd (combine records
                               (map (fun v => String.eqb v s) (map split records))))
  = filter (fun r => String.eqb (split r) s) records.
Proof.
  induction records as [| r records IH]; simpl; [reflexivity |].
  destruct (String.eqb (split r) s); simpl; rewrite IH; reflexivity.
Qed.

Lemma py_in_true (x : string) (l : list string) : In x l -> py_in x l = true.
Proof.
  intros Hx. apply existsb_exists. exists x. split; [exact Hx | apply String.eqb_refl].
Qed.

Lemma py_in_false (x : string) (l : list string) : ~ In x l -> py_in x l = false.
Proof.
  intros Hx. apply not_true_is_false. intros E. apply existsb_exists in E.
  destruct E as [y [Hy E]]. apply String.eqb_eq in E. subst y. contradiction.
Qed.

Lemma get_split_dataframe_rows (df : DataFrame) (s : string) :
  In "split" (columns df) ->
  get_split_dataframe df s
  = Ok {| columns := columns df;
          rows := filter (fun r => String.eqb (split r) s) (rows df) |}.
Proof.
  intros Hc. unfold get_split_dataframe, df_getitem.
  rewrite (py_in_true _ _ Hc).
  cbn [bind PyResult_monad ret]. unfold df_mask. rewrite mask_filter. reflexivity.
Qed.

Lemma three_way_partition (l : list PatientRecord) :
  Forall (fun r => In (split r) ["train"; "val"; "test"]) l ->
  Permutation (filter (fun r => String.eqb (split r) "train") l ++
               filter (fun r => String.eqb (split r) "val") l ++
               filter (fun r => String.eqb (split r) "test") l) l.
Proof.
  induction 1 as [| r l Hr Hl IH]; simpl; [constructor |].
  destruct Hr as [E | [E | [E | []]]]; rewrite <- E; simpl.
  - constructor. exact IH.
  - rewrite <- Permutation_middle. constructor. exact IH.
  - rewrite app_assoc, <- Permutation_middle, <- app_assoc. constructor. exact IH.
Qed.

(** X19.  For a table with a split column whose splits are all
    "train", "val" or "test", the three tables that
    [get_split_dataframe] returns for these names hold every row of
    the table exactly once between them: together they are a
    permutation of its rows. *)
Theorem get_split_dataframe_partition (df : DataFrame) :
  In "split" (columns df) ->
  Forall (fun r => In (split r) ["train"; "val"; "test"]) (rows df) ->
  exists train val test,
    get_split_dataframe df "train" = Ok train /\
    get_split_dataframe df "val" = Ok val /\
    get_split_dataframe df "test" = Ok test /\
    Permutation (rows train ++ rows val ++ rows test) (rows df).
Proof.
  intros Hc Hall. rewrite !get_split_dataframe_rows by exact Hc.
  eexists; eexists; eexists. repeat (split; [reflexivity |]).
  cbn [rows]. apply three_way_partition, Hall.
Qed.

Section splitter_properties.
Context {F : Type} `{PyFloat F}.

Lemma split_name_known (s : string) :
  In s ["train"; "val"; "test"] -> py_in s (map fst (SPLIT_RATIOS (F := F))) = true.
Proof. intros Hs. apply py_in_true. exact Hs. Qed.

Lemma get_split_indices_rows (df : DataFrame) (s : string) :
  In s ["train"; "val"; "test"] ->
  In "split" (columns df) -> In "patient_id" (columns df) ->
  get_split_indices df s
  = Ok (map patient_id (filter (fun r => String.eqb (split r) s) (rows df))).
Proof.
  intros Hs Hc Hp. unfold get_split_indices.
  rewrite (split_name_known s Hs). cbn [negb].
  unfold df_getitem. rewrite (py_in_true _ _ Hc).
  cbn [bind PyResult_monad ret]. unfold df_mask. cbn [columns rows].
  rewrite (py_in_true _ _ Hp), mask_filter. reflexivity.
Qed.

(** X21.  [get_split_indices] raises [ValueError] for every name that
    is not a key of [SPLIT_RATIOS], whatever the table, while
    [get_split_dataframe] makes no such check: for the same name and a
    table whose splits are all keys of [SPLIT_RATIOS] it returns a
    table with the same columns and no rows. *)
Theorem get_split_unknown_name (df : DataFrame) (s : string) :
  ~ In s ["train"; "val"; "test"] ->
  get_split_indices df s = Raise ValueError /\
  (In "split" (columns df) ->
   Forall (fun r => In (split r) ["train"; "val"; "test"]) (rows df) ->
   get_split_dataframe df s = Ok {| columns := columns df; rows := [] |}).
Proof.
  intros Hs. split.
  - unfold get_split_indices.
    rewrite (py_in_false s (map fst SPLIT_RATIOS)); [reflexivity | exact Hs].
  - intros Hc Hall. rewrite get_split_dataframe_rows by exact Hc.
    rewrite filter_none; [reflexivity |].
    intros r Hr. rewrite Forall_forall in Hall.
    apply String.eqb_neq. intros E. apply Hs. rewrite <- E. apply Hall, Hr.
Qed.
End splitter_properties.

Section empty_table.
Context {F G : Type} `{PyFloat F} `{NumpyRandom F G}.

(** X16.  For a count of zero or less and a seed that fits 32 bits,
    [generate_all_labels] returns the table with no rows and no
    columns, and the split functions fail on that table:
    [get_split_dataframe] raises [KeyError] for every name, and
    [get_split_indices] for every key of [SPLIT_RATIOS]. *)
Theorem generate_all_labels_empty (N seed : Z) (p : Process G) (s : string) :
  N <= 0 -> 0 <= seed < 2 ^ 32 ->
  generate_all_labels N seed p = (Ok {| columns := []; rows := [] |}, p) /\
  get_split_dataframe {| columns := []; rows := [] |} s = Raise KeyError /\
  (In s ["train"; "val"; "test"] ->
   get_split_indices (F := F) {| columns := []; rows := [] |} s = Raise KeyError).
Proof.
  intros HN Hs. split; [| split].
  - unfold generate_all_labels, py_lift. rewrite (RandomState_valid seed Hs).
    replace (Z.to_nat N) with O by lia. reflexivity.
  - reflexivity.
  - intros Hin. unfold get_split_indices.
    rewrite (split_name_known s Hin). reflexivity.
Qed.
End empty_table.

(** ** The configured table on binary64 *)

Section b64_table.
Context {G : Type} `{NumpyRandom float G}.

Lemma b64_rows_split (N seed : Z) (p p' : Process G) (table : DataFrame) :
  generate_all_labels N seed p = (Ok table, p') ->
  forall j r, nth_error (rows table) j = Some r ->
    patient_id r = get_patient_id (Z.of_nat j) "PAT" /\
    split r = configured_split (Z.of_nat j).
Proof.
  intros Hg j r Hj.
  destruct (generate_all_labels_records _ _ _ _ _ Hg) as [_ [_ [_ [_ Hall]]]].
  destruct (Hall j r Hj) as [g [g' Hr]].
  destruct (generate_patient_labels_inv _ _ _ _ Hr) as [Hid [_ [Hs _]]].
  split; [exact Hid |].
  apply b64_assign_split_configured_inv; [lia | exact Hs].
Qed.

(** X15.  On binary64 the splits of every table of
    [generate_all_labels] are fixed by the row numbers alone, whatever
    the count, the seed and the generator: rows 0..699 are "train",
    rows 700..849 are "val" and every later row is "test". *)
Theorem generate_all_labels_splits (N seed : Z) (p p' : Process G) (table : DataFrame) :
  generate_all_labels N seed p = (Ok table, p') ->
  map split (rows table)
  = map (fun i => if i <? 700 then "train" else if i <? 850 then "val" else "test")
        (zrange N).
Proof.
  intros Hg.
  destruct (generate_all_labels_records _ _ _ _ _ Hg) as [_ [_ [_ [Hlen _]]]].
  unfold zrange. rewrite <- Hlen. apply map_by_index.
  intros j r Hj. apply (b64_rows_split _ _ _ _ _ Hg j r Hj).
Qed.

Lemma b64_split_ids (N seed : Z) (p p' : Process G) (table : DataFrame) (s : string) :
  generate_all_labels N seed p = (Ok table, p') ->
  map patient_id (filter (fun r => String.eqb (split r) s) (rows table))
  = map (fun i => get_patient_id i "PAT")
        (filter (fun i => String.eqb (configured_split i) s) (zrange N)).
Proof.
  intros Hg.
  destruct (generate_all_labels_records _ _ _ _ _ Hg) as [_ [_ [_ [Hlen _]]]].
  unfold zrange. rewrite <- Hlen. apply filter_by_index.
  intros j r Hj. destruct (b64_rows_split _ _ _ _ _ Hg j r Hj) as [Hid Hs].
  simpl. rewrite Hs. split; [exact Hid | reflexivity].
Qed.

Lemma b64_get_split_indices
      (N seed : Z) (p p' : Process G) (table : DataFrame) (s : string) :
  generate_all_labels N seed p = (Ok table, p') ->
  0 < N -> In s ["train"; "val"; "test"] ->
  get_split_indices (F := float) table s
  = Ok (map (fun i => get_patient_id i "PAT")
            (filter (fun i => String.eqb (configured_split i) s) (zrange N))).
Proof.
  intros Hg HN Hs.
  pose proof (generate_all_labels_columns _ _ _ _ _ Hg) as Hc.
  replace (0 <? N) with true in Hc by (symmetry; apply Z.ltb_lt; exact HN).
  rewrite get_split_indices_rows; [| exact Hs | rewrite Hc; simpl; tauto ..].
  rewrite (b64_split_ids _ _ _ _ _ s Hg). reflexivity.
Qed.

(** X17.  On binary64, for a table of [generate_all_labels] with a
    positive count [N] and a key of [SPLIT_RATIOS],
    [get_split_indices] returns the identifiers PAT_i of the indices
    [i < N] of that block, in increasing order: they depend on the
    count alone, not on the seed. *)
Theorem get_split_indices_generated
        (N seed : Z) (p p' : Process G) (table : DataFrame) (s : string) :
  generate_all_labels N seed p = (Ok table, p') ->
  0 < N -> In s ["train"; "val"; "test"] ->
  get_split_indices (F := float) table s
  = Ok (map (fun i => get_patient_id i "PAT")
            (filter (fun i => String.eqb (configured_split i) s) (zrange N))).
Proof. apply b64_get_split_indices. Qed.

(** X18.  On binary64, for a table of [generate_all_labels] with a
    positive count [N], the splits hold min(N, 700) patients in
    "train", the patients 700..849 that exist in "val" and the
    patients from 850 on in "test": 700, 150 and 150 for the
    configured count of 1000, and no "val" or "test" patient at all
    for a count up to 700. *)
Theorem get_split_indices_counts
        (N seed : Z) (p p' : Process G) (table : DataFrame) :
  generate_all_labels N seed p = (Ok table, p') ->
  0 < N ->
  exists train val test,
    get_split_indices (F := float) table "train" = Ok train /\
    get_split_indices (F := float) table "val" = Ok val /\
    get_split_indices (F := float) table "test" = Ok test /\
    Z.of_nat (List.length train) = Z.min N 700 /\
    Z.of_nat (List.length val) = Z.max 0 (Z.min N 850 - 700) /\
    Z.of_nat (List.length test) = Z.max 0 (N - 850).
Proof.
  intros Hg HN.
  rewrite !(b64_get_split_indices N seed p p' table _ Hg HN) by (simpl; tauto).
  eexists; eexists; eexists. repeat (split; [reflexivity |]).
  rewrite !length_map.
  rewrite (count_configured 0 700), (count_configured 700 850), (count_configured 850 N);
    try lia;
    intros i Hi; unfold configured_split;
    destruct (Z.ltb_spec i 700), (Z.ltb_spec i 850); try lia;
    destruct (Z.leb_spec 0 i), (Z.leb_spec 700 i), (Z.leb_spec 850 i), (Z.ltb_spec i N);
    try lia; reflexivity.
Qed.

Lemma filter_blocks (l : list PatientRecord) :
  forall k : nat,
    (forall j r, nth_error l j = Some r -> split r = configured_split (Z.of_nat (k + j))) ->
    (filter (fun r => String.eqb (split r) "train") l ++
     filter (fun r => String.eqb (split r) "val") l ++
     filter (fun r => String.eqb (split r) "test") l)%list = l.
Proof.
  induction l as [| a l IH]; intros k Hall; [reflexivity |].
  assert (Hrest : forall j r, nth_error l j = Some r ->
                              split r = configured_split (Z.of_nat (S k + j))).
  { intros j r Hj. rewrite (Hall (S j) r Hj). f_equal. lia. }
  specialize (IH (S k) Hrest).
  assert (Hlater : forall s, (forall i, Z.of_nat k <= i -> configured_split i <> s) ->
                             filter (fun r => String.eqb (split r) s) l = []).
  { intros s Hs. apply filter_none. intros r Hr.
    apply In_nth_error in Hr. destruct Hr as [j Hj].
    rewrite (Hrest j r Hj). apply String.eqb_neq, Hs. lia. }
  pose proof (Hall O a eq_refl) as Ha. rewrite Nat.add_0_r in Ha.
  cbn [filter]. rewrite Ha. unfold configured_split at 1 2 3.
  destruct (Z.ltb_spec (Z.of_nat k) 700) as [H7 | H7].
  - simpl. f_equal. exact IH.
  - assert (Ht : filter (fun r => String.eqb (split r) "train") l = []).
    { apply Hlater. intros i Hi. unfold configured_split.
      replace (i <? 700) with false by (symmetry; apply Z.ltb_ge; lia).
      destruct (i <? 850); discriminate. }
    rewrite Ht in *. destruct (Z.ltb_spec (Z.of_nat k) 850) as [H8 | H8].
    + simpl. f_equal. exact IH.
    + assert (Hv : filter (fun r => String.eqb (split r) "val") l = []).
      { apply Hlater. intros i Hi. unfold configured_split.
        replace (i <? 700) with false by (symmetry; apply Z.ltb_ge; lia).
        replace (i <? 850) with false by (symmetry; apply Z.ltb_ge; lia).
        discriminate. }
      rewrite Hv in *. simpl. f_equal. exact IH.
Qed.

(** X20.  On binary64, for a table of [generate_all_labels] with a
    positive count, the tables that [get_split_dataframe] returns for
    "train", "val" and "test" are consecutive blocks of the table:
    their rows, one table after the other, are the rows of the table
    in its own order. *)
Theorem get_split_dataframe_generated
        (N seed : Z) (p p' : Process G) (table : DataFrame) :
  generate_all_labels N seed p = (Ok table, p') ->
  0 < N ->
  exists train val test,
    get_split_dataframe table "train" = Ok train /\
    get_split_dataframe table "val" = Ok val /\
    get_split_dataframe table "test" = Ok test /\
    (rows train ++ rows val ++ rows test)%list = rows table.
Proof.
  intros Hg HN.
  pose proof (generate_all_labels_columns _ _ _ _ _ Hg) as Hc.
  replace (0 <? N) with true in Hc by (symmetry; apply Z.ltb_lt; exact HN).
  rewrite !get_split_dataframe_rows by (rewrite Hc; simpl; tauto).
  eexists; eexists; eexists. repeat (split; [reflexivity |]).
  cbn [rows]. apply (filter_blocks (rows table) O).
  intros j r Hj. apply (b64_rows_split _ _ _ _ _ Hg j r Hj).
Qed.

(** X10.  On binary64, with a generator whose [randint] stays in
    range, [generate_all_labels] has two outcomes: for a seed that
    fits 32 bits it returns a table of [N] rows, and for every other
    seed it raises [ValueError]; in both cases it leaves the state of
    the interpreter as it was.  (The bound on the count keeps every
    quotient within the range of a float.) *)
Theorem generate_all_labels_returns `{!NumpyRandomLaws float G}
        (N seed : Z) (p : Process G) :
  N < 2 ^ 1023 ->
  (0 <= seed < 2 ^ 32 /\
   exists table,
     generate_all_labels N seed p = (Ok table, p) /\
     List.length (rows table) = Z.to_nat N) \/
  (~ 0 <= seed < 2 ^ 32 /\ generate_all_labels N seed p = (Raise ValueError, p)).
Proof.
  intros HN.
  destruct (Z_le_dec 0 seed) as [Hlo | Hlo], (Z_lt_dec seed (2 ^ 32)) as [Hhi | Hhi].
  2, 3, 4: right; split; [lia |]; unfold generate_all_labels, py_lift;
    rewrite RandomState_invalid by lia; reflexivity.
  left. split; [lia |].
  destruct (label_loop_returns (Z.to_nat N) 0 [] (rs_seeded seed)) as [out [rng' Hl]].
  { intros i Hi. exists (configured_split i).
    apply b64_assign_split_configured. lia. }
  assert (Hg : generate_all_labels N seed p = (Ok (pd_DataFrame out), p)).
  { unfold generate_all_labels, py_lift. f_equal.
    rewrite RandomState_valid by lia. cbn [bind PyResult_monad].
    rewrite Hl. reflexivity. }
  exists (pd_DataFrame out). split; [exact Hg |].
  apply (generate_all_labels_records _ _ _ _ _ Hg).
Qed.
End b64_table.

(** ** Inputs of the image generators *)

Lemma list_index_unknown (l : list string) (x : string) :
  ~ In x l -> list_index l x = Raise ValueError.
Proof.
  induction l as [| y l IH]; intros Hx; simpl; [reflexivity |].
  destruct (String.eqb_spec y x) as [-> | Hne].
  - exfalso. apply Hx. left; reflexivity.
  - rewrite IH; [reflexivity |]. intros Hin. apply Hx. right; exact Hin.
Qed.

Section image_inputs.
Context {F G : Type} `{PyFloat F} `{NumpyRandom F G} `{NumpyMath F} `{Hashlib}.

Lemma sample_list_returns (draw : Rand G F) (n : nat) :
  rand_ok draw (fun _ => True) -> rand_ok (sample_list n draw) (fun _ => True).
Proof.
  intros Hd. induction n as [| n IH]; cbn [sample_list].
  - apply rand_ok_ret. exact I.
  - eapply rand_ok_bind; [exact Hd |]. intros v _.
    eapply rand_ok_bind; [exact IH |]. intros vs _.
    apply rand_ok_ret. exact I.
Qed.

Lemma sample_rows_returns (draw : Rand G F) (n w : nat) :
  rand_ok draw (fun _ => True) -> rand_ok (sample_rows n w draw) (fun _ => True).
Proof.
  intros Hd. induction n as [| n IH]; cbn [sample_rows].
  - apply rand_ok_ret. exact I.
  - eapply rand_ok_bind; [apply sample_list_returns, Hd |]. intros row _.
    eapply rand_ok_bind; [exact IH |]. intros rest _.
    apply rand_ok_ret. exact I.
Qed.

(** A sampler of draws that always return fills an array, unless a
    dimension is negative. *)
Lemma sample_array_outcome (draw : Rand G F) (h w : Z) (s : G) :
  rand_ok draw (fun _ => True) ->
  if (h <? 0) || (w <? 0) then sample_array h w draw s = Raise ValueError
  else exists a s', sample_array h w draw s = Ok (a, s').
Proof.
  intros Hd. unfold sample_array. destruct ((h <? 0) || (w <? 0)); [reflexivity |].
  destruct (sample_rows_returns draw (Z.to_nat h) (Z.to_nat w) Hd s) as [a [s' [E _]]].
  exists a, s'. exact E.
Qed.

Ltac rejected_generator h w s Hbad :=
  cbn [bind Rand_monad PyResult_monad];
  match goal with
  | |- context [sample_array h w ?d s] =>
      let Ho := fresh "Ho" in
      pose proof (sample_array_outcome d h w s
                    ltac:(first [apply rng_normal_ok | apply rng_gamma_ok])) as Ho;
      let Eneg := fresh "Eneg" in
      destruct ((h <? 0) || (w <? 0)) eqn:Eneg;
      [ rewrite Ho; reflexivity
      | let a := fresh "a" in
        let s' := fresh "s" in
        destruct Ho as [a [s' ->]];
        destruct Hbad as [Hbad | Hbad];
        [ rewrite (list_index_unknown _ _ Hbad); reflexivity
        | apply orb_false_iff in Eneg; destruct Eneg as [E1 E2];
          rewrite Z.ltb_ge in E1, E2; lia ] ]
  end.

(** X23.  Each of the three image generators raises [ValueError], and
    leaves the interpreter as it was, when the stage is not one of
    F0..F4 or the requested height or width is negative. *)
Theorem image_generators_reject (pid stage : string) (h w : Z) (p : Process G) :
  ~ In stage FIBROSIS_STAGES \/ h < 0 \/ w < 0 ->
  generate_mri_image pid stage (h, w) p = (Raise ValueError, p) /\
  generate_ct_image pid stage (h, w) p = (Raise ValueError, p) /\
  generate_ultrasound_image pid stage (h, w) p = (Raise ValueError, p).
Proof.
  intros Hbad. destruct (anatomy_params_returns pid) as [params Hp].
  unfold generate_mri_image, generate_ct_image, generate_ultrasound_image.
  cbn [bind Py_monad]. rewrite !Hp. unfold py_lift.
  split; [| split]; f_equal.
  - rejected_generator h w (rng params) Hbad.
  - rejected_generator h w (rng params) Hbad.
  - rejected_generator h w (rng params) Hbad.
Qed.

Lemma shaped_block (h w : Z) (block : Rand G (list (list F))) (s : G) (p : Process G) :
  rand_ok block (has_shape h w) ->
  exists image,
    py_lift ('(image, _) <- block s ;; ret image) p = (Ok image, p) /\
    has_shape h w image.
Proof.
  intros Hb. destruct (Hb s) as [image [s' [E Hs]]].
  exists image. unfold py_lift. cbn [bind PyResult_monad]. rewrite E.
  split; [reflexivity | exact Hs].
Qed.

Ltac shape_steps h w Hh Hw Hstage :=
  eapply rand_ok_bind;
    [apply sample_array_ok;
     [exact Hh | exact Hw | first [apply rng_normal_ok | apply rng_gamma_ok]] |];
  intros background Hbg;
  destruct (list_index_stage _ Hstage) as [stage_index Hidx]; rewrite Hidx;
  eapply rand_ok_bind; [apply rand_ok_lift; exact I |];
  intros idx _;
  eapply rand_ok_bind;
    [apply sample_array_ok;
     [exact Hh | exact Hw | first [apply rng_normal_ok | apply rng_gamma_ok]] |];
  intros liver Hliver;
  eapply rand_ok_bind with (P := has_shape h w);
    [ match goal with
      | |- rand_ok (if ?c then _ else _) _ =>
          destruct c;
          [ eapply rand_ok_bind; [apply rng_poisson_ok |];
            intros num_spots _;
            apply spot_loop_ok;
            [exact Hh | exact Hw | lia | apply mask_shape | exact Hliver]
          | apply rand_ok_ret; exact Hliver ]
      end
    | intros liver' Hliver';
      apply rand_ok_ret; unfold clip_float32;
      apply array_map_shape, np_where_shape;
      [apply mask_shape | exact Hliver' | apply array_map_shape; exact Hbg] ].

Ltac shaped_generator h w params p Hh Hw Hstage image Eimage Himage :=
  match goal with
  | |- context [py_lift ?c p] =>
      match c with
      | bind (?block (rng params)) _ =>
          destruct (shaped_block h w block (rng params) p) as [image [Eimage Himage]];
          [shape_steps h w Hh Hw Hstage |]
      end
  end;
  rewrite Eimage; clear Eimage.

(** X24.  On every float arithmetic, binary64 with its NaN included,
    and with a generator whose [randint] stays in range, each of the
    three image generators returns for a stage of F0..F4 and a
    positive height and width, the array it returns has exactly the
    requested shape, and the interpreter is left as it was. *)
Theorem image_generators_return `{!NumpyRandomLaws F G}
        (pid stage : string) (h w : Z) (p : Process G) :
  In stage FIBROSIS_STAGES -> 0 < h -> 0 < w ->
  exists mri ct us,
    generate_mri_image pid stage (h, w) p = (Ok mri, p) /\
    generate_ct_image pid stage (h, w) p = (Ok ct, p) /\
    generate_ultrasound_image pid stage (h, w) p = (Ok us, p) /\
    has_shape h w mri /\ has_shape h w ct /\ has_shape h w us.
Proof.
  intros Hstage Hh Hw.
  destruct (anatomy_params_returns pid) as [params Hp].
  unfold generate_mri_image, generate_ct_image, generate_ultrasound_image.
  cbn [bind Py_monad]. rewrite !Hp.
  shaped_generator h w params p Hh Hw Hstage mri Emri Hmri.
  shaped_generator h w params p Hh Hw Hstage ct Ect Hct.
  shaped_generator h w params p Hh Hw Hstage us Eus Hus.
  exists mri, ct, us.
  split; [reflexivity |]. split; [reflexivity |]. split; [reflexivity |].
  split; [exact Hmri |]. split; [exact Hct | exact Hus].
Qed.

End image_inputs.

(** ** Concrete runs of the further properties *)

Lemma lcg_choice_laws {F : Type} `{PyFloat F} : @NumpyChoiceLaws F Z lcg_random.
Proof.
  constructor. intros a p s Ha. simpl.
  apply nth_In.
  assert (0 < Z.of_nat (List.length a)) by (destruct a; [contradiction | simpl; lia]).
  pose proof (Z.mod_pos_bound (lcg_next s) (Z.of_nat (List.length a)) ltac:(lia)). lia.
Qed.

Lemma assign_split_returns_key_witness :
  exists s, assign_split (F := float) 7 10 SPLIT_RATIOS = Ok s /\
            In s (map fst (SPLIT_RATIOS (F := float))).
Proof.
  apply (assign_split_returns_key (F := float) 7 10 SPLIT_RATIOS).
  - discriminate.
  - vm_compute. reflexivity.
  - lia.
Defined.

Lemma assign_split_configured_blocks_witness :
  assign_split (F := float) 849 NUM_PATIENTS SPLIT_RATIOS = Ok "val".
Proof.
  apply (assign_split_configured_blocks 849).
  split; [lia | vm_compute; reflexivity].
Defined.

Lemma get_patient_id_width_witness :
  String.length (get_patient_id 42 "PAT") = (String.length "PAT" + 5)%nat.
Proof. apply (get_patient_id_width "PAT" 42). lia. Defined.

Lemma set_global_seed_sets_all_witness :
  exists p',
    @set_global_seed float Z lcg_random 42 (fresh_process Z) = (Ok tt, p') /\
    py_random_seed p' = Some 42 /\
    np_global p' = Some (@rs_seeded float Z lcg_random 42) /\
    dict_get (environ p') "PYTHONHASHSEED" = Ok (py_str_int 42) /\
    forall k, k <> "PYTHONHASHSEED" ->
              dict_get (environ p') k = dict_get (environ (fresh_process Z)) k.
Proof.
  apply (@set_global_seed_sets_all float Z lcg_random 42 (fresh_process Z)).
  split; [lia | vm_compute; reflexivity].
Defined.

Lemma set_global_seed_rejects_witness :
  exists p',
    @set_global_seed float Z lcg_random (-1) (fresh_process Z) = (Raise ValueError, p') /\
    py_random_seed p' = Some (-1) /\
    np_global p' = np_global (fresh_process Z) /\
    environ p' = environ (fresh_process Z).
Proof.
  apply (@set_global_seed_rejects float Z lcg_random (-1) (fresh_process Z)).
  lia.
Defined.

Lemma set_global_seed_overrides_witness :
  @set_global_seed float Z lcg_random 42
    (snd (@set_global_seed float Z lcg_random (-1) (fresh_process Z)))
  = @set_global_seed float Z lcg_random 42 (fresh_process Z).
Proof.
  apply (@set_global_seed_overrides float Z lcg_random (-1) 42 (fresh_process Z)).
  split; [lia | vm_compute; reflexivity].
Defined.

Lemma generate_all_labels_returns_witness :
  (0 <= 42 < 2 ^ 32 /\
   exists table,
     @generate_all_labels float Z b64_float lcg_random 5 42 (fresh_process Z)
     = (Ok table, fresh_process Z) /\
     List.length (rows table) = Z.to_nat 5) \/
  (~ 0 <= 42 < 2 ^ 32 /\
   @generate_all_labels float Z b64_float lcg_random 5 42 (fresh_process Z)
   = (Raise ValueError, fresh_process Z)).
Proof.
  apply (@generate_all_labels_returns Z lcg_random lcg_random_laws 5 42 (fresh_process Z)).
  vm_compute. reflexivity.
Defined.

Lemma generate_all_labels_schema_witness :
  exists table q,
    @generate_all_labels float Z b64_float lcg_random 3 42 (fresh_process Z)
    = (Ok table, q) /\
    (0 < 3 ->
     columns table
     = ["patient_id"; "fibrosis_stage"; "binary_label"; "split"; "age"; "sex"]) /\
    Forall (fun r =>
              In (fibrosis_stage r) FIBROSIS_STAGES /\
              In (binary_label r) ["negative"; "positive"] /\
              In (split r) ["train"; "val"; "test"] /\
              AGE_MIN <= age r <= AGE_MAX /\
              In (sex r) SEX_OPTIONS) (rows table).
Proof.
  destruct (@generate_all_labels float Z b64_float lcg_random 3 42 (fresh_process Z))
    as [[table | e] q] eqn:E; [| vm_compute in E; discriminate].
  exists table, q. split; [reflexivity |].
  exact (@generate_all_labels_schema float Z b64_float lcg_random lcg_choice_laws
           3 42 (fresh_process Z) q table E).
Defined.

Lemma generate_all_labels_patient_ids_witness :
  exists table q,
    @generate_all_labels float Z b64_float lcg_random 3 42 (fresh_process Z)
    = (Ok table, q) /\
    map patient_id (rows table) = map (fun i => get_patient_id i "PAT") (zrange 3) /\
    NoDup (map patient_id (rows table)).
Proof.
  destruct (@generate_all_labels float Z b64_float lcg_random 3 42 (fresh_process Z))
    as [[table | e] q] eqn:E; [| vm_compute in E; discriminate].
  exists table, q. split; [reflexivity |].
  exact (@generate_all_labels_patient_ids float Z b64_float lcg_random
           3 42 (fresh_process Z) q table E).
Defined.

Lemma generate_all_labels_prefix_witness :
  exists table q,
    @generate_all_labels float Z b64_float lcg_random 3 42 (fresh_process Z)
    = (Ok table, q) /\
    exists shorter,
      @generate_all_labels float Z b64_float lcg_random 2 42 (fresh_process Z)
      = (Ok shorter, fresh_process Z) /\
      rows shorter = firstn (Z.to_nat 2) (rows table).
Proof.
  destruct (@generate_all_labels float Z b64_float lcg_random 3 42 (fresh_process Z))
    as [[table | e] q] eqn:E; [| vm_compute in E; discriminate].
  exists table, q. split; [reflexivity |].
  apply (@generate_all_labels_prefix float Z b64_float lcg_random
           2 3 42 (fresh_process Z) q table); [lia | exact E].
Defined.

Lemma generate_all_labels_seed_independent_witness :
  exists table1 q1 table2 q2,
    @generate_all_labels float Z b64_float lcg_random 3 42 (fresh_process Z)
    = (Ok table1, q1) /\
    @generate_all_labels float Z b64_float lcg_random 3 7 (fresh_process Z)
    = (Ok table2, q2) /\
    columns table1 = columns table2 /\
    map patient_id (rows table1) = map patient_id (rows table2) /\
    map split (rows table1) = map split (rows table2).
Proof.
  destruct (@generate_all_labels float Z b64_float lcg_random 3 42 (fresh_process Z))
    as [[table1 | e] q1] eqn:E1; [| vm_compute in E1; discriminate].
  destruct (@generate_all_labels float Z b64_float lcg_random 3 7 (fresh_process Z))
    as [[table2 | e] q2] eqn:E2; [| vm_compute in E2; discriminate].
  exists table1, q1, table2, q2. split; [reflexivity |]. split; [reflexivity |].
  exact (@generate_all_labels_seed_independent float Z b64_float lcg_random
           3 42 7 (fresh_process Z) q1 (fresh_process Z) q2 table1 table2 E1 E2).
Defined.

Lemma generated_image_filenames_distinct_witness :
  exists table q,
    @generate_all_labels float Z b64_float lcg_random 3 42 (fresh_process Z)
    = (Ok table, q) /\
    NoDup (flat_map (fun r => map (fun m => get_image_filename (patient_id r) m ".npy")
                                  (map fst IMAGE_RESOLUTIONS))
                    (rows table)).
Proof.
  destruct (@generate_all_labels float Z b64_float lcg_random 3 42 (fresh_process Z))
    as [[table | e] q] eqn:E; [| vm_compute in E; discriminate].
  exists table, q. split; [reflexivity |].
  apply (@generated_image_filenames_distinct float Z b64_float lcg_random
           3 42 (fresh_process Z) q table (map fst IMAGE_RESOLUTIONS) ".npy" E).
  repeat constructor; simpl; intuition discriminate.
Defined.

Lemma get_split_dataframe_partition_witness :
  exists train val test,
    get_split_dataframe shuffled_table "train" = Ok train /\
    get_split_dataframe shuffled_table "val" = Ok val /\
    get_split_dataframe shuffled_table "test" = Ok test /\
    Permutation (rows train ++ rows val ++ rows test) (rows shuffled_table).
Proof.
  apply (get_split_dataframe_partition shuffled_table).
  - simpl. tauto.
  - repeat constructor; simpl; tauto.
Defined.

Lemma get_split_unknown_name_witness :
  get_split_indices (F := float) shuffled_table "holdout" = Raise ValueError /\
  (In "split" (columns shuffled_table) ->
   Forall (fun r => In (split r) ["train"; "val"; "test"]) (rows shuffled_table) ->
   get_split_dataframe shuffled_table "holdout"
   = Ok {| columns := columns shuffled_table; rows := [] |}).
Proof.
  apply (get_split_unknown_name (F := float) shuffled_table "holdout").
  simpl. intuition discriminate.
Defined.

Lemma generate_all_labels_empty_witness :
  @generate_all_labels float Z b64_float lcg_random 0 42 (fresh_process Z)
  = (Ok {| columns := []; rows := [] |}, fresh_process Z) /\
  get_split_dataframe {| columns := []; rows := [] |} "train" = Raise KeyError /\
  (In "train" ["train"; "val"; "test"] ->
   get_split_indices (F := float) {| columns := []; rows := [] |} "train"
   = Raise KeyError).
Proof.
  apply (@generate_all_labels_empty float Z b64_float lcg_random 0 42 (fresh_process Z)
           "train").
  - lia.
  - split; [lia | vm_compute; reflexivity].
Defined.

Lemma generate_all_labels_splits_witness :
  exists table q,
    @generate_all_labels float Z b64_float lcg_random 3 42 (fresh_process Z)
    = (Ok table, q) /\
    map split (rows table)
    = map (fun i => if i <? 700 then "train" else if i <? 850 then "val" else "test")
          (zrange 3).
Proof.
  destruct (@generate_all_labels float Z b64_float lcg_random 3 42 (fresh_process Z))
    as [[table | e] q] eqn:E; [| vm_compute in E; discriminate].
  exists table, q. split; [reflexivity |].
  exact (@generate_all_labels_splits Z lcg_random 3 42 (fresh_process Z) q table E).
Defined.

Lemma get_split_indices_generated_witness :
  exists table q,
    @generate_all_labels float Z b64_float lcg_random 3 42 (fresh_process Z)
    = (Ok table, q) /\
    get_split_indices (F := float) table "train"
    = Ok (map (fun i => get_patient_id i "PAT")
              (filter (fun i => String.eqb (configured_split i) "train") (zrange 3))).
Proof.
  destruct (@generate_all_labels float Z b64_float lcg_random 3 42 (fresh_process Z))
    as [[table | e] q] eqn:E; [| vm_compute in E; discriminate].
  exists table, q. split; [reflexivity |].
  apply (@get_split_indices_generated Z lcg_random 3 42 (fresh_process Z) q table
           "train" E); [lia | simpl; tauto].
Defined.

Lemma get_split_indices_counts_witness :
  exists table q,
    @generate_all_labels float Z b64_float lcg_random 3 42 (fresh_process Z)
    = (Ok table, q) /\
    exists train val test,
      get_split_indices (F := float) table "train" = Ok train /\
      get_split_indices (F := float) table "val" = Ok val /\
      get_split_indices (F := float) table "test" = Ok test /\
      Z.of_nat (List.length train) = Z.min 3 700 /\
      Z.of_nat (List.length val) = Z.max 0 (Z.min 3 850 - 700) /\
      Z.of_nat (List.length test) = Z.max 0 (3 - 850).
Proof.
  destruct (@generate_all_labels float Z b64_float lcg_random 3 42 (fresh_process Z))
    as [[table | e] q] eqn:E; [| vm_compute in E; discriminate].
  exists table, q. split; [reflexivity |].
  apply (@get_split_indices_counts Z lcg_random 3 42 (fresh_process Z) q table E).
  lia.
Defined.

Lemma get_split_dataframe_generated_witness :
  exists table q,
    @generate_all_labels float Z b64_float lcg_random 3 42 (fresh_process Z)
    = (Ok table, q) /\
    exists train val test,
      get_split_dataframe table "train" = Ok train /\
      get_split_dataframe table "val" = Ok val /\
      get_split_dataframe table "test" = Ok test /\
      (rows train ++ rows val ++ rows test)%list = rows table.
Proof.
  destruct (@generate_all_labels float Z b64_float lcg_random 3 42 (fresh_process Z))
    as [[table | e] q] eqn:E; [| vm_compute in E; discriminate].
  exists table, q. split; [reflexivity |].
  apply (@get_split_dataframe_generated Z lcg_random 3 42 (fresh_process Z) q table E).
  lia.
Defined.

Lemma image_generators_reject_witness :
  @generate_mri_image float Z b64_float lcg_random series_math polynomial_hash
    "PAT_0000" "F5" (32, 32) (fresh_process Z) = (Raise ValueError, fresh_process Z) /\
  @generate_ct_image float Z b64_float lcg_random series_math polynomial_hash
    "PAT_0000" "F5" (32, 32) (fresh_process Z) = (Raise ValueError, fresh_process Z) /\
  @generate_ultrasound_image float Z b64_float lcg_random series_math polynomial_hash
    "PAT_0000" "F5" (32, 32) (fresh_process Z) = (Raise ValueError, fresh_process Z).
Proof.
  apply (@image_generators_reject float Z b64_float lcg_random series_math polynomial_hash
           "PAT_0000" "F5" 32 32 (fresh_process Z)).
  left. simpl. intuition discriminate.
Defined.

Lemma image_generators_return_witness :
  exists mri ct us,
    @generate_mri_image float Z b64_float lcg_random series_math polynomial_hash
      "PAT_0000" "F3" (256, 256) (fresh_process Z) = (Ok mri, fresh_process Z) /\
    @generate_ct_image float Z b64_float lcg_random series_math polynomial_hash
      "PAT_0000" "F3" (256, 256) (fresh_process Z) = (Ok ct, fresh_process Z) /\
    @generate_ultrasound_image float Z b64_float lcg_random series_math polynomial_hash
      "PAT_0000" "F3" (256, 256) (fresh_process Z) = (Ok us, fresh_process Z) /\
    has_shape 256 256 mri /\ has_shape 256 256 ct /\ has_shape 256 256 us.
Proof.
  apply (@image_generators_return float Z b64_float lcg_random series_math
           polynomial_hash lcg_random_laws "PAT_0000" "F3" 256 256 (fresh_process Z)).
  - simpl. tauto.
  - lia.
  - lia.
Defined.


(** The configured run of a thousand patients on binary64: 700 in
    "train", 150 in "val" and 150 in "test". *)
Example configured_split_counts :
  map (fun s => List.length (filter (fun i => String.eqb (configured_split i) s)
                                    (zrange NUM_PATIENTS)))
      ["train"; "val"; "test"]
  = [700; 150; 150]%nat.
Proof. vm_compute. reflexivity. Qed.
